(** * Slot materialisation and booking in care: a shallow embedding

    Sources embedded here:
    - [care/emr/api/viewsets/scheduling/availability.py]
      ([convert_availability_to_slots], [lock_create_appointment],
      [SlotViewSet.get_slots_for_day_handler],
      [SlotViewSet.create_appointment_handler], [SlotViewSet.create_appointment]);
    - [care/facility/models/consultation_symptom.py]
      ([Symptom], [ConsultationSymptom.save]).

    Python integers are [Z].  Database tables are lists of rows in table
    order.  A Python [dict] is an insertion-ordered association list, because
    the handler creates rows while iterating over one. *)

From Stdlib Require Import ZArith List String Ascii Bool Lia.
Import ListNotations.

Open Scope string_scope.
Open Scope Z_scope.

(* ===================================================================== *)
(** * Part I: definitions                                                 *)
(* ===================================================================== *)

(** ** Exceptions and results *)

Inductive exn : Type :=
| ValidationError (detail : string)   (* rest_framework.exceptions *)
| ValueError (detail : string)        (* Python built-in *)
| Http404                             (* get_object finds no row *)
| DoesNotExist.                       (* dangling foreign key *)

(** Outcome of a call: a returned value, a raised exception, or [Diverges]
    when a bounded loop of the model ran out of budget (shown unreachable
    for the only loop of the program, see [while_current_time_returns]). *)
Inductive result (A : Type) : Type :=
| Return (a : A)
| Raise (e : exn)
| Diverges.

Arguments Return {A} a.
Arguments Raise {A} e.
Arguments Diverges {A}.

Definition bind {A B : Type} (r : result A) (k : A -> result B) : result B :=
  match r with
  | Return a => k a
  | Raise e => Raise e
  | Diverges => Diverges
  end.

Notation "x <- r ;; k" := (bind r (fun x => k))
  (at level 61, r at next level, right associativity).

(** ** Python [dict] with string keys, in insertion order *)

Section PyDict.
Context {V : Type}.

Definition dict : Type := list (string * V).

(** [d.get(k)] *)
Fixpoint dict_get (k : string) (d : dict) : option V :=
  match d with
  | [] => None
  | (k', v) :: d' => if String.eqb k k' then Some v else dict_get k d'
  end.

(** [k in d] *)
Definition dict_contains (k : string) (d : dict) : bool :=
  match dict_get k d with Some _ => true | None => false end.

(** [d[k] = v]: an existing key keeps its position, a new key goes last. *)
Fixpoint dict_set (k : string) (v : V) (d : dict) : dict :=
  match d with
  | [] => [(k, v)]
  | (k', v') :: d' =>
      if String.eqb k k' then (k, v) :: d' else (k', v') :: dict_set k v d'
  end.

(** [d.pop(k)] for a key that is present (the value is not used). *)
Fixpoint dict_pop (k : string) (d : dict) : dict :=
  match d with
  | [] => []
  | (k', v') :: d' =>
      if String.eqb k k' then dict_pop k d' else (k', v') :: dict_pop k d'
  end.

Definition dict_keys (d : dict) : list string := map fst d.
End PyDict.

Arguments dict V : clear implicits.

(** ** [datetime]: dates, times of day and datetimes

    A [time] is the number of microseconds since midnight, a [date] is a
    proleptic Gregorian ordinal, a [datetime] is the number of microseconds
    since midnight of ordinal 0, counted in the zone of [timezone.now()],
    in which the program builds its datetimes.  Python keeps datetimes
    within the years 1 to 9999 and raises [OverflowError] beyond; the
    arithmetic here has no such limit, so statements that say the
    expansion returns bound the slot size (see [sane_slot_size]). *)

Definition time : Type := Z.
Definition date : Type := Z.
Definition datetime : Type := Z.

Definition US_PER_SECOND : Z := 1000000.
Definition US_PER_MINUTE : Z := 60000000.
Definition US_PER_HOUR : Z := 3600000000.
Definition US_PER_DAY : Z := 86400000000.

(** [datetime.timedelta(minutes=m)] *)
Definition timedelta_minutes (m : Z) : Z := m * US_PER_MINUTE.

(** [dt.time()] and [dt.date()] *)
Definition datetime_time (dt : datetime) : time := dt mod US_PER_DAY.
Definition datetime_date (dt : datetime) : date := dt / US_PER_DAY.

(** [datetime.datetime.combine(d, t, tzinfo=...)] *)
Definition combine (d : date) (t : time) : datetime := d * US_PER_DAY + t.

(** [d.weekday()]: Monday is 0; ordinal 1 (0001-01-01) is a Monday. *)
Definition weekday (d : date) : Z := (d + 6) mod 7.

(** [dateutil.parser.parse] of a time-of-day string yields that time on the
    current day.  The stored string is represented by the time of day it
    denotes, and datetimes inside [convert_availability_to_slots] are counted
    from midnight of the current day. *)
Definition parse (t : time) : datetime := combine 0 t.

(** [str(t)] for a [datetime.time]: [HH:MM:SS], followed by [.ffffff] when
    the microsecond field is not zero. *)
Definition digit (n : Z) : ascii := ascii_of_nat (48 + Z.to_nat (n mod 10)).

Definition pad2 (n : Z) : string :=
  String (digit (n / 10)) (String (digit n) EmptyString).

Definition pad6 (n : Z) : string :=
  String (digit (n / 100000)) (String (digit (n / 10000))
  (String (digit (n / 1000)) (String (digit (n / 100))
  (String (digit (n / 10)) (String (digit n) EmptyString))))).

Definition time_hour (t : time) : Z := t / US_PER_HOUR.
Definition time_minute (t : time) : Z := (t / US_PER_MINUTE) mod 60.
Definition time_second (t : time) : Z := (t / US_PER_SECOND) mod 60.
Definition time_microsecond (t : time) : Z := t mod US_PER_SECOND.

Definition time_fraction (us : Z) : string :=
  if us =? 0 then EmptyString else String "."%char (pad6 us).

Definition time_str (t : time) : string :=
  pad2 (time_hour t) ++ String ":"%char (pad2 (time_minute t)
    ++ String ":"%char (pad2 (time_second t)
    ++ time_fraction (time_microsecond t))).

(** ** [convert_availability_to_slots] *)

(** One entry of [Availability.availability] (a JSON list). *)
Record DayAvailability : Type := {
  day_of_week : Z;
  start_time : time;
  end_time : time
}.

(** One element of [calculated_dow_availabilities]. *)
Record DowAvailability : Type := {
  availability : DayAvailability;
  slot_size_in_minutes : Z;
  availability_id : Z
}.

(** One value of the [slots] dict. *)
Record SlotCandidate : Type := {
  cand_start_time : time;
  cand_end_time : time;
  cand_availability_id : Z
}.

(** The f-string [f"{a}-{b}"] used as dict key, for two times of day. *)
Definition slot_key (a b : time) : string :=
  time_str a ++ String "-"%char (time_str b).

(** The [while current_time < end_time] loop of one availability, started at
    loop counter [i] with the dict [slots].  [fuel] bounds the number of
    iterations of the model; [None] means the budget ran out.  The
    additions are those of unbounded integers: the [OverflowError] that
    Python raises when a datetime leaves the years 1 to 9999 is not
    modelled, and the loop is the loop of the code for slot sizes that keep
    the datetimes in that range (see [sane_slot_size]). *)
Fixpoint while_current_time (fuel : nat) (end_time_ : datetime)
    (slot_size : Z) (avail_id : Z)
    (current_time : datetime) (i : Z) (slots : dict SlotCandidate)
    : option (dict SlotCandidate) :=
  match fuel with
  | O => None
  | S fuel' =>
      if current_time <? end_time_ then
        let i := i + 1 in
        if i =? 30 then Some slots            (* failsafe: break *)
        else
          let next := current_time + timedelta_minutes slot_size in
          let slots :=
            dict_set
              (slot_key (datetime_time current_time) (datetime_time next))
              {| cand_start_time := datetime_time current_time;
                 cand_end_time := datetime_time next;
                 cand_availability_id := avail_id |}
              slots in
          while_current_time fuel' end_time_ slot_size avail_id next i slots
      else Some slots
  end.

(** Iterations granted to the loop: the failsafe breaks in the 30th. *)
Definition loop_budget : nat := 30.

(** Body of [for availability in availabilities]. *)
Definition expand_availability (a : DowAvailability)
    (slots : dict SlotCandidate) : option (dict SlotCandidate) :=
  let start_time_ := parse (start_time (availability a)) in
  let end_time_ := parse (end_time (availability a)) in
  while_current_time loop_budget end_time_ (slot_size_in_minutes a)
    (availability_id a) start_time_ 0 slots.

Fixpoint for_availability (availabilities : list DowAvailability)
    (slots : dict SlotCandidate) : option (dict SlotCandidate) :=
  match availabilities with
  | [] => Some slots
  | a :: rest =>
      match expand_availability a slots with
      | Some slots' => for_availability rest slots'
      | None => None
      end
  end.

Definition convert_availability_to_slots
    (availabilities : list DowAvailability) : option (dict SlotCandidate) :=
  for_availability availabilities [].


(** ** Database rows

    The Django models themselves ([User], [SchedulableResource], [Schedule],
    [Availability], [TokenSlot], [TokenBooking], [PatientRegistration]) are
    declared outside the two source files; the records carry the columns the
    two files read and write.  A foreign key holds the primary key of the
    row it references, so [slot.availability.id] is the column
    [slot_availability] and [token_slot.resource.id] is [slot_resource]. *)

Definition UUID4 : Type := Z.

Record User : Type := {
  user_id : Z;
  user_external_id : UUID4
}.

Record SchedulableResource : Type := {
  sr_id : Z;
  sr_facility_external_id : UUID4;     (* facility__external_id *)
  sr_resource_id : Z;
  sr_resource_type : string
}.

Record Schedule : Type := {
  schedule_id : Z;
  schedule_resource : Z;               (* FK SchedulableResource *)
  valid_from : date;
  valid_to : date
}.

Record Availability : Type := {
  avail_id : Z;
  avail_schedule : Z;                  (* FK Schedule *)
  slot_type : string;
  avail_slot_size_in_minutes : Z;
  tokens_per_slot : Z;
  avail_availability : list DayAvailability
}.

Record TokenSlot : Type := {
  slot_id : Z;
  slot_resource : Z;                   (* FK SchedulableResource *)
  start_datetime : datetime;
  end_datetime : datetime;
  slot_availability : Z;               (* FK Availability *)
  allocated : Z
}.

Record PatientRegistration : Type := {
  patient_id : Z;
  patient_external_id : UUID4
}.

Record TokenBooking : Type := {
  booking_id : Z;
  token_slot : Z;                      (* FK TokenSlot *)
  patient : Z;                         (* FK PatientRegistration *)
  booked_by : Z;                       (* FK User *)
  reason_for_visit : string;
  status : string
}.

Record DB : Type := {
  users : list User;
  schedulable_resources : list SchedulableResource;
  schedules : list Schedule;
  availabilities : list Availability;
  patients : list PatientRegistration;
  token_slots : list TokenSlot;
  token_slot_seq : Z;                  (* next primary key of token_slots *)
  token_bookings : list TokenBooking;
  token_booking_seq : Z;               (* next primary key of token_bookings *)
  time_zone_offset : Z                 (* current time zone of the store, in
                                          microseconds ahead of the zone of
                                          timezone.now() *)
}.

Definition with_token_slots (db : DB) (rows : list TokenSlot) (seq : Z) : DB :=
  {| users := users db;
     schedulable_resources := schedulable_resources db;
     schedules := schedules db;
     availabilities := availabilities db;
     patients := patients db;
     token_slots := rows;
     token_slot_seq := seq;
     token_bookings := token_bookings db;
     token_booking_seq := token_booking_seq db;
     time_zone_offset := time_zone_offset db |}.

Definition with_token_bookings (db : DB) (rows : list TokenBooking) (seq : Z)
    : DB :=
  {| users := users db;
     schedulable_resources := schedulable_resources db;
     schedules := schedules db;
     availabilities := availabilities db;
     patients := patients db;
     token_slots := token_slots db;
     token_slot_seq := token_slot_seq db;
     token_bookings := rows;
     token_booking_seq := seq;
     time_zone_offset := time_zone_offset db |}.

(** Modelled from the spec: [TokenSlot.objects.create] of the absent
    [TokenSlot] model; a new Slot starts with [allocated = 0] and receives
    the next primary key. *)
Definition TokenSlot_objects_create (db : DB) (resource : Z)
    (start_dt end_dt : datetime) (avail : Z) : DB :=
  with_token_slots db
    (token_slots db ++
       [ {| slot_id := token_slot_seq db;
            slot_resource := resource;
            start_datetime := start_dt;
            end_datetime := end_dt;
            slot_availability := avail;
            allocated := 0 |} ])
    (token_slot_seq db + 1).

(** [token_slot.save()] of an instance that has a primary key: Django
    updates the row with that key, every column taken from the instance,
    and inserts the instance when no row has the key. *)
Fixpoint update_slot_row (obj : TokenSlot) (rows : list TokenSlot)
    : list TokenSlot :=
  match rows with
  | [] => [obj]
  | r :: rows' =>
      if slot_id r =? slot_id obj then obj :: rows'
      else r :: update_slot_row obj rows'
  end.

Definition TokenSlot_save (db : DB) (obj : TokenSlot) : DB :=
  with_token_slots db (update_slot_row obj (token_slots db)) (token_slot_seq db).

(** [TokenBooking.objects.create(...)]: returns the new row. *)
Definition TokenBooking_objects_create (db : DB) (slot : Z) (patient_ : Z)
    (booked_by_ : Z) (reason : string) (status_ : string)
    : DB * TokenBooking :=
  let row := {| booking_id := token_booking_seq db;
                token_slot := slot;
                patient := patient_;
                booked_by := booked_by_;
                reason_for_visit := reason;
                status := status_ |} in
  (with_token_bookings db (token_bookings db ++ [row])
     (token_booking_seq db + 1), row).

(** ** Request bodies *)

Record SlotsForDayRequestSpec : Type := {
  rq_resource : UUID4;
  rq_resource_type : string;           (* default "user" *)
  rq_day : date
}.

Record AppointmentBookingSpec : Type := {
  rq_patient : UUID4;
  rq_reason_for_visit : string
}.

(** Modelled from the spec: [SlotTypeOptions.appointment.value], declared in
    the absent [care.emr.resources.scheduling.schedule.spec]. *)
Definition SlotTypeOptions_appointment : string := "appointment".

(** ** [lock_create_appointment]

    Modelled from the spec: [Lock] of the absent [care.utils.lock] is a
    mutual-exclusion scope keyed by the resource.  Together with
    [transaction.atomic()] it makes the body one indivisible step on the
    database: the function maps the database before the lock is taken to
    the database after it is released, and when the body raises nothing has
    been written.  [token_slot] is the in-memory instance the caller
    passes; the body reads [allocated] from that instance and never from
    the database. *)
Definition lock_create_appointment (db : DB) (token_slot_ : TokenSlot)
    (patient_ : PatientRegistration) (created_by : Z)
    (reason_for_visit_ : string) : result (DB * TokenBooking) :=
  match find (fun a => avail_id a =? slot_availability token_slot_)
             (availabilities db) with
  | None => Raise DoesNotExist          (* token_slot.availability *)
  | Some availability_ =>
      if allocated token_slot_ >=? tokens_per_slot availability_ then
        Raise (ValidationError "Slot is already full")
      else
        let token_slot_ :=
          {| slot_id := slot_id token_slot_;
             slot_resource := slot_resource token_slot_;
             start_datetime := start_datetime token_slot_;
             end_datetime := end_datetime token_slot_;
             slot_availability := slot_availability token_slot_;
             allocated := allocated token_slot_ + 1 |} in
        let db := TokenSlot_save db token_slot_ in
        Return (TokenBooking_objects_create db (slot_id token_slot_)
                  (patient_id patient_) created_by reason_for_visit_ "booked")
  end.

(** ** [SlotViewSet] *)

(** The [__date] lookup of the store.  Django takes the date of a stored
    datetime in the current time zone, which is a setting outside the
    sources (here the field [time_zone_offset] of the store), while the
    handler builds datetimes in the zone of [timezone.now()], the zone
    datetimes are counted in.  The lookup therefore shifts the datetime by
    the offset between the two before taking its date; [.time()] on a row
    read back is not shifted. *)
Definition date_lookup (offset : Z) (dt : datetime) : date :=
  datetime_date (dt + offset).

(** The queryset [TokenSlot.objects.filter(start_datetime__date=day,
    end_datetime__date=day, resource=obj)]. *)
Definition slots_of_day (db : DB) (day : date) (resource : Z)
    : list TokenSlot :=
  filter (fun s => (date_lookup (time_zone_offset db) (start_datetime s) =? day)
                   && (date_lookup (time_zone_offset db) (end_datetime s) =? day)
                   && (slot_resource s =? resource))
         (token_slots db).

(** The queryset [Availability.objects.filter(slot_type=..., 
    schedule__valid_from__lte=day, schedule__valid_to__gte=day,
    schedule__resource=obj)]. *)
Definition availabilities_of_day (db : DB) (day : date) (resource : Z)
    : list Availability :=
  filter (fun a =>
            String.eqb (slot_type a) SlotTypeOptions_appointment
            && match find (fun s => schedule_id s =? avail_schedule a)
                          (schedules db) with
               | Some s => (valid_from s <=? day) && (valid_to s >=? day)
                           && (schedule_resource s =? resource)
               | None => false
               end)
         (availabilities db).

(** The two nested [for] loops that fill [calculated_dow_availabilities]. *)
Definition dow_availabilities (availabilities_ : list Availability)
    (day : date) : list DowAvailability :=
  flat_map
    (fun schedule_availability =>
       map (fun day_availability =>
              {| availability := day_availability;
                 slot_size_in_minutes :=
                   avail_slot_size_in_minutes schedule_availability;
                 availability_id := avail_id schedule_availability |})
           (filter (fun day_availability =>
                      day_of_week day_availability =? weekday day)
                   (avail_availability schedule_availability)))
    availabilities_.

(** [for slot in created_slots: ... slots.pop(slot_key)] *)
Definition token_slot_key (slot : TokenSlot) : string :=
  slot_key (datetime_time (start_datetime slot))
           (datetime_time (end_datetime slot)).

Definition reconcile_step (slots : dict SlotCandidate) (slot : TokenSlot)
    : dict SlotCandidate :=
  let slot_key_ := token_slot_key slot in
  if dict_contains slot_key_ slots
     && match dict_get slot_key_ slots with
        | Some c => cand_availability_id c =? slot_availability slot
        | None => false
        end
  then dict_pop slot_key_ slots
  else slots.

Definition for_created_slots (created_slots : list TokenSlot)
    (slots : dict SlotCandidate) : dict SlotCandidate :=
  fold_left reconcile_step created_slots slots.

(** [for _slot in slots: slot = slots[_slot]; TokenSlot.objects.create(...)] *)
Definition create_from_candidate (resource : Z) (day : date)
    (slot : SlotCandidate) (db : DB) : DB :=
  TokenSlot_objects_create db resource
    (combine day (cand_start_time slot))
    (combine day (cand_end_time slot))
    (cand_availability_id slot).

Fixpoint for_slot_keys (keys : list string) (slots : dict SlotCandidate)
    (resource : Z) (day : date) (db : DB) : DB :=
  match keys with
  | [] => db
  | _slot :: rest =>
      match dict_get _slot slots with
      | Some slot =>
          for_slot_keys rest slots resource day
            (create_from_candidate resource day slot db)
      | None => db                      (* KeyError: the key comes from slots *)
      end
  end.

(** [get_slots_for_day_handler]: the new database and the rows behind the
    [results] of the response. *)
Definition get_slots_for_day_handler (db : DB) (facility_external_id : UUID4)
    (request_data : SlotsForDayRequestSpec) : result (DB * list TokenSlot) :=
  let facility := facility_external_id in
  match find (fun u => user_external_id u =? rq_resource request_data)
             (users db) with
  | None => Raise (ValidationError "Resource does not exist")
  | Some user =>
      match find (fun r => (sr_facility_external_id r =? facility)
                           && (sr_resource_id r =? user_id user)
                           && String.eqb (sr_resource_type r)
                                         (rq_resource_type request_data))
                 (schedulable_resources db) with
      | None => Raise (ValidationError "Resource is not schedulable")
      | Some schedulable_resource_obj =>
          let resource := sr_id schedulable_resource_obj in
          let day := rq_day request_data in
          let availabilities_ := availabilities_of_day db day resource in
          let calculated_dow_availabilities :=
            dow_availabilities availabilities_ day in
          match convert_availability_to_slots calculated_dow_availabilities with
          | None => Diverges
          | Some slots =>
              let created_slots := slots_of_day db day resource in
              let slots := for_created_slots created_slots slots in
              let db := for_slot_keys (dict_keys slots) slots resource day db in
              Return (db, slots_of_day db day resource)
          end
      end
  end.

(** [create_appointment_handler].  The rejection is raised with the set
    [{"Patient not found"}], whose text is the detail of the error. *)
Definition create_appointment_handler (db : DB) (obj : TokenSlot)
    (request_data : AppointmentBookingSpec) (user : Z)
    : result (DB * TokenBooking) :=
  match find (fun p => patient_external_id p =? rq_patient request_data)
             (patients db) with
  | None => Raise (ValidationError "{'Patient not found'}")
  | Some patient_ =>
      lock_create_appointment db obj patient_ user
        (rq_reason_for_visit request_data)
  end.

(** Modelled from the spec: [self.get_object()] of the absent
    [EMRBaseViewSet]; it resolves the slot identifier of the request to the
    stored Slot row and answers not-found when there is none. *)
Definition get_object (db : DB) (pk : Z) : result TokenSlot :=
  match find (fun s => slot_id s =? pk) (token_slots db) with
  | Some s => Return s
  | None => Raise Http404
  end.

(** [create_appointment]: [self.get_object()] is evaluated first, then the
    handler runs on the instance it returned. *)
Definition create_appointment (db : DB) (pk : Z)
    (request_data : AppointmentBookingSpec) (user : Z)
    : result (DB * TokenBooking) :=
  obj <- get_object db pk ;;
  create_appointment_handler db obj request_data user.

(** ** Requests in flight

    The server handles several [create_appointment] requests at a time.  A
    request first evaluates [self.get_object()] and later, holding the
    instance it fetched, runs [create_appointment_handler].  The patient
    lookup of the handler reads a table this code never writes, and the
    rest of the handler is the locked block, so a handler run is one step.
    An interleaving is a list of events; the per-resource lock is what
    makes [RunHandler] indivisible.  A day query only appends slot rows, so
    it is one step as well. *)

Record BookingRequest : Type := {
  br_slot : Z;                         (* slot identifier in the URL *)
  br_data : AppointmentBookingSpec;    (* request.data *)
  br_user : Z                          (* request.user *)
}.

Inductive Progress : Type :=
| Arrived
| Fetched (obj : TokenSlot)
| Finished (response : result TokenBooking).

Record Server : Type := {
  server_db : DB;
  in_flight : list (BookingRequest * Progress)
}.

Inductive Event : Type :=
| GetObject (n : nat)                  (* request n evaluates get_object() *)
| RunHandler (n : nat)                 (* request n runs the handler *)
| QuerySlots (facility : UUID4) (request_data : SlotsForDayRequestSpec).
                                       (* a day query is served *)

Fixpoint set_progress (n : nat) (p : Progress)
    (l : list (BookingRequest * Progress)) : list (BookingRequest * Progress) :=
  match l, n with
  | [], _ => []
  | (r, _) :: l', O => (r, p) :: l'
  | x :: l', S n' => x :: set_progress n' p l'
  end.

(** One event; [None] when the event is not enabled in the state. *)
Definition server_step (s : Server) (e : Event) : option Server :=
  match e with
  | GetObject n =>
      match nth_error (in_flight s) n with
      | Some (r, Arrived) =>
          let p := match get_object (server_db s) (br_slot r) with
                   | Return obj => Fetched obj
                   | Raise x => Finished (Raise x)
                   | Diverges => Finished Diverges
                   end in
          Some {| server_db := server_db s;
                  in_flight := set_progress n p (in_flight s) |}
      | _ => None
      end
  | RunHandler n =>
      match nth_error (in_flight s) n with
      | Some (r, Fetched obj) =>
          match create_appointment_handler (server_db s) obj
                  (br_data r) (br_user r) with
          | Return (db', booking) =>
              Some {| server_db := db';
                      in_flight :=
                        set_progress n (Finished (Return booking))
                          (in_flight s) |}
          | Raise x =>
              Some {| server_db := server_db s;
                      in_flight :=
                        set_progress n (Finished (Raise x)) (in_flight s) |}
          | Diverges =>
              Some {| server_db := server_db s;
                      in_flight :=
                        set_progress n (Finished Diverges) (in_flight s) |}
          end
      | _ => None
      end
  | QuerySlots facility request_data =>
      match get_slots_for_day_handler (server_db s) facility request_data with
      | Return (db', _) =>
          Some {| server_db := db'; in_flight := in_flight s |}
      | _ => Some s
      end
  end.

Fixpoint server_run (s : Server) (events : list Event) : option Server :=
  match events with
  | [] => Some s
  | e :: rest =>
      match server_step s e with
      | Some s' => server_run s' rest
      | None => None
      end
  end.

(** [N] requests for the same slot arrive. *)
Definition arrivals (db : DB) (requests : list BookingRequest) : Server :=
  {| server_db := db; in_flight := map (fun r => (r, Arrived)) requests |}.

Definition succeeded (p : BookingRequest * Progress) : bool :=
  match snd p with Finished (Return _) => true | _ => false end.

Definition slot_full_rejected (p : BookingRequest * Progress) : bool :=
  match snd p with
  | Finished (Raise (ValidationError "Slot is already full")) => true
  | _ => false
  end.

Definition count_succeeded (s : Server) : nat :=
  List.length (filter succeeded (in_flight s)).

Definition count_slot_full (s : Server) : nat :=
  List.length (filter slot_full_rejected (in_flight s)).

(** The value of [allocated] stored for the slot with primary key [pk]. *)
Definition stored_allocated (db : DB) (pk : Z) : option Z :=
  option_map allocated (find (fun s => slot_id s =? pk) (token_slots db)).

(** The capacity of a stored slot, through its foreign key. *)
Definition slot_capacity (db : DB) (s : TokenSlot) : option Z :=
  option_map tokens_per_slot
    (find (fun a => avail_id a =? slot_availability s) (availabilities db)).

(** ** [consultation_symptom.py] *)

Module ConsultationSymptomModel.

Inductive Symptom : Type :=
| OTHERS | FEVER | SORE_THROAT | COUGH | BREATHLESSNESS | MYALGIA
| ABDOMINAL_DISCOMFORT | VOMITING | SPUTUM | NAUSEA | CHEST_PAIN
| HEMOPTYSIS | NASAL_DISCHARGE | BODY_ACHE | DIARRHOEA | PAIN
| PEDAL_EDEMA | WOUND | CONSTIPATION | HEADACHE | BLEEDING | DIZZINESS
| CHILLS | GENERAL_WEAKNESS | IRRITABILITY | CONFUSION | ABDOMINAL_PAIN
| JOINT_PAIN | REDNESS_OF_EYES | ANOREXIA | NEW_LOSS_OF_TASTE
| NEW_LOSS_OF_SMELL.

(** The integer of each member of the [IntegerChoices] enumeration. *)
Definition Symptom_value (s : Symptom) : Z :=
  match s with
  | OTHERS => 9 | FEVER => 2 | SORE_THROAT => 3 | COUGH => 4
  | BREATHLESSNESS => 5 | MYALGIA => 6 | ABDOMINAL_DISCOMFORT => 7
  | VOMITING => 8 | SPUTUM => 11 | NAUSEA => 12 | CHEST_PAIN => 13
  | HEMOPTYSIS => 14 | NASAL_DISCHARGE => 15 | BODY_ACHE => 16
  | DIARRHOEA => 17 | PAIN => 18 | PEDAL_EDEMA => 19 | WOUND => 20
  | CONSTIPATION => 21 | HEADACHE => 22 | BLEEDING => 23 | DIZZINESS => 24
  | CHILLS => 25 | GENERAL_WEAKNESS => 26 | IRRITABILITY => 27
  | CONFUSION => 28 | ABDOMINAL_PAIN => 29 | JOINT_PAIN => 30
  | REDNESS_OF_EYES => 31 | ANOREXIA => 32 | NEW_LOSS_OF_TASTE => 33
  | NEW_LOSS_OF_SMELL => 34
  end.

(** A model instance.  [symptom] is a [SmallIntegerField]: any small
    integer can be assigned to it, [choices] is not checked by [save].
    [pk] is [None] until the instance has been inserted. *)
Record ConsultationSymptom : Type := {
  pk : option Z;
  symptom : Z;
  other_symptom : string;
  onset_date : option datetime;
  cure_date : option datetime;
  consultation : option Z;
  created_by : option Z;
  updated_by : option Z
}.

Record Table : Type := {
  rows : list ConsultationSymptom;
  seq : Z
}.

Definition with_pk (self : ConsultationSymptom) (k : Z)
    : ConsultationSymptom :=
  {| pk := Some k;
     symptom := symptom self;
     other_symptom := other_symptom self;
     onset_date := onset_date self;
     cure_date := cure_date self;
     consultation := consultation self;
     created_by := created_by self;
     updated_by := updated_by self |}.

Fixpoint update_row (k : Z) (self : ConsultationSymptom)
    (l : list ConsultationSymptom) : list ConsultationSymptom :=
  match l with
  | [] => [self]
  | r :: l' =>
      match pk r with
      | Some k' => if k' =? k then self :: l' else r :: update_row k self l'
      | None => r :: update_row k self l'
      end
  end.

(** Modelled from the spec: [super().save()], the [save] of the absent
    [care.utils.models.base.BaseModel]; it persists the instance: an
    instance without primary key is inserted under the next key, one with
    a key replaces the row of that key. *)
Definition BaseModel_save (t : Table) (self : ConsultationSymptom) : Table :=
  match pk self with
  | None =>
      {| rows := rows t ++ [with_pk self (seq t)]; seq := seq t + 1 |}
  | Some k => {| rows := update_row k self (rows t); seq := seq t |}
  end.

(** Truth value of a Python [str]. *)
Definition truthy (s : string) : bool := negb (String.eqb s "").

(** [ConsultationSymptom.save] *)
Definition save (t : Table) (self : ConsultationSymptom) : result Table :=
  if truthy (other_symptom self)
     && negb (symptom self =? Symptom_value OTHERS)
  then Raise (ValueError
                "Other Symptom should be empty when Symptom is not OTHERS")
  else Return (BaseModel_save t self).

(** A program that calls [save] on instances, one after the other; a
    raised [ValueError] leaves the table as it was. *)
Fixpoint save_all (t : Table) (l : list ConsultationSymptom) : Table :=
  match l with
  | [] => t
  | self :: l' =>
      match save t self with
      | Return t' => save_all t' l'
      | _ => save_all t l'
      end
  end.

Definition empty_table : Table := {| rows := []; seq := 1 |}.

(** The constraint [save] enforces on a row. *)
Definition other_symptom_ok (r : ConsultationSymptom) : Prop :=
  other_symptom r = "" \/ symptom r = Symptom_value OTHERS.

End ConsultationSymptomModel.

(** ** Descriptions used in the statements *)

(** A time of day as [parse] and [.time()] produce it. *)
Definition valid_time (t : time) : Prop := 0 <= t < US_PER_DAY.

(** Writing a sequence of entries into a dict, in order. *)
Definition write_all (l : list (string * SlotCandidate))
    (d : dict SlotCandidate) : dict SlotCandidate :=
  fold_left (fun d kv => dict_set (fst kv) (snd kv) d) l d.

(** The candidate number [k] (from 0) of a window that starts at [start]:
    it begins [k] slot sizes after [start] and lasts one slot size. *)
Definition candidate_at (start : datetime) (slot_size avail : Z) (k : nat)
    : string * SlotCandidate :=
  let s := start + Z.of_nat k * timedelta_minutes slot_size in
  let e := s + timedelta_minutes slot_size in
  (slot_key (datetime_time s) (datetime_time e),
   {| cand_start_time := datetime_time s;
      cand_end_time := datetime_time e;
      cand_availability_id := avail |}).

(** The first [n] candidates of the window of [a]. *)
Definition first_candidates (a : DowAvailability) (n : nat)
    : list (string * SlotCandidate) :=
  map (candidate_at (parse (start_time (availability a)))
         (slot_size_in_minutes a) (availability_id a))
      (seq 0 n).

(** The start of candidate number [k] of the window of [a]. *)
Definition start_of (a : DowAvailability) (k : nat) : datetime :=
  parse (start_time (availability a))
  + Z.of_nat k * timedelta_minutes (slot_size_in_minutes a).

(** The expansion as the specification words it, without the failsafe: every
    start that strictly precedes [end_time] has its candidate in the
    mapping. *)
Definition continues_while_before_end (a : DowAvailability) : Prop :=
  forall k : nat,
    start_of a k < parse (end_time (availability a)) ->
    exists d,
      expand_availability a [] = Some d /\
      dict_get (fst (candidate_at (parse (start_time (availability a)))
                       (slot_size_in_minutes a) (availability_id a) k)) d
      = Some (snd (candidate_at (parse (start_time (availability a)))
                     (slot_size_in_minutes a) (availability_id a) k)).

(** Hours and minutes as a time of day. *)
Definition hm (h m : Z) : time := h * US_PER_HOUR + m * US_PER_MINUTE.

Definition window (start_ end_ : time) (size avail : Z) : DowAvailability :=
  {| availability :=
       {| day_of_week := 0; start_time := start_; end_time := end_ |};
     slot_size_in_minutes := size;
     availability_id := avail |}.

(** The rows the creation loop appends for a list of entries, the first
    one under the primary key [seq]. *)
Fixpoint new_slot_rows (seq : Z) (resource : Z) (day : date)
    (entries : list (string * SlotCandidate)) : list TokenSlot :=
  match entries with
  | [] => []
  | (_, c) :: rest =>
      {| slot_id := seq;
         slot_resource := resource;
         start_datetime := combine day (cand_start_time c);
         end_datetime := combine day (cand_end_time c);
         slot_availability := cand_availability_id c;
         allocated := 0 |}
      :: new_slot_rows (seq + 1) resource day rest
  end.

(** The schedulable resource a day query resolves to (the two lookups at
    the head of [get_slots_for_day_handler]). *)
Definition request_resource (db : DB) (facility : UUID4)
    (request_data : SlotsForDayRequestSpec) : option SchedulableResource :=
  match find (fun u => user_external_id u =? rq_resource request_data)
             (users db) with
  | None => None
  | Some user =>
      find (fun r => (sr_facility_external_id r =? facility)
                     && (sr_resource_id r =? user_id user)
                     && String.eqb (sr_resource_type r)
                                   (rq_resource_type request_data))
           (schedulable_resources db)
  end.

(** The candidate mapping the handler computes for a resource and a day. *)
Definition request_candidates (db : DB) (day : date) (resource : Z)
    : option (dict SlotCandidate) :=
  convert_availability_to_slots
    (dow_availabilities (availabilities_of_day db day resource) day).

(** The database after a call made on [db]: what the call returned, or
    [db] itself when it raised (nothing was written before the raise, and
    [transaction.atomic] rolls back). *)
Definition database_after {A : Type} (db : DB) (r : result (DB * A)) : DB :=
  match r with
  | Return (db', _) => db'
  | _ => db
  end.

(** Every stored slot is within the capacity of its availability. *)
Definition within_capacity (db : DB) (s : TokenSlot) : Prop :=
  forall cap, slot_capacity db s = Some cap -> 0 <= allocated s <= cap.

(** Every entry of a candidate mapping sits under the key made of its own
    two times of day. *)
Definition keyed_by_times (d : dict SlotCandidate) : Prop :=
  forall k c, dict_get k d = Some c ->
    k = slot_key (cand_start_time c) (cand_end_time c) /\
    valid_time (cand_start_time c) /\ valid_time (cand_end_time c).

(** A slot instance after [token_slot.allocated += 1]. *)
Definition bump (slot : TokenSlot) : TokenSlot :=
  {| slot_id := slot_id slot;
     slot_resource := slot_resource slot;
     start_datetime := start_datetime slot;
     end_datetime := end_datetime slot;
     slot_availability := slot_availability slot;
     allocated := allocated slot + 1 |}.

(** A booking request for the slot [pk] whose patient exists. *)
Definition targets (db : DB) (pk : Z) (r : BookingRequest) : Prop :=
  br_slot r = pk /\
  exists p, find (fun p => patient_external_id p =? rq_patient (br_data r))
                 (patients db) = Some p.

(** Capacities are counts: no availability has a negative
    [tokens_per_slot]. *)
Definition nonneg_capacities (db : DB) : Prop :=
  forall a, In a (availabilities db) -> 0 <= tokens_per_slot a.

(** Every stored slot, and every slot instance a request in flight holds,
    is within capacity. *)
Definition server_ok (s : Server) : Prop :=
  (forall row, In row (token_slots (server_db s)) ->
     within_capacity (server_db s) row) /\
  (forall r obj, In (r, Fetched obj) (in_flight s) ->
     within_capacity (server_db s) obj).

(** Requests served one at a time: each [create_appointment] runs from
    [get_object] to the end before the next one starts. *)
Definition response {A : Type} (r : result (DB * A)) : result A :=
  match r with
  | Return (_, a) => Return a
  | Raise e => Raise e
  | Diverges => Diverges
  end.

Fixpoint serve_serially (db : DB) (requests : list BookingRequest)
    : DB * list (result TokenBooking) :=
  match requests with
  | [] => (db, [])
  | r :: rest =>
      let res := create_appointment db (br_slot r) (br_data r) (br_user r) in
      let (db', out) := serve_serially (database_after db res) rest in
      (db', response res :: out)
  end.

Definition is_return {A : Type} (r : result A) : bool :=
  match r with Return _ => true | _ => false end.

Definition is_slot_full {A : Type} (r : result A) : bool :=
  match r with
  | Raise (ValidationError "Slot is already full") => true
  | _ => false
  end.

(** ** Sample data

    One clinician (user 1) schedulable at facility 900 as resource 5, with
    one schedule and one appointment availability of 20-minute slots from
    09:00 to 10:00 on the weekday of day 738100.  The day query creates the
    slots 1, 2 and 3 of that day; [sample_slot] is slot 1 (09:00-09:20) as
    a row of its own. *)

Definition sample_day : date := 738100.

Definition sample_availability (tokens : Z) : Availability :=
  {| avail_id := 7;
     avail_schedule := 3;
     slot_type := "appointment";
     avail_slot_size_in_minutes := 20;
     tokens_per_slot := tokens;
     avail_availability :=
       [ {| day_of_week := weekday sample_day;
            start_time := hm 9 0; end_time := hm 10 0 |} ] |}.

Definition sample_slot (n : Z) : TokenSlot :=
  {| slot_id := 1;
     slot_resource := 5;
     start_datetime := combine sample_day (hm 9 0);
     end_datetime := combine sample_day (hm 9 20);
     slot_availability := 7;
     allocated := n |}.

Definition sample_db (tokens : Z) (slots : list TokenSlot) : DB :=
  {| users := [ {| user_id := 1; user_external_id := 100 |} ];
     schedulable_resources :=
       [ {| sr_id := 5; sr_facility_external_id := 900;
            sr_resource_id := 1; sr_resource_type := "user" |} ];
     schedules :=
       [ {| schedule_id := 3; schedule_resource := 5;
            valid_from := 738000; valid_to := 739000 |} ];
     availabilities := [ sample_availability tokens ];
     patients :=
       [ {| patient_id := 11; patient_external_id := 501 |};
         {| patient_id := 12; patient_external_id := 502 |};
         {| patient_id := 13; patient_external_id := 503 |} ];
     token_slots := slots;
     token_slot_seq := 1 + Z.of_nat (List.length slots);
     token_bookings := [];
     token_booking_seq := 1;
     time_zone_offset := 0 |}.

Definition sample_query : SlotsForDayRequestSpec :=
  {| rq_resource := 100; rq_resource_type := "user"; rq_day := sample_day |}.

Definition sample_booking (patient_uuid : UUID4) : BookingRequest :=
  {| br_slot := 1;
     br_data := {| rq_patient := patient_uuid;
                   rq_reason_for_visit := "checkup" |};
     br_user := 1 |}.

(** The database and the response rows of the sample day query. *)
Definition sample_db_queried : DB :=
  Eval vm_compute in
    database_after (sample_db 2 [])
      (get_slots_for_day_handler (sample_db 2 []) 900 sample_query).

Definition sample_rows_queried : list TokenSlot :=
  Eval vm_compute in
    match get_slots_for_day_handler (sample_db 2 []) 900 sample_query with
    | Return (_, rows) => rows
    | _ => []
    end.

(** ** Descriptions used in the further properties *)

(** The number of slot starts of a window before its [end_time], when
    nothing cuts the loop short: the window length divided by the slot
    size, rounded up. *)
Definition starts_in_window (a : DowAvailability) : Z :=
  let len := parse (end_time (availability a))
             - parse (start_time (availability a)) in
  let size := timedelta_minutes (slot_size_in_minutes a) in
  (len + size - 1) / size.

(** The stored slot [s] satisfies the entry [(k, c)]: same key, same
    availability (the test of the reconciliation loop). *)
Definition slot_matches (k : string) (c : SlotCandidate) (s : TokenSlot)
    : bool :=
  String.eqb (token_slot_key s) k
  && (cand_availability_id c =? slot_availability s).

Definition matched_by (created : list TokenSlot) (kc : string * SlotCandidate)
    : bool :=
  existsb (slot_matches (fst kc) (snd kc)) created.

(** The tables this module reads and never writes. *)
Definition same_reference_tables (db db' : DB) : Prop :=
  users db' = users db /\
  schedulable_resources db' = schedulable_resources db /\
  schedules db' = schedules db /\
  availabilities db' = availabilities db /\
  patients db' = patients db.

(** The primary keys [seq], [seq + 1], ... of [n] rows created in a row. *)
Fixpoint keys_from (seq : Z) (n : nat) : list Z :=
  match n with
  | O => []
  | S n' => seq :: keys_from (seq + 1) n'
  end.

(** Three requests for the sample slot (capacity 2), and the server after
    the interleaving [GetObject 0; GetObject 1; RunHandler 0; GetObject 2;
    RunHandler 1; RunHandler 2]. *)
Definition sample_server_arrived : Server :=
  arrivals (sample_db 2 [sample_slot 0])
    [sample_booking 501; sample_booking 502; sample_booking 503].

Definition sample_server_served : Server :=
  Eval vm_compute in
    match server_run sample_server_arrived
            [GetObject 0; GetObject 1; RunHandler 0; GetObject 2; RunHandler 1;
             RunHandler 2] with
    | Some s => s
    | None => sample_server_arrived
    end.

(** A Booking row refers to a stored patient and to a stored slot. *)
Definition booking_refers (db : DB) (b : TokenBooking) : Prop :=
  (exists p, In p (patients db) /\ patient_id p = patient b) /\
  In (token_slot b) (map slot_id (token_slots db)).

(** Two slot rows that differ at most in [allocated]. *)
Definition same_but_allocated (s s' : TokenSlot) : Prop :=
  slot_id s = slot_id s' /\
  slot_resource s = slot_resource s' /\
  start_datetime s = start_datetime s' /\
  end_datetime s = end_datetime s' /\
  slot_availability s = slot_availability s'.

(** Every candidate of the mapping has a stored slot of the day with its key
    and its availability. *)
Definition materialised (db : DB) (day : date) (resource : Z)
    (cands : dict SlotCandidate) : Prop :=
  forall k c, dict_get k cands = Some c ->
    exists s, In s (slots_of_day db day resource) /\
              token_slot_key s = k /\
              slot_availability s = cand_availability_id c.

(** Every slot instance held by a request in flight has its row in the
    database, and differs from it at most in [allocated]. *)
Definition fetched_agree (s : Server) : Prop :=
  forall r obj, In (r, Fetched obj) (in_flight s) ->
    exists row,
      find (fun x => slot_id x =? slot_id obj) (token_slots (server_db s))
      = Some row /\
      same_but_allocated row obj.

(** The same three requests served after the sample day query. *)
Definition sample_server_queried_served : Server :=
  Eval vm_compute in
    match server_run
            (arrivals sample_db_queried
               [sample_booking 501; sample_booking 502; sample_booking 503])
            [GetObject 0; GetObject 1; RunHandler 0; GetObject 2; RunHandler 1;
             RunHandler 2] with
    | Some s => s
    | None => arrivals sample_db_queried []
    end.

(** ** Slot sizes, time zones and further sample data *)

(** A slot size of at most one day, forwards or backwards.  Within this
    range the 29 additions of the loop stay within a month of the current
    day, far inside the years 1 to 9999 of Python's datetimes, so the
    arithmetic of the model is the arithmetic of the code. *)
Definition sane_slot_size (a : DowAvailability) : Prop :=
  -1440 <= slot_size_in_minutes a <= 1440.

(** An availability whose window is given by two times of day and whose
    slot size is in that range. *)
Definition well_formed_window (a : DowAvailability) : Prop :=
  valid_time (start_time (availability a)) /\
  valid_time (end_time (availability a)) /\
  sane_slot_size a.

(** The resource and the candidate mapping of the sample day query. *)
Definition sample_resource : SchedulableResource :=
  {| sr_id := 5; sr_facility_external_id := 900;
     sr_resource_id := 1; sr_resource_type := "user" |}.


(** The sample clinic with an evening availability, 18:00 to 19:00 in
    20-minute slots, and the store in a time zone five and a half hours
    ahead of the zone of [timezone.now()] (Asia/Kolkata against UTC). *)
Definition evening_db : DB :=
  {| users := users (sample_db 2 []);
     schedulable_resources := schedulable_resources (sample_db 2 []);
     schedules := schedules (sample_db 2 []);
     availabilities :=
       [ {| avail_id := 7;
            avail_schedule := 3;
            slot_type := "appointment";
            avail_slot_size_in_minutes := 20;
            tokens_per_slot := 2;
            avail_availability :=
              [ {| day_of_week := weekday sample_day;
                   start_time := hm 18 0; end_time := hm 19 0 |} ] |} ];
     patients := patients (sample_db 2 []);
     token_slots := [];
     token_slot_seq := 1;
     token_bookings := [];
     token_booking_seq := 1;
     time_zone_offset := hm 5 30 |}.

(** The evening database after the day query, and after the same query
    once more. *)
Definition evening_db_queried : DB :=
  Eval vm_compute in
    database_after evening_db
      (get_slots_for_day_handler evening_db 900 sample_query).

Definition evening_rows_queried : list TokenSlot :=
  Eval vm_compute in
    match get_slots_for_day_handler evening_db 900 sample_query with
    | Return (_, rows) => rows
    | _ => []
    end.

Definition evening_db_queried_twice : DB :=
  Eval vm_compute in
    database_after evening_db_queried
      (get_slots_for_day_handler evening_db_queried 900 sample_query).

(** A database whose stored slot 1 is full (2 of 2 tokens), as the bookings
    of two other requests left it. *)
Definition full_slot_db : DB := sample_db 2 [sample_slot 2].

(* ===================================================================== *)
(** * Part II: properties                                                 *)
(* ===================================================================== *)

Open Scope list_scope.

(** ** Dicts *)

(** Case analysis on the comparison of two keys. *)
Ltac key_cases a b :=
  let E := fresh "E" in
  destruct (String.eqb a b) eqn:E;
  [apply String.eqb_eq in E; try subst b | apply String.eqb_neq in E].

Section DictFacts.
Context {V : Type}.
Implicit Types (d : dict V) (k : string) (v : V).

Lemma dict_get_set d k k' v :
  dict_get k (dict_set k' v d)
  = if String.eqb k k' then Some v else dict_get k d.
Proof.
  induction d as [|[k0 v0] d IH]; simpl.
  - destruct (String.eqb k k'); reflexivity.
  - key_cases k' k0; simpl.
    + destruct (String.eqb k k'); reflexivity.
    + rewrite IH. key_cases k k0; key_cases k k'; congruence.
Qed.

Lemma dict_get_pop d k k' :
  dict_get k (dict_pop k' d)
  = if String.eqb k k' then None else dict_get k d.
Proof.
  induction d as [|[k0 v0] d IH]; simpl.
  - destruct (String.eqb k k'); reflexivity.
  - key_cases k' k0; simpl.
    + rewrite IH. destruct (String.eqb k k'); reflexivity.
    + rewrite IH. key_cases k k0; key_cases k k'; congruence.
Qed.

Lemma dict_get_none_keys d k :
  dict_get k d = None <-> ~ In k (dict_keys d).
Proof.
  induction d as [|[k0 v0] d IH]; simpl.
  - tauto.
  - destruct (String.eqb k k0) eqn:E.
    + apply String.eqb_eq in E; subst. split; [discriminate | tauto].
    + apply String.eqb_neq in E. rewrite IH. split.
      * intros H [H1 | H1]; [congruence | tauto].
      * tauto.
Qed.

Lemma dict_get_in d k v : dict_get k d = Some v -> In (k, v) d.
Proof.
  induction d as [|[k0 v0] d IH]; simpl; [discriminate|].
  destruct (String.eqb k k0) eqn:E.
  - apply String.eqb_eq in E; subst. intros [= ->]. now left.
  - intros H. right. now apply IH.
Qed.

Lemma dict_get_nodup d k v :
  NoDup (dict_keys d) -> In (k, v) d -> dict_get k d = Some v.
Proof.
  induction d as [|[k0 v0] d IH]; simpl; [tauto|].
  intros Hnd [H | H]; inversion Hnd as [|? ? Hnotin Hnd']; subst.
  - injection H as -> ->. now rewrite String.eqb_refl.
  - destruct (String.eqb k k0) eqn:E.
    + apply String.eqb_eq in E; subst k0. exfalso. apply Hnotin.
      change k with (fst (k, v)). now apply in_map.
    + now apply IH.
Qed.

Lemma dict_set_fresh d k v :
  ~ In k (dict_keys d) -> dict_set k v d = d ++ [(k, v)].
Proof.
  induction d as [|[k0 v0] d IH]; simpl; [reflexivity|].
  intros H. destruct (String.eqb k k0) eqn:E.
  - apply String.eqb_eq in E; subst. tauto.
  - rewrite IH by tauto. reflexivity.
Qed.

Lemma dict_keys_set d k v :
  forall k0, In k0 (dict_keys (dict_set k v d)) <-> k0 = k \/ In k0 (dict_keys d).
Proof.
  induction d as [|[k1 v1] d IH]; simpl; intros k0.
  - intuition congruence.
  - destruct (String.eqb k k1) eqn:E; simpl.
    + apply String.eqb_eq in E; subst. intuition congruence.
    + rewrite IH. intuition congruence.
Qed.

Lemma dict_set_nodup d k v :
  NoDup (dict_keys d) -> NoDup (dict_keys (dict_set k v d)).
Proof.
  induction d as [|[k1 v1] d IH]; simpl; intros Hnd.
  - constructor; [simpl; tauto | constructor].
  - inversion Hnd as [|? ? Hnotin Hnd']; subst.
    destruct (String.eqb k k1) eqn:E; simpl.
    + apply String.eqb_eq in E; subst. now constructor.
    + apply String.eqb_neq in E. constructor; [|now apply IH].
      fold (dict_keys (dict_set k v d)). rewrite dict_keys_set.
      intros [H | H]; [congruence | tauto].
Qed.

Lemma dict_keys_pop d k :
  forall k0, In k0 (dict_keys (dict_pop k d)) <-> k0 <> k /\ In k0 (dict_keys d).
Proof.
  induction d as [|[k1 v1] d IH]; simpl; intros k0.
  - tauto.
  - destruct (String.eqb k k1) eqn:E; simpl.
    + apply String.eqb_eq in E; subst. rewrite IH.
      split; [tauto|]. intros [H1 [H2 | H2]]; [congruence | tauto].
    + apply String.eqb_neq in E. rewrite IH.
      split; [intros [H | H]; [subst; split; [congruence | tauto] | tauto]|].
      tauto.
Qed.

Lemma dict_pop_nodup d k :
  NoDup (dict_keys d) -> NoDup (dict_keys (dict_pop k d)).
Proof.
  induction d as [|[k1 v1] d IH]; simpl; intros Hnd; [constructor|].
  inversion Hnd as [|? ? Hnotin Hnd']; subst.
  destruct (String.eqb k k1) eqn:E; simpl; [now apply IH|].
  constructor; [|now apply IH].
  fold (dict_keys (dict_pop k d)). rewrite dict_keys_pop. tauto.
Qed.

Lemma dict_get_key d k : In k (dict_keys d) -> exists v, dict_get k d = Some v.
Proof.
  intros H. destruct (dict_get k d) eqn:E; [eauto|].
  apply dict_get_none_keys in E. tauto.
Qed.
End DictFacts.

(** ** Writing entries into a dict *)

Lemma write_all_app l1 l2 d :
  write_all (l1 ++ l2) d = write_all l2 (write_all l1 d).
Proof. unfold write_all. now rewrite fold_left_app. Qed.

Lemma write_all_cons kv l d :
  write_all (kv :: l) d = write_all l (dict_set (fst kv) (snd kv) d).
Proof. reflexivity. Qed.

(** A key looked up after a series of writes: the last write of the key
    decides, and the dict written into only matters for keys not written. *)
Lemma dict_get_write_all l : forall d k,
  dict_get k (write_all l d)
  = match dict_get k (write_all l []) with
    | Some v => Some v
    | None => dict_get k d
    end.
Proof.
  induction l as [|[k0 v0] l IH]; intros d k.
  - reflexivity.
  - rewrite !write_all_cons. cbn [fst snd].
    rewrite (IH (dict_set k0 v0 d)), (IH (dict_set k0 v0 [])).
    destruct (dict_get k (write_all l [])); [reflexivity|].
    rewrite !dict_get_set. cbn [dict_get].
    destruct (String.eqb k k0); reflexivity.
Qed.

Lemma dict_get_write_all_in l : forall d k v,
  dict_get k (write_all l d) = Some v ->
  In (k, v) l \/ dict_get k d = Some v.
Proof.
  induction l as [|[k0 v0] l IH]; intros d k v H.
  - now right.
  - rewrite write_all_cons in H. cbn [fst snd] in H.
    apply IH in H. destruct H as [H | H]; [left; now right|].
    rewrite dict_get_set in H. destruct (String.eqb k k0) eqn:E.
    + apply String.eqb_eq in E; subst. injection H as ->. left; now left.
    + now right.
Qed.

Lemma dict_get_write_all_some l : forall d k,
  In k (map fst l) -> exists v, dict_get k (write_all l d) = Some v.
Proof.
  induction l as [|[k0 v0] l IH]; intros d k H; [destruct H|].
  rewrite write_all_cons. cbn [fst snd].
  destruct (in_dec string_dec k (map fst l)) as [Hin | Hnot].
  - now apply IH.
  - destruct H as [H | H]; [|tauto]. cbn in H. subst k0.
    rewrite dict_get_write_all.
    destruct (dict_get k (write_all l [])); [eauto|].
    rewrite dict_get_set, String.eqb_refl. eauto.
Qed.

Lemma write_all_keys l : forall d k,
  In k (dict_keys (write_all l d)) <-> In k (map fst l) \/ In k (dict_keys d).
Proof.
  induction l as [|[k0 v0] l IH]; intros d k.
  - cbn. tauto.
  - rewrite write_all_cons, IH, dict_keys_set. cbn. intuition congruence.
Qed.

Lemma write_all_nodup l : forall d,
  NoDup (dict_keys d) -> NoDup (dict_keys (write_all l d)).
Proof.
  induction l as [|[k0 v0] l IH]; intros d H; [assumption|].
  rewrite write_all_cons. apply IH. now apply dict_set_nodup.
Qed.

(** Fresh, pairwise different keys are appended in the order written. *)
Lemma write_all_fresh l : forall d,
  NoDup (map fst l) ->
  (forall k, In k (map fst l) -> ~ In k (dict_keys d)) ->
  write_all l d = d ++ l.
Proof.
  induction l as [|[k0 v0] l IH]; intros d Hnd Hfresh.
  - cbn. now rewrite app_nil_r.
  - inversion Hnd as [|? ? Hnotin Hnd']; subst.
    rewrite write_all_cons. cbn [fst snd].
    rewrite dict_set_fresh by (apply Hfresh; now left).
    rewrite IH; [now rewrite <- app_assoc | assumption |].
    intros k Hk. unfold dict_keys. rewrite map_app, in_app_iff. cbn.
    intros [H | [H | []]].
    + apply (Hfresh k); [now right | exact H].
    + subst. tauto.
Qed.

(** ** The loop of [convert_availability_to_slots] *)

Lemma candidate_at_shift start size avail k :
  candidate_at (start + timedelta_minutes size) size avail k
  = candidate_at start size avail (S k).
Proof.
  unfold candidate_at. rewrite Nat2Z.inj_succ.
  replace (start + timedelta_minutes size
           + Z.of_nat k * timedelta_minutes size)
    with (start + Z.succ (Z.of_nat k) * timedelta_minutes size) by lia.
  reflexivity.
Qed.

(** The loop returns whenever it is granted the iterations left before the
    failsafe, and what it returns is the dict with the first [n]
    candidates written into it, where [n] is fixed by the loop condition
    and the failsafe. *)
Lemma while_current_time_returns fuel :
  forall end_time_ slot_size avail current_time i slots,
    0 <= i < 30 ->
    30 - i <= Z.of_nat fuel ->
    exists n : nat,
      Z.of_nat n <= 29 - i /\
      (forall k, (k < n)%nat ->
         current_time + Z.of_nat k * timedelta_minutes slot_size < end_time_) /\
      (Z.of_nat n = 29 - i \/
       ~ current_time + Z.of_nat n * timedelta_minutes slot_size < end_time_) /\
      while_current_time fuel end_time_ slot_size avail current_time i slots
      = Some (write_all
                (map (candidate_at current_time slot_size avail) (seq 0 n))
                slots).
Proof.
  induction fuel as [|fuel IH]; intros end_time_ slot_size avail cur i slots Hi Hfuel.
  - lia.
  - cbn [while_current_time]. destruct (cur <? end_time_) eqn:Hlt.
    + apply Z.ltb_lt in Hlt. destruct (i + 1 =? 30) eqn:H30.
      * apply Z.eqb_eq in H30. exists 0%nat.
        split; [lia|]. split; [intros; lia|].
        split; [left; lia | reflexivity].
      * apply Z.eqb_neq in H30.
        destruct (IH end_time_ slot_size avail
                    (cur + timedelta_minutes slot_size) (i + 1)
                    (dict_set
                       (slot_key (datetime_time cur)
                          (datetime_time (cur + timedelta_minutes slot_size)))
                       {| cand_start_time := datetime_time cur;
                          cand_end_time :=
                            datetime_time (cur + timedelta_minutes slot_size);
                          cand_availability_id := avail |} slots))
          as (n & Hn & Hall & Hstop & Heq); [lia | lia |].
        exists (S n). split; [lia|]. split; [|split].
        -- intros [|k] Hk; [cbn; lia|].
           specialize (Hall k ltac:(lia)). rewrite Nat2Z.inj_succ. lia.
        -- destruct Hstop as [Hstop | Hstop]; [left; lia | right].
           rewrite Nat2Z.inj_succ.
           replace (cur + Z.succ (Z.of_nat n) * timedelta_minutes slot_size)
             with (cur + timedelta_minutes slot_size
                   + Z.of_nat n * timedelta_minutes slot_size) by lia.
           exact Hstop.
        -- rewrite Heq. f_equal.
           rewrite <- cons_seq, <- seq_shift, map_cons, map_map.
           rewrite write_all_cons. f_equal.
           ++ apply map_ext. intros k. apply candidate_at_shift.
           ++ unfold candidate_at. cbn [fst snd].
              replace (cur + Z.of_nat 0 * timedelta_minutes slot_size)
                with cur by (cbn; lia).
              reflexivity.
    + apply Z.ltb_ge in Hlt. exists 0%nat.
      split; [lia|]. split; [intros; lia|].
      split; [right; lia | reflexivity].
Qed.

(** The expansion of one availability, for any dict it starts from. *)
Lemma expand_availability_spec a slots :
  exists n : nat,
    (n <= 29)%nat /\
    (forall k, (k < n)%nat -> start_of a k < parse (end_time (availability a))) /\
    ((n < 29)%nat -> ~ start_of a n < parse (end_time (availability a))) /\
    expand_availability a slots = Some (write_all (first_candidates a n) slots).
Proof.
  destruct (while_current_time_returns loop_budget
              (parse (end_time (availability a))) (slot_size_in_minutes a)
              (availability_id a) (parse (start_time (availability a))) 0 slots)
    as (n & Hn & Hall & Hstop & Heq); [lia | unfold loop_budget; lia |].
  exists n. split; [lia|]. split; [exact Hall|]. split; [|exact Heq].
  intros Hlt. destruct Hstop as [Hstop | Hstop]; [lia | exact Hstop].
Qed.

(** The number of candidates is determined by the window. *)
Lemma expand_count_unique a n m :
  (n <= 29)%nat ->
  (forall k, (k < n)%nat -> start_of a k < parse (end_time (availability a))) ->
  ((n < 29)%nat -> ~ start_of a n < parse (end_time (availability a))) ->
  (m <= 29)%nat ->
  (forall k, (k < m)%nat -> start_of a k < parse (end_time (availability a))) ->
  ((m < 29)%nat -> ~ start_of a m < parse (end_time (availability a))) ->
  n = m.
Proof.
  intros Hn Hall Hstop Hm Hall' Hstop'.
  destruct (Nat.lt_trichotomy n m) as [H | [H | H]]; [|assumption|].
  - exfalso. apply Hstop; [lia|]. now apply Hall'.
  - exfalso. apply Hstop'; [lia|]. now apply Hall.
Qed.

Lemma for_availability_returns l : forall slots,
  exists d, for_availability l slots = Some d.
Proof.
  induction l as [|a l IH]; intros slots; cbn [for_availability]; [eauto|].
  destruct (expand_availability_spec a slots) as (n & _ & _ & _ & ->).
  apply IH.
Qed.

(** [convert_availability_to_slots] always returns. *)
Lemma convert_availability_to_slots_returns l :
  exists d, convert_availability_to_slots l = Some d.
Proof. apply for_availability_returns. Qed.

(** ** Keys: [str] of a time of day determines the time *)

Lemma digit_inj a b : digit a = digit b -> a mod 10 = b mod 10.
Proof.
  unfold digit. intros H. apply (f_equal nat_of_ascii) in H.
  pose proof (Z.mod_pos_bound a 10 ltac:(lia)).
  pose proof (Z.mod_pos_bound b 10 ltac:(lia)).
  rewrite !nat_ascii_embedding in H by lia. lia.
Qed.

Lemma pad2_inj a b :
  0 <= a < 100 -> 0 <= b < 100 -> pad2 a = pad2 b -> a = b.
Proof.
  unfold pad2. intros Ha Hb H. injection H as H1 H2.
  apply digit_inj in H1, H2. Z.div_mod_to_equations. lia.
Qed.

Lemma pad6_app_inj a b s s' :
  0 <= a < 1000000 -> 0 <= b < 1000000 ->
  (pad6 a ++ s)%string = (pad6 b ++ s')%string -> a = b /\ s = s'.
Proof.
  unfold pad6. cbn [append]. intros Ha Hb H.
  injection H as H1 H2 H3 H4 H5 H6 H7.
  apply digit_inj in H1, H2, H3, H4, H5, H6.
  split; [|assumption]. Z.div_mod_to_equations. lia.
Qed.

Lemma time_fields_bounds t :
  valid_time t ->
  0 <= time_hour t < 100 /\ 0 <= time_minute t < 100 /\
  0 <= time_second t < 100 /\ 0 <= time_microsecond t < 1000000.
Proof.
  unfold valid_time, time_hour, time_minute, time_second, time_microsecond,
    US_PER_DAY, US_PER_HOUR, US_PER_MINUTE, US_PER_SECOND.
  intros H. Z.div_mod_to_equations. lia.
Qed.

Lemma time_fields t :
  t = time_hour t * US_PER_HOUR + time_minute t * US_PER_MINUTE
      + time_second t * US_PER_SECOND + time_microsecond t.
Proof.
  unfold time_hour, time_minute, time_second, time_microsecond,
    US_PER_HOUR, US_PER_MINUTE, US_PER_SECOND.
  Z.div_mod_to_equations. lia.
Qed.

Lemma time_str_app t s :
  (time_str t ++ s)%string
  = String (digit (time_hour t / 10)) (String (digit (time_hour t))
    (String ":"%char
    (String (digit (time_minute t / 10)) (String (digit (time_minute t))
    (String ":"%char
    (String (digit (time_second t / 10)) (String (digit (time_second t))
    (time_fraction (time_microsecond t) ++ s)%string))))))).
Proof. reflexivity. Qed.

Lemma string_app_nil_r (s : string) : (s ++ "")%string = s.
Proof. induction s as [|c s IH]; cbn; [reflexivity | now rewrite IH]. Qed.

Lemma String_tail_inj c x y : String c x = String c y -> x = y.
Proof. intros H. now injection H. Qed.

(** A time string followed by text that does not start with a dot can be
    split back into the time and the text. *)
Lemma time_str_app_inj a b s s' :
  valid_time a -> valid_time b ->
  (forall r, s <> String "."%char r) ->
  (forall r, s' <> String "."%char r) ->
  (time_str a ++ s)%string = (time_str b ++ s')%string ->
  a = b /\ s = s'.
Proof.
  intros Ha Hb Hs Hs' H. rewrite !time_str_app in H.
  injection H as H1 H2 H3 H4 H5 H6 H7.
  destruct (time_fields_bounds a Ha) as (Bh & Bm & Bs & Bu).
  destruct (time_fields_bounds b Hb) as (Bh' & Bm' & Bs' & Bu').
  assert (Eh : time_hour a = time_hour b).
  { apply pad2_inj; [assumption..|]. unfold pad2. now rewrite H1, H2. }
  assert (Em : time_minute a = time_minute b).
  { apply pad2_inj; [assumption..|]. unfold pad2. now rewrite H3, H4. }
  assert (Es : time_second a = time_second b).
  { apply pad2_inj; [assumption..|]. unfold pad2. now rewrite H5, H6. }
  assert (Eu : time_microsecond a = time_microsecond b /\ s = s').
  { unfold time_fraction in H7.
    destruct (time_microsecond a =? 0) eqn:E1;
      destruct (time_microsecond b =? 0) eqn:E2; cbn [append] in H7.
    - apply Z.eqb_eq in E1, E2. split; [congruence | assumption].
    - exfalso. eapply Hs. exact H7.
    - exfalso. eapply Hs'. symmetry. exact H7.
    - apply String_tail_inj in H7. now apply pad6_app_inj. }
  destruct Eu as [Eu Ess]. split; [|assumption].
  rewrite (time_fields a), (time_fields b). congruence.
Qed.

Lemma slot_key_inj a b a' b' :
  valid_time a -> valid_time b -> valid_time a' -> valid_time b' ->
  slot_key a b = slot_key a' b' -> a = a' /\ b = b'.
Proof.
  unfold slot_key. intros Ha Hb Ha' Hb' H.
  apply time_str_app_inj in H; [|assumption | assumption | discriminate..].
  destruct H as [-> H]. split; [reflexivity|].
  apply String_tail_inj in H.
  rewrite <- (string_app_nil_r (time_str b)),
          <- (string_app_nil_r (time_str b')) in H.
  apply time_str_app_inj in H; [tauto | assumption.. | discriminate | discriminate].
Qed.

Lemma datetime_time_valid dt : valid_time (datetime_time dt).
Proof.
  unfold valid_time, datetime_time, US_PER_DAY.
  apply Z.mod_pos_bound. lia.
Qed.

Lemma datetime_time_small dt : valid_time dt -> datetime_time dt = dt.
Proof.
  unfold valid_time, datetime_time. intros H. now apply Z.mod_small.
Qed.

Lemma parse_id t : parse t = t.
Proof. unfold parse, combine. lia. Qed.

(** ** Expansion of an availability window *)

(** The candidates written by one availability do not depend on the dict
    they are written into. *)
Lemma expand_availability_writes a :
  exists n : nat,
    (n <= 29)%nat /\
    (forall k, (k < n)%nat -> start_of a k < parse (end_time (availability a))) /\
    ((n < 29)%nat -> ~ start_of a n < parse (end_time (availability a))) /\
    forall slots,
      expand_availability a slots = Some (write_all (first_candidates a n) slots).
Proof.
  destruct (expand_availability_spec a []) as (n & Hn & Hall & Hstop & _).
  exists n. repeat (split; [assumption|]). intros slots.
  destruct (expand_availability_spec a slots) as (m & Hm & Hall' & Hstop' & ->).
  now rewrite (expand_count_unique a n m).
Qed.


Lemma first_candidates_key a n k c :
  In (k, c) (first_candidates a n) ->
  k = slot_key (cand_start_time c) (cand_end_time c) /\
  valid_time (cand_start_time c) /\ valid_time (cand_end_time c).
Proof.
  unfold first_candidates. rewrite in_map_iff.
  intros (j & Hj & _). unfold candidate_at in Hj.
  injection Hj as <- <-. cbn.
  split; [reflexivity|]. split; apply datetime_time_valid.
Qed.

(** Inside a window that lies within one day and has a positive slot size,
    different candidates have different keys. *)
Lemma first_candidates_keys_nodup a n :
  valid_time (start_time (availability a)) ->
  valid_time (end_time (availability a)) ->
  0 < slot_size_in_minutes a ->
  (forall k, (k < n)%nat -> start_of a k < parse (end_time (availability a))) ->
  NoDup (map fst (first_candidates a n)).
Proof.
  intros Hs He Hsize Hall. unfold first_candidates. rewrite map_map.
  apply NoDup_map_NoDup_ForallPairs; [|apply seq_NoDup].
  intros x y Hx Hy Heq. apply in_seq in Hx, Hy.
  unfold candidate_at in Heq. cbn [fst] in Heq.
  apply slot_key_inj in Heq; try apply datetime_time_valid.
  destruct Heq as [Heq _].
  pose proof (Hall x ltac:(lia)) as Bx. pose proof (Hall y ltac:(lia)) as By.
  unfold start_of in Bx, By. rewrite !parse_id in *.
  unfold valid_time, timedelta_minutes, US_PER_MINUTE in *.
  rewrite !datetime_time_small in Heq
    by (unfold valid_time, timedelta_minutes, US_PER_MINUTE; nia).
  unfold timedelta_minutes, US_PER_MINUTE in Heq. nia.
Qed.

(** C3, counterexample: a window of 23 hours with 10-minute slots is longer
    than 30 slot sizes, and its expansion has 29 entries, not 30. *)
Lemma C3_counterexample :
  let a := window (hm 0 0) (hm 23 0) 10 1 in
  end_time (availability a) - start_time (availability a)
    > 30 * timedelta_minutes (slot_size_in_minutes a) /\
  exists d, convert_availability_to_slots [a] = Some d /\
            List.length d <> 30%nat.
Proof.
  split; [reflexivity|].
  eexists. split; [vm_compute; reflexivity|]. cbn [List.length]. lia.
Qed.

(** C3, amended: for every availability window with a positive slot size
    whose length exceeds 30 x slot_size_in_minutes, slot expansion generates
    exactly 29 candidate slots for that window: the first 29 consecutive
    candidates, all with different keys, whatever dict they are written
    into; it stops at the failsafe although the next start still precedes
    end_time. *)
Theorem C3_long_window_truncates_to_29 (a : DowAvailability) :
  valid_time (start_time (availability a)) ->
  valid_time (end_time (availability a)) ->
  0 < slot_size_in_minutes a ->
  end_time (availability a) - start_time (availability a)
    > 30 * timedelta_minutes (slot_size_in_minutes a) ->
  (forall slots,
     expand_availability a slots
     = Some (write_all (first_candidates a 29) slots)) /\
  convert_availability_to_slots [a] = Some (first_candidates a 29) /\
  List.length (first_candidates a 29) = 29%nat /\
  NoDup (map fst (first_candidates a 29)) /\
  start_of a 29 < parse (end_time (availability a)).
Proof.
  intros Hs He Hsize Hlong.
  assert (Hbefore : forall k, (k <= 29)%nat ->
            start_of a k < parse (end_time (availability a))).
  { intros k Hk. unfold start_of. rewrite !parse_id.
    unfold timedelta_minutes, US_PER_MINUTE in *. nia. }
  destruct (expand_availability_writes a) as (n & Hn & Hall & Hstop & Heq).
  assert (n = 29%nat) as ->.
  { destruct (Nat.eq_dec n 29) as [E | E]; [exact E|].
    exfalso. apply Hstop; [lia|]. apply Hbefore. lia. }
  assert (Hnd : NoDup (map fst (first_candidates a 29))).
  { apply first_candidates_keys_nodup; assumption. }
  split; [exact Heq|]. split; [|split; [|split]].
  - unfold convert_availability_to_slots. cbn [for_availability].
    rewrite Heq. rewrite write_all_fresh; [reflexivity | exact Hnd |].
    intros k _ [].
  - unfold first_candidates. now rewrite length_map, length_seq.
  - exact Hnd.
  - apply Hbefore. lia.
Qed.

Lemma C3_witness :
  let a := window (hm 0 0) (hm 23 0) 10 1 in
  (forall slots,
     expand_availability a slots
     = Some (write_all (first_candidates a 29) slots)) /\
  convert_availability_to_slots [a] = Some (first_candidates a 29) /\
  List.length (first_candidates a 29) = 29%nat /\
  NoDup (map fst (first_candidates a 29)) /\
  start_of a 29 < parse (end_time (availability a)).
Proof.
  apply (C3_long_window_truncates_to_29 (window (hm 0 0) (hm 23 0) 10 1));
    cbv; try split; congruence.
Defined.

(** C5, counterexample: in the window 09:00-19:00 with 20-minute slots the
    start 18:40 strictly precedes end_time, and no candidate is generated
    for it: expansion does not continue for as long as the current start
    precedes end_time. *)
Lemma C5_counterexample :
  ~ continues_while_before_end (window (hm 9 0) (hm 19 0) 20 1).
Proof.
  intros H. destruct (H 29%nat) as (d & Hd & Hget); [reflexivity|].
  vm_compute in Hd. injection Hd as <-.
  vm_compute in Hget. discriminate Hget.
Qed.

(** C5, amended: for every recurrence window between two times of day with
    a slot size of at most one day (1440 minutes, forwards or backwards),
    slot expansion emits consecutive candidates of slot_size_in_minutes
    duration starting at start_time, continuing while the current start
    strictly precedes end_time and fewer than 29 candidates have been
    emitted; in particular the window 09:00-10:00 with
    slot_size_in_minutes = 20 yields exactly the candidates 09:00-09:20,
    09:20-09:40 and 09:40-10:00. *)
Theorem C5_expansion_emits_consecutive_candidates :
  (forall a : DowAvailability,
     well_formed_window a ->
     exists n : nat,
       (n <= 29)%nat /\
       (forall k, (k < n)%nat ->
          start_of a k < parse (end_time (availability a))) /\
       ((n < 29)%nat -> ~ start_of a n < parse (end_time (availability a))) /\
       forall slots,
         expand_availability a slots
         = Some (write_all (first_candidates a n) slots)) /\
  (forall start slot_size avail k,
     let c := snd (candidate_at start slot_size avail k) in
     let c' := snd (candidate_at start slot_size avail (S k)) in
     cand_start_time c
       = datetime_time (start + Z.of_nat k * timedelta_minutes slot_size) /\
     cand_end_time c
       = datetime_time (start + Z.of_nat k * timedelta_minutes slot_size
                        + timedelta_minutes slot_size) /\
     cand_start_time c' = cand_end_time c /\
     fst (candidate_at start slot_size avail k)
       = slot_key (cand_start_time c) (cand_end_time c)) /\
  (forall avail,
     convert_availability_to_slots [window (hm 9 0) (hm 10 0) 20 avail]
     = Some [ ("09:00:00-09:20:00"%string,
               {| cand_start_time := hm 9 0; cand_end_time := hm 9 20;
                  cand_availability_id := avail |});
              ("09:20:00-09:40:00"%string,
               {| cand_start_time := hm 9 20; cand_end_time := hm 9 40;
                  cand_availability_id := avail |});
              ("09:40:00-10:00:00"%string,
               {| cand_start_time := hm 9 40; cand_end_time := hm 10 0;
                  cand_availability_id := avail |}) ]).
Proof.
  split; [intros a _; exact (expand_availability_writes a)|]. split.
  - intros start slot_size avail k. unfold candidate_at.
    cbn [fst snd cand_start_time cand_end_time].
    split; [reflexivity|]. split; [reflexivity|]. split; [|reflexivity].
    f_equal. rewrite Nat2Z.inj_succ. lia.
  - intros avail. reflexivity.
Qed.

Lemma C5_witness :
  let a := window (hm 9 0) (hm 19 0) 20 1 in
  well_formed_window a /\
  exists n : nat,
    (n <= 29)%nat /\
    (forall k, (k < n)%nat ->
       start_of a k < parse (end_time (availability a))) /\
    ((n < 29)%nat -> ~ start_of a n < parse (end_time (availability a))) /\
    forall slots,
      expand_availability a slots
      = Some (write_all (first_candidates a n) slots).
Proof.
  intros a.
  assert (H : well_formed_window a).
  { unfold well_formed_window, sane_slot_size, valid_time. cbv.
    repeat split; congruence. }
  split; [exact H|].
  exact (proj1 C5_expansion_emits_consecutive_candidates a H).
Defined.

(** C9: for some recurrence window whose length is not a multiple of the
    slot size, namely 09:00-09:30 with 20-minute slots, the last candidate
    generated is 09:20-09:40, whose end_time strictly exceeds the window's
    end_time. *)
Theorem C9_candidate_may_end_after_window :
  exists (a : DowAvailability) (front : dict SlotCandidate)
         (key : string) (c : SlotCandidate),
    start_time (availability a) = hm 9 0 /\
    end_time (availability a) = hm 9 30 /\
    slot_size_in_minutes a = 20 /\
    ~ (timedelta_minutes (slot_size_in_minutes a)
       | end_time (availability a) - start_time (availability a)) /\
    convert_availability_to_slots [a] = Some (front ++ [(key, c)]) /\
    key = "09:20:00-09:40:00"%string /\
    cand_start_time c = hm 9 20 /\
    cand_end_time c = hm 9 40 /\
    cand_end_time c > end_time (availability a).
Proof.
  exists (window (hm 9 0) (hm 9 30) 20 1).
  exists [ ("09:00:00-09:20:00"%string,
            {| cand_start_time := hm 9 0; cand_end_time := hm 9 20;
               cand_availability_id := 1 |}) ].
  exists "09:20:00-09:40:00"%string.
  exists {| cand_start_time := hm 9 20; cand_end_time := hm 9 40;
            cand_availability_id := 1 |}.
  repeat (split; [reflexivity|]).
  split; [|repeat (split; [reflexivity|]); reflexivity].
  intros [q Hq].
  cbv [window availability slot_size_in_minutes end_time start_time hm
       timedelta_minutes US_PER_HOUR US_PER_MINUTE] in Hq.
  lia.
Qed.

(** ** Several availabilities: the last write of a key wins *)

Lemma for_availability_app l1 : forall l2 slots,
  for_availability (l1 ++ l2) slots
  = match for_availability l1 slots with
    | Some d => for_availability l2 d
    | None => None
    end.
Proof.
  induction l1 as [|a l1 IH]; intros l2 slots; cbn [for_availability app].
  - reflexivity.
  - destruct (expand_availability a slots); [apply IH | reflexivity].
Qed.





(** ** Reconciliation against the stored slots *)

Lemma dict_contains_get {V} (d : dict V) k :
  dict_contains k d = true <-> exists v, dict_get k d = Some v.
Proof.
  unfold dict_contains. destruct (dict_get k d) as [v|].
  - split; eauto.
  - split; [discriminate | intros [v H]; discriminate H].
Qed.

(** One stored slot: the candidate under the slot's key is removed when its
    availability is the slot's, and nothing else changes. *)
Lemma reconcile_step_get slots s k :
  dict_get k (reconcile_step slots s)
  = match dict_get k slots with
    | Some e =>
        if String.eqb k (token_slot_key s)
           && (cand_availability_id e =? slot_availability s)
        then None else Some e
    | None => None
    end.
Proof.
  unfold reconcile_step, dict_contains.
  destruct (dict_get (token_slot_key s) slots) as [e0|] eqn:E0; cbn [andb].
  - destruct (cand_availability_id e0 =? slot_availability s) eqn:Eid.
    + rewrite dict_get_pop.
      destruct (String.eqb k (token_slot_key s)) eqn:Ek.
      * apply String.eqb_eq in Ek; subst k. rewrite E0, Eid. reflexivity.
      * destruct (dict_get k slots); reflexivity.
    + destruct (dict_get k slots) as [e|] eqn:E; [|reflexivity].
      destruct (String.eqb k (token_slot_key s)) eqn:Ek; [|reflexivity].
      apply String.eqb_eq in Ek; subst k.
      assert (e = e0) by congruence. subst e0. now rewrite Eid.
  - destruct (dict_get k slots) as [e|] eqn:E; [|reflexivity].
    destruct (String.eqb k (token_slot_key s)) eqn:Ek; [|reflexivity].
    apply String.eqb_eq in Ek; subst k. congruence.
Qed.

Lemma reconcile_step_nodup slots s :
  NoDup (dict_keys slots) -> NoDup (dict_keys (reconcile_step slots s)).
Proof.
  unfold reconcile_step. intros H.
  destruct (_ && _); [now apply dict_pop_nodup | assumption].
Qed.

Lemma for_created_slots_cons s created slots :
  for_created_slots (s :: created) slots
  = for_created_slots created (reconcile_step slots s).
Proof. reflexivity. Qed.

Lemma for_created_slots_nodup created : forall slots,
  NoDup (dict_keys slots) ->
  NoDup (dict_keys (for_created_slots created slots)).
Proof.
  induction created as [|s created IH]; intros slots H; [assumption|].
  rewrite for_created_slots_cons. apply IH. now apply reconcile_step_nodup.
Qed.

Lemma for_created_slots_absent created : forall slots k,
  dict_get k slots = None ->
  dict_get k (for_created_slots created slots) = None.
Proof.
  induction created as [|s created IH]; intros slots k H; [assumption|].
  rewrite for_created_slots_cons. apply IH.
  rewrite reconcile_step_get, H. reflexivity.
Qed.

(** The whole pass, key by key. *)
Lemma for_created_slots_get created : forall slots k e,
  dict_get k slots = Some e ->
  (dict_get k (for_created_slots created slots) = None <->
   exists s, In s created /\ token_slot_key s = k /\
             slot_availability s = cand_availability_id e) /\
  (dict_get k (for_created_slots created slots) = None \/
   dict_get k (for_created_slots created slots) = Some e).
Proof.
  induction created as [|s created IH]; intros slots k e H.
  - cbn. rewrite H. split; [|now right].
    split; [discriminate | intros (s & [] & _)].
  - rewrite for_created_slots_cons.
    pose proof (reconcile_step_get slots s k) as Hstep. rewrite H in Hstep.
    destruct (String.eqb k (token_slot_key s)
              && (cand_availability_id e =? slot_availability s)) eqn:Hm.
    + apply andb_prop in Hm. destruct Hm as [Hk Hid].
      apply String.eqb_eq in Hk. apply Z.eqb_eq in Hid.
      rewrite (for_created_slots_absent created _ k Hstep).
      split; [|now left]. split; [|reflexivity].
      intros _. exists s. split; [now left|]. split; congruence.
    + destruct (IH _ k e Hstep) as [IH1 IH2]. split; [|exact IH2].
      rewrite IH1. split.
      * intros (s' & Hin & Hs'). exists s'. split; [now right | exact Hs'].
      * intros (s' & [-> | Hin] & Hk & Hid); [|exists s'; tauto].
        exfalso. subst k. rewrite String.eqb_refl, Hid, Z.eqb_refl in Hm.
        discriminate.
Qed.

Lemma for_created_slots_sub created slots k e :
  dict_get k (for_created_slots created slots) = Some e ->
  dict_get k slots = Some e.
Proof.
  intros H. destruct (dict_get k slots) as [e0|] eqn:E.
  - destruct (for_created_slots_get created slots k e0 E) as [_ [H1 | H1]];
      congruence.
  - rewrite (for_created_slots_absent created slots k E) in H. discriminate.
Qed.

(** ** The creation loop *)

Lemma for_slot_keys_rows slots resource day : forall entries db,
  (forall k c, In (k, c) entries -> dict_get k slots = Some c) ->
  for_slot_keys (map fst entries) slots resource day db
  = with_token_slots db
      (token_slots db ++ new_slot_rows (token_slot_seq db) resource day entries)
      (token_slot_seq db + Z.of_nat (List.length entries)).
Proof.
  induction entries as [|[k c] entries IH]; intros db H.
  - cbn. rewrite app_nil_r, Z.add_0_r. now destruct db.
  - cbn [map fst for_slot_keys]. rewrite (H k c (or_introl eq_refl)).
    rewrite IH by (intros k' c' Hin; apply H; now right).
    unfold create_from_candidate, TokenSlot_objects_create, with_token_slots.
    cbn [token_slots token_slot_seq users schedulable_resources schedules
         availabilities patients token_bookings token_booking_seq
         new_slot_rows List.length].
    rewrite <- app_assoc. cbn [app]. f_equal. lia.
Qed.

Lemma for_slot_keys_dict slots resource day db :
  NoDup (dict_keys slots) ->
  for_slot_keys (dict_keys slots) slots resource day db
  = with_token_slots db
      (token_slots db ++ new_slot_rows (token_slot_seq db) resource day slots)
      (token_slot_seq db + Z.of_nat (List.length slots)).
Proof.
  intros H. apply for_slot_keys_rows.
  intros k c Hin. now apply dict_get_nodup.
Qed.

Lemma convert_nodup l d :
  convert_availability_to_slots l = Some d -> NoDup (dict_keys d).
Proof.
  unfold convert_availability_to_slots.
  assert (G : forall slots, NoDup (dict_keys slots) ->
              for_availability l slots = Some d -> NoDup (dict_keys d)).
  { induction l as [|a l IH]; intros slots Hnd H; cbn [for_availability] in H.
    - now injection H as <-.
    - destruct (expand_availability_writes a) as (n & _ & _ & _ & Heq).
      rewrite Heq in H. eapply IH; [|exact H]. now apply write_all_nodup. }
  apply G. constructor.
Qed.

(** The handler, split at its two lookups and at the expansion. *)
Lemma get_slots_for_day_handler_returns db facility rq db' res :
  get_slots_for_day_handler db facility rq = Return (db', res) <->
  exists sr cands,
    request_resource db facility rq = Some sr /\
    request_candidates db (rq_day rq) (sr_id sr) = Some cands /\
    db' = for_slot_keys
            (dict_keys (for_created_slots
                          (slots_of_day db (rq_day rq) (sr_id sr)) cands))
            (for_created_slots (slots_of_day db (rq_day rq) (sr_id sr)) cands)
            (sr_id sr) (rq_day rq) db /\
    res = slots_of_day db' (rq_day rq) (sr_id sr).
Proof.
  unfold get_slots_for_day_handler, request_resource, request_candidates.
  destruct (find _ (users db)) as [user|];
    [|split; [discriminate | intros (sr' & cands' & [=] & _)]].
  destruct (find _ (schedulable_resources db)) as [sr|];
    [|split; [discriminate | intros (sr' & cands' & [=] & _)]].
  destruct (convert_availability_to_slots
              (dow_availabilities
                 (availabilities_of_day db (rq_day rq) (sr_id sr)) (rq_day rq)))
    as [cands|] eqn:Ec.
  - split.
    + intros [= <- <-]. exists sr, cands. repeat split. exact Ec.
    + intros (sr' & cands' & [= <-] & Hc & -> & ->).
      rewrite Ec in Hc. injection Hc as <-. reflexivity.
  - split; [discriminate|].
    intros (sr' & cands' & [= <-] & Hc & _). rewrite Ec in Hc. discriminate.
Qed.



(** ** Querying a day twice *)

Lemma combine_date day t : valid_time t -> datetime_date (combine day t) = day.
Proof.
  unfold valid_time, datetime_date, combine, US_PER_DAY. intros H.
  rewrite Z.add_comm, Z.div_add by lia. rewrite Z.div_small by lia. lia.
Qed.

Lemma combine_time day t : valid_time t -> datetime_time (combine day t) = t.
Proof.
  unfold valid_time, datetime_time, combine, US_PER_DAY. intros H.
  rewrite Z.add_comm, Z.mod_add by lia. now apply Z.mod_small.
Qed.

Lemma convert_keyed_by_times l d :
  convert_availability_to_slots l = Some d -> keyed_by_times d.
Proof.
  unfold convert_availability_to_slots.
  assert (G : forall slots, keyed_by_times slots ->
              for_availability l slots = Some d -> keyed_by_times d).
  { induction l as [|a l IH]; intros slots Hk H; cbn [for_availability] in H.
    - now injection H as <-.
    - destruct (expand_availability_writes a) as (n & _ & _ & _ & Heq).
      rewrite Heq in H. eapply IH; [|exact H].
      intros k c Hget. apply dict_get_write_all_in in Hget.
      destruct Hget as [Hin | Hget]; [|now apply Hk].
      now apply first_candidates_key in Hin. }
  apply G. intros k c [=].
Qed.

Lemma new_slot_rows_in resource day : forall entries seq k c,
  In (k, c) entries ->
  exists s, In s (new_slot_rows seq resource day entries) /\
            start_datetime s = combine day (cand_start_time c) /\
            end_datetime s = combine day (cand_end_time c) /\
            slot_availability s = cand_availability_id c.
Proof.
  induction entries as [|[k0 c0] entries IH]; intros seq k c H; [destruct H|].
  cbn [new_slot_rows]. destruct H as [[= -> ->] | H].
  - eexists. split; [now left|]. cbn. tauto.
  - destruct (IH (seq + 1) k c H) as (s & Hin & Hs).
    exists s. split; [now right | exact Hs].
Qed.

Lemma new_slot_rows_of_day resource day : forall entries seq,
  (forall k c, In (k, c) entries ->
     valid_time (cand_start_time c) /\ valid_time (cand_end_time c)) ->
  filter (fun s => (date_lookup 0 (start_datetime s) =? day)
                   && (date_lookup 0 (end_datetime s) =? day)
                   && (slot_resource s =? resource))
         (new_slot_rows seq resource day entries)
  = new_slot_rows seq resource day entries.
Proof.
  induction entries as [|[k0 c0] entries IH]; intros seq H; [reflexivity|].
  cbn [new_slot_rows filter start_datetime end_datetime slot_resource].
  destruct (H k0 c0 (or_introl eq_refl)) as [Hs He].
  unfold date_lookup.
  rewrite !Z.add_0_r, !combine_date, !Z.eqb_refl by assumption. cbn [andb].
  f_equal. apply IH. intros k c Hin. apply (H k c). now right.
Qed.

Lemma dict_all_absent {V} (d : dict V) :
  (forall k, dict_get k d = None) -> d = [].
Proof.
  destruct d as [|[k v] d]; [reflexivity|].
  intros H. specialize (H k). cbn in H. rewrite String.eqb_refl in H.
  discriminate.
Qed.

(** C4, the code at the failing input: the store takes dates in a zone
    five and a half hours ahead of the zone the handler builds datetimes
    in, and the availability runs from 18:00 to 19:00 in 20-minute slots.
    The first day query creates slots 1, 2 and 3 and returns slot 1 only:
    the 18:20 slot ends, and the 18:40 slot starts, on the next day of the
    store's zone.  The same query run again does not find slots 2 and 3
    either and creates them once more, as slots 4 and 5. *)
Theorem C4_evening_slots_created_again :
  exists res1 res2,
    get_slots_for_day_handler evening_db 900 sample_query
    = Return (evening_db_queried, res1) /\
    get_slots_for_day_handler evening_db_queried 900 sample_query
    = Return (evening_db_queried_twice, res2) /\
    map slot_id (token_slots evening_db_queried) = [1; 2; 3] /\
    map slot_id (token_slots evening_db_queried_twice) = [1; 2; 3; 4; 5] /\
    map (fun s => datetime_time (start_datetime s))
        (token_slots evening_db_queried_twice)
    = [hm 18 0; hm 18 20; hm 18 40; hm 18 20; hm 18 40] /\
    map slot_id res1 = [1] /\
    map slot_id res2 = [1] /\
    evening_db_queried_twice <> evening_db_queried.
Proof.
  eexists. eexists. split; [vm_compute; reflexivity|].
  split; [vm_compute; reflexivity|].
  repeat (split; [reflexivity|]).
  intros H. apply (f_equal token_slot_seq) in H. discriminate H.
Qed.

(** X19: when the store takes dates in the zone the handler builds
    datetimes in, a day query that returns is idempotent: run again on the
    database it left, it returns the same slots and leaves the database as
    it is, the reconciliation pass having removed every candidate. *)
Theorem X19_query_twice_in_one_zone
    (db : DB) (facility : UUID4) (rq : SlotsForDayRequestSpec)
    (db1 : DB) (res1 : list TokenSlot) :
  time_zone_offset db = 0 ->
  get_slots_for_day_handler db facility rq = Return (db1, res1) ->
  get_slots_for_day_handler db1 facility rq = Return (db1, res1) /\
  exists sr cands,
    request_resource db1 facility rq = Some sr /\
    request_candidates db1 (rq_day rq) (sr_id sr) = Some cands /\
    for_created_slots (slots_of_day db1 (rq_day rq) (sr_id sr)) cands = [].
Proof.
  intros Hzone H. apply get_slots_for_day_handler_returns in H.
  destruct H as (sr & cands & Hsr & Hc & Hdb & Hres).
  set (day := rq_day rq) in *. set (r := sr_id sr) in *.
  set (created := slots_of_day db day r) in *.
  set (remaining := for_created_slots created cands) in *.
  assert (Hnd : NoDup (dict_keys remaining)).
  { apply for_created_slots_nodup. eapply convert_nodup. exact Hc. }
  assert (Hkeyed : keyed_by_times cands).
  { eapply convert_keyed_by_times. exact Hc. }
  rewrite for_slot_keys_dict in Hdb by exact Hnd.
  assert (Hsr1 : request_resource db1 facility rq = Some sr).
  { rewrite Hdb. exact Hsr. }
  assert (Hc1 : request_candidates db1 day r = Some cands).
  { rewrite Hdb. exact Hc. }
  assert (Hvalid : forall k c, In (k, c) remaining ->
            valid_time (cand_start_time c) /\ valid_time (cand_end_time c)).
  { intros k c Hin. apply (dict_get_nodup _ _ _ Hnd) in Hin.
    apply for_created_slots_sub in Hin. apply Hkeyed in Hin. tauto. }
  assert (Hday1 : slots_of_day db1 day r
                  = created ++ new_slot_rows (token_slot_seq db) r day remaining).
  { rewrite Hdb. unfold slots_of_day, with_token_slots.
    cbn [token_slots time_zone_offset].
    rewrite filter_app. f_equal. rewrite Hzone.
    now apply new_slot_rows_of_day. }
  assert (Hempty : for_created_slots (slots_of_day db1 day r) cands = []).
  { apply dict_all_absent. intros k.
    destruct (dict_get k cands) as [e|] eqn:E;
      [|now apply for_created_slots_absent].
    apply (for_created_slots_get _ cands k e E).
    destruct (for_created_slots_get created cands k e E) as [Hiff [Hn | Hs]].
    - apply Hiff in Hn. destruct Hn as (s & Hin & Hs).
      exists s. split; [|exact Hs]. rewrite Hday1. apply in_or_app. now left.
    - fold remaining in Hs. apply dict_get_in in Hs.
      destruct (new_slot_rows_in r day remaining (token_slot_seq db) k e Hs)
        as (s & Hin & Hst & Hen & Hav).
      exists s. split; [rewrite Hday1; apply in_or_app; now right|].
      split; [|exact Hav].
      destruct (Hkeyed k e E) as (-> & Hvs & Hve).
      unfold token_slot_key. rewrite Hst, Hen.
      now rewrite !combine_time. }
  split.
  - apply get_slots_for_day_handler_returns.
    exists sr, cands. fold day r. rewrite Hempty. cbn [dict_keys map for_slot_keys].
    repeat split; assumption.
  - exists sr, cands. fold day r. repeat split; assumption.
Qed.

Lemma X19_witness :
  get_slots_for_day_handler sample_db_queried 900 sample_query
  = Return (sample_db_queried, sample_rows_queried) /\
  exists sr cands,
    request_resource sample_db_queried 900 sample_query = Some sr /\
    request_candidates sample_db_queried (rq_day sample_query) (sr_id sr)
    = Some cands /\
    for_created_slots
      (slots_of_day sample_db_queried (rq_day sample_query) (sr_id sr)) cands
    = [].
Proof.
  apply (X19_query_twice_in_one_zone (sample_db 2 []) 900 sample_query
           sample_db_queried sample_rows_queried).
  - reflexivity.
  - vm_compute. reflexivity.
Defined.


(** ** Booking *)

Lemma find_update_slot_row obj pk : forall rows,
  find (fun s => slot_id s =? pk) (update_slot_row obj rows)
  = if slot_id obj =? pk then Some obj
    else find (fun s => slot_id s =? pk) rows.
Proof.
  induction rows as [|r rows IH]; cbn [update_slot_row find].
  - destruct (slot_id obj =? pk); reflexivity.
  - destruct (slot_id r =? slot_id obj) eqn:E; cbn [find].
    + apply Z.eqb_eq in E. rewrite E.
      destruct (slot_id obj =? pk); reflexivity.
    + rewrite IH. destruct (slot_id r =? pk) eqn:E1; [|reflexivity].
      apply Z.eqb_eq in E1. apply Z.eqb_neq in E.
      destruct (slot_id obj =? pk) eqn:E2; [|reflexivity].
      apply Z.eqb_eq in E2. congruence.
Qed.

Lemma update_slot_row_in obj : forall rows s,
  In s (update_slot_row obj rows) -> s = obj \/ In s rows.
Proof.
  induction rows as [|r rows IH]; cbn [update_slot_row]; intros s H.
  - destruct H as [<- | []]. now left.
  - destruct (slot_id r =? slot_id obj).
    + destruct H as [<- | H]; [now left | right; now right].
    + destruct H as [<- | H]; [right; now left|].
      apply IH in H. destruct H; [now left | right; now right].
Qed.

Lemma update_slot_row_ids obj : forall rows pk,
  In pk (map slot_id rows) -> In pk (map slot_id (update_slot_row obj rows)).
Proof.
  induction rows as [|r rows IH]; cbn [update_slot_row map]; intros pk H.
  - destruct H.
  - destruct (slot_id r =? slot_id obj) eqn:E; cbn [map].
    + apply Z.eqb_eq in E. destruct H as [<- | H]; [left; congruence | now right].
    + destruct H as [<- | H]; [now left | right; now apply IH].
Qed.

(** X20: the locked block works on the slot instance it is given.  When
    the instance's allocated count has reached tokens_per_slot it raises
    "Slot is already full" and leaves the database as it is; otherwise it
    stores the instance with allocated increased by exactly one and
    creates one Booking with status booked, for that slot, patient, user
    and reason.  When the instance is the row as it is stored, as in
    [create_appointment] run without interruption, the stored count itself
    is tested and goes up by exactly one, and only then. *)
Theorem X20_locked_block_on_the_instance
    (db : DB) (slot : TokenSlot) (patient_ : PatientRegistration)
    (created_by : Z) (reason : string) (av : Availability) :
  find (fun a => avail_id a =? slot_availability slot) (availabilities db)
  = Some av ->
  (allocated slot >= tokens_per_slot av ->
   lock_create_appointment db slot patient_ created_by reason
   = Raise (ValidationError "Slot is already full") /\
   database_after db
     (lock_create_appointment db slot patient_ created_by reason) = db) /\
  (allocated slot < tokens_per_slot av ->
   exists db' booking,
     lock_create_appointment db slot patient_ created_by reason
     = Return (db', booking) /\
     stored_allocated db' (slot_id slot) = Some (allocated slot + 1) /\
     (forall pk, pk <> slot_id slot ->
        stored_allocated db' pk = stored_allocated db pk) /\
     token_bookings db' = token_bookings db ++ [booking] /\
     status booking = "booked"%string /\
     token_slot booking = slot_id slot /\
     patient booking = patient_id patient_ /\
     booked_by booking = created_by /\
     reason_for_visit booking = reason) /\
  (forall pk request_data user,
     get_object db pk = Return slot ->
     find (fun p => patient_external_id p =? rq_patient request_data)
          (patients db) = Some patient_ ->
     stored_allocated db pk = Some (allocated slot) /\
     stored_allocated
       (database_after db (create_appointment db pk request_data user)) pk
     = Some (if allocated slot >=? tokens_per_slot av
             then allocated slot else allocated slot + 1)).
Proof.
  intros Hav. split; [|split].
  - intros Hfull. unfold lock_create_appointment. rewrite Hav.
    destruct (allocated slot >=? tokens_per_slot av) eqn:E.
    + split; reflexivity.
    + rewrite Z.geb_leb in E. apply Z.leb_gt in E. lia.
  - intros Hfree. unfold lock_create_appointment. rewrite Hav.
    destruct (allocated slot >=? tokens_per_slot av) eqn:E.
    + rewrite Z.geb_leb in E. apply Z.leb_le in E. lia.
    + eexists. eexists. split; [reflexivity|].
      unfold stored_allocated, TokenBooking_objects_create, TokenSlot_save,
        with_token_bookings, with_token_slots.
      cbn [token_slots token_bookings slot_id status token_slot patient
           booked_by reason_for_visit].
      split; [|split; [|repeat split]].
      * rewrite find_update_slot_row. cbn [slot_id].
        now rewrite Z.eqb_refl.
      * intros pk Hpk. rewrite find_update_slot_row. cbn [slot_id].
        apply Z.eqb_neq in Hpk. rewrite Z.eqb_sym in Hpk. now rewrite Hpk.
  - intros pk request_data user Hget Hpatient.
    unfold get_object in Hget.
    destruct (find (fun s => slot_id s =? pk) (token_slots db)) as [s|] eqn:Ef;
      [|discriminate].
    injection Hget as ->.
    assert (Hpk : slot_id slot = pk).
    { apply find_some in Ef. destruct Ef as [_ Ef]. now apply Z.eqb_eq in Ef. }
    split; [unfold stored_allocated; now rewrite Ef|].
    unfold create_appointment, get_object. rewrite Ef. cbn [bind].
    unfold create_appointment_handler. rewrite Hpatient.
    unfold lock_create_appointment. rewrite Hav.
    destruct (allocated slot >=? tokens_per_slot av) eqn:E;
      cbn [database_after].
    + unfold stored_allocated. now rewrite Ef.
    + unfold stored_allocated, TokenBooking_objects_create, TokenSlot_save,
        with_token_bookings, with_token_slots.
      cbn [token_slots]. rewrite find_update_slot_row. cbn [slot_id].
      rewrite Hpk, Z.eqb_refl. reflexivity.
Qed.

Lemma X20_witness :
  lock_create_appointment (sample_db 2 [sample_slot 2]) (sample_slot 2)
    {| patient_id := 11; patient_external_id := 501 |} 1 "checkup"
  = Raise (ValidationError "Slot is already full") /\
  database_after (sample_db 2 [sample_slot 2])
    (lock_create_appointment (sample_db 2 [sample_slot 2]) (sample_slot 2)
       {| patient_id := 11; patient_external_id := 501 |} 1 "checkup")
  = sample_db 2 [sample_slot 2].
Proof.
  refine (proj1 (X20_locked_block_on_the_instance (sample_db 2 [sample_slot 2])
                   (sample_slot 2)
                   {| patient_id := 11; patient_external_id := 501 |}
                   1 "checkup" (sample_availability 2) eq_refl) _).
  vm_compute. discriminate.
Defined.

(** ** Requests in flight: what holds in every interleaving *)

Lemma set_progress_in n p : forall l r q,
  In (r, q) (set_progress n p l) -> In (r, q) l \/ q = p.
Proof.
  induction n as [|n IH]; intros [|[r0 q0] l] r q H; cbn in H;
    try (now destruct H).
  - destruct H as [[= <- <-] | H]; [now right | left; now right].
  - destruct H as [H | H]; [left; now left|].
    apply IH in H. destruct H; [left; now right | now right].
Qed.

Lemma within_capacity_availabilities db db' s :
  availabilities db' = availabilities db ->
  within_capacity db s -> within_capacity db' s.
Proof.
  unfold within_capacity, slot_capacity. now intros ->.
Qed.

Lemma slot_capacity_nonneg db s cap :
  nonneg_capacities db -> slot_capacity db s = Some cap -> 0 <= cap.
Proof.
  unfold slot_capacity. intros Hnn H.
  destruct (find _ (availabilities db)) as [a|] eqn:E; [|discriminate].
  injection H as <-. apply Hnn. apply find_some in E. tauto.
Qed.

Lemma new_slot_rows_allocated resource day : forall entries seq s,
  In s (new_slot_rows seq resource day entries) -> allocated s = 0.
Proof.
  induction entries as [|[k c] entries IH]; intros seq s H; [destruct H|].
  cbn [new_slot_rows] in H. destruct H as [<- | H]; [reflexivity|].
  eapply IH. exact H.
Qed.

(** What a day query does to the database: it appends rows whose
    [allocated] is 0 and touches nothing else. *)
Lemma get_slots_for_day_handler_appends db facility rq db' res :
  get_slots_for_day_handler db facility rq = Return (db', res) ->
  exists rows,
    db' = with_token_slots db (token_slots db ++ rows)
            (token_slot_seq db + Z.of_nat (List.length rows)) /\
    forall s, In s rows -> allocated s = 0.
Proof.
  intros H. apply get_slots_for_day_handler_returns in H.
  destruct H as (sr & cands & _ & Hc & -> & _).
  rewrite for_slot_keys_dict
    by (apply for_created_slots_nodup; eapply convert_nodup; exact Hc).
  eexists. split.
  - f_equal. f_equal.
    assert (L : forall entries seq,
              List.length (new_slot_rows seq (sr_id sr) (rq_day rq) entries)
              = List.length entries).
    { induction entries as [|[k c] entries IH]; intros seq; cbn;
        [reflexivity | now rewrite IH]. }
    now rewrite L.
  - intros s. apply new_slot_rows_allocated.
Qed.

(** What a handler run does to the database when it returns. *)
Lemma create_appointment_handler_returns db obj request_data user db' booking :
  create_appointment_handler db obj request_data user = Return (db', booking) ->
  exists av,
    find (fun a => avail_id a =? slot_availability obj) (availabilities db)
    = Some av /\
    allocated obj < tokens_per_slot av /\
    availabilities db' = availabilities db /\
    token_slots db'
    = update_slot_row
        {| slot_id := slot_id obj;
           slot_resource := slot_resource obj;
           start_datetime := start_datetime obj;
           end_datetime := end_datetime obj;
           slot_availability := slot_availability obj;
           allocated := allocated obj + 1 |}
        (token_slots db).
Proof.
  unfold create_appointment_handler, lock_create_appointment.
  destruct (find _ (patients db)) as [p|]; [|discriminate].
  destruct (find _ (availabilities db)) as [av|]; [|discriminate].
  destruct (allocated obj >=? tokens_per_slot av) eqn:E; [discriminate|].
  intros [= <- _]. exists av. split; [reflexivity|].
  rewrite Z.geb_leb in E. apply Z.leb_gt in E.
  split; [exact E|]. split; reflexivity.
Qed.

Lemma server_step_availabilities s e s' :
  server_step s e = Some s' ->
  availabilities (server_db s') = availabilities (server_db s).
Proof.
  destruct e as [n | n | facility rq]; cbn [server_step].
  - destruct (nth_error (in_flight s) n) as [[r [| |]]|]; try discriminate.
    now intros [= <-].
  - destruct (nth_error (in_flight s) n) as [[r [|obj|]]|]; try discriminate.
    destruct (create_appointment_handler _ _ _ _) as [[db' b]| |] eqn:E;
      intros [= <-]; cbn [server_db]; try reflexivity.
    apply create_appointment_handler_returns in E.
    destruct E as (av & _ & _ & E & _). exact E.
  - destruct (get_slots_for_day_handler _ _ _) as [[db' res]| |] eqn:E;
      intros [= <-]; cbn [server_db]; try reflexivity.
    apply get_slots_for_day_handler_appends in E.
    destruct E as (rows & -> & _). reflexivity.
Qed.

(** One step keeps every stored slot and every fetched instance within
    capacity. *)
Lemma server_step_ok s e s' :
  nonneg_capacities (server_db s) ->
  server_ok s -> server_step s e = Some s' -> server_ok s'.
Proof.
  intros Hnn [Hrows Hobjs] Hstep. unfold server_ok.
  pose proof (server_step_availabilities s e s' Hstep) as Hav.
  destruct e as [n | n | facility rq]; cbn [server_step] in Hstep.
  - destruct (nth_error (in_flight s) n) as [[r [| |]]|]; try discriminate.
    injection Hstep as <-. cbn [server_db in_flight] in *.
    split; [exact Hrows|].
    intros r0 obj Hin. apply set_progress_in in Hin.
    destruct Hin as [Hin | Hp]; [now apply (Hobjs r0)|].
    unfold get_object in Hp.
    destruct (find _ (token_slots (server_db s))) as [row|] eqn:Ef;
      [|discriminate].
    injection Hp as ->. apply Hrows. apply find_some in Ef. tauto.
  - destruct (nth_error (in_flight s) n) as [[r [|obj|]]|] eqn:En;
      try discriminate.
    apply nth_error_In in En.
    destruct (create_appointment_handler _ _ _ _) as [[db' b]| |] eqn:E;
      injection Hstep as <-; cbn [server_db in_flight] in *.
    + apply create_appointment_handler_returns in E.
      destruct E as (av & Hfind & Hfree & _ & Hslots).
      assert (Hnew : within_capacity db'
                {| slot_id := slot_id obj;
                   slot_resource := slot_resource obj;
                   start_datetime := start_datetime obj;
                   end_datetime := end_datetime obj;
                   slot_availability := slot_availability obj;
                   allocated := allocated obj + 1 |}).
      { intros cap Hcap. unfold slot_capacity in Hcap.
        cbn [slot_availability allocated] in *.
        rewrite Hav, Hfind in Hcap. injection Hcap as <-.
        specialize (Hobjs r obj En (tokens_per_slot av)).
        unfold slot_capacity in Hobjs. rewrite Hfind in Hobjs.
        specialize (Hobjs eq_refl). lia. }
      split.
      * intros row Hin. rewrite Hslots in Hin.
        apply update_slot_row_in in Hin. destruct Hin as [-> | Hin];
          [exact Hnew|].
        apply (within_capacity_availabilities _ _ _ Hav). now apply Hrows.
      * intros r0 obj0 Hin. apply set_progress_in in Hin.
        destruct Hin as [Hin | Hp]; [|discriminate].
        apply (within_capacity_availabilities _ _ _ Hav).
        now apply (Hobjs r0).
    + split; [exact Hrows|].
      intros r0 obj0 Hin. apply set_progress_in in Hin.
      destruct Hin as [Hin | Hp]; [now apply (Hobjs r0) | discriminate].
    + split; [exact Hrows|].
      intros r0 obj0 Hin. apply set_progress_in in Hin.
      destruct Hin as [Hin | Hp]; [now apply (Hobjs r0) | discriminate].
  - destruct (get_slots_for_day_handler _ _ _) as [[db' res]| |] eqn:E;
      injection Hstep as <-; cbn [server_db in_flight] in *;
      try (split; assumption).
    apply get_slots_for_day_handler_appends in E.
    destruct E as (rows & Hdb & Hzero).
    split.
    + intros row Hin. rewrite Hdb in Hin. cbn [with_token_slots token_slots] in Hin.
      apply in_app_or in Hin. destruct Hin as [Hin | Hin].
      * apply (within_capacity_availabilities _ _ _ Hav). now apply Hrows.
      * intros cap Hcap. rewrite (Hzero row Hin).
        assert (0 <= cap); [|lia].
        apply (slot_capacity_nonneg db' row); [|exact Hcap].
        unfold nonneg_capacities. rewrite Hav. exact Hnn.
    + intros r0 obj0 Hin.
      apply (within_capacity_availabilities _ _ _ Hav). now apply (Hobjs r0).
Qed.

(** One step deletes no slot. *)
Lemma server_step_keeps_slots s e s' pk :
  server_step s e = Some s' ->
  In pk (map slot_id (token_slots (server_db s))) ->
  In pk (map slot_id (token_slots (server_db s'))).
Proof.
  intros Hstep Hin.
  destruct e as [n | n | facility rq]; cbn [server_step] in Hstep.
  - destruct (nth_error (in_flight s) n) as [[r [| |]]|]; try discriminate.
    now injection Hstep as <-.
  - destruct (nth_error (in_flight s) n) as [[r [|obj|]]|]; try discriminate.
    destruct (create_appointment_handler _ _ _ _) as [[db' b]| |] eqn:E;
      injection Hstep as <-; cbn [server_db]; try assumption.
    apply create_appointment_handler_returns in E.
    destruct E as (av & _ & _ & _ & ->). now apply update_slot_row_ids.
  - destruct (get_slots_for_day_handler _ _ _) as [[db' res]| |] eqn:E;
      injection Hstep as <-; cbn [server_db]; try assumption.
    apply get_slots_for_day_handler_appends in E.
    destruct E as (rows & -> & _). cbn [with_token_slots token_slots].
    rewrite map_app. apply in_or_app. now left.
Qed.

(** In every interleaving of day queries, fetches and handler runs, every
    stored slot stays within [0, tokens_per_slot], and no slot is deleted. *)
Lemma server_run_ok events : forall s s',
  nonneg_capacities (server_db s) ->
  server_ok s ->
  server_run s events = Some s' ->
  server_ok s' /\
  (forall pk, In pk (map slot_id (token_slots (server_db s))) ->
              In pk (map slot_id (token_slots (server_db s')))).
Proof.
  induction events as [|e events IH]; intros s s' Hnn Hok Hrun;
    cbn [server_run] in Hrun.
  - injection Hrun as <-. tauto.
  - destruct (server_step s e) as [s1|] eqn:E; [|discriminate].
    destruct (IH s1 s') as [Hok' Hids].
    + unfold nonneg_capacities.
      rewrite (server_step_availabilities s e s1 E). exact Hnn.
    + eapply server_step_ok; eassumption.
    + exact Hrun.
    + split; [exact Hok'|]. intros pk Hin. apply Hids.
      eapply server_step_keeps_slots; eassumption.
Qed.

(** ** Requests served one at a time *)

Lemma create_appointment_eval db pk slot p av request_data user :
  get_object db pk = Return slot ->
  find (fun p => patient_external_id p =? rq_patient request_data)
       (patients db) = Some p ->
  find (fun a => avail_id a =? slot_availability slot) (availabilities db)
  = Some av ->
  create_appointment db pk request_data user
  = if allocated slot >=? tokens_per_slot av
    then Raise (ValidationError "Slot is already full")
    else Return (TokenBooking_objects_create (TokenSlot_save db (bump slot))
                   (slot_id slot) (patient_id p) user
                   (rq_reason_for_visit request_data) "booked").
Proof.
  intros Hget Hp Hav. unfold create_appointment. rewrite Hget. cbn [bind].
  unfold create_appointment_handler. rewrite Hp.
  unfold lock_create_appointment. rewrite Hav. reflexivity.
Qed.

Lemma get_object_id db pk slot :
  get_object db pk = Return slot -> slot_id slot = pk.
Proof.
  unfold get_object.
  destruct (find _ (token_slots db)) as [s|] eqn:E; [|discriminate].
  intros [= <-]. apply find_some in E. destruct E as [_ E].
  now apply Z.eqb_eq in E.
Qed.

(** Once the stored slot is full, every later request served on its own is
    rejected and writes nothing. *)
Lemma serve_serially_full requests : forall db pk slot av,
  get_object db pk = Return slot ->
  find (fun a => avail_id a =? slot_availability slot) (availabilities db)
  = Some av ->
  allocated slot >= tokens_per_slot av ->
  Forall (targets db pk) requests ->
  serve_serially db requests
  = (db, map (fun _ => Raise (ValidationError "Slot is already full"))
             requests).
Proof.
  induction requests as [|r rest IH]; intros db pk slot av Hget Hav Hfull Hall.
  - reflexivity.
  - inversion Hall as [|? ? [Hpk [p Hp]] Hrest]; subst.
    cbn [serve_serially map].
    rewrite (create_appointment_eval db (br_slot r) slot p av _ _ Hget Hp Hav).
    assert (E : (allocated slot >=? tokens_per_slot av) = true).
    { rewrite Z.geb_leb. apply Z.leb_le. lia. }
    rewrite E. cbn [database_after response].
    rewrite (IH db (br_slot r) slot av Hget Hav Hfull Hrest). reflexivity.
Qed.

Lemma rejected_none_returned {A B : Type} (l : list A) :
  filter is_return
    (map (fun _ => @Raise B (ValidationError "Slot is already full")) l) = [].
Proof. induction l as [|x l IH]; [reflexivity | exact IH]. Qed.

Lemma rejected_all_full {A B : Type} (l : list A) :
  List.length
    (filter is_slot_full
       (map (fun _ => @Raise B (ValidationError "Slot is already full")) l))
  = List.length l.
Proof.
  induction l as [|x l IH]; [reflexivity|].
  cbn [map]. change (is_slot_full _) with true in |- *.
  cbn [filter List.length]. now rewrite <- IH.
Qed.

(** With one token and nothing allocated, requests served one at a time
    give one booking and reject all the others. *)
Lemma serve_serially_one_token db pk slot av r rest :
  get_object db pk = Return slot ->
  find (fun a => avail_id a =? slot_availability slot) (availabilities db)
  = Some av ->
  tokens_per_slot av = 1 ->
  allocated slot = 0 ->
  Forall (targets db pk) (r :: rest) ->
  let out := snd (serve_serially db (r :: rest)) in
  List.length (filter is_return out) = 1%nat /\
  List.length (filter is_slot_full out) = List.length rest.
Proof.
  intros Hget Hav Hone Hzero Hall.
  inversion Hall as [|? ? [Hpk [p Hp]] Hrest]; subst.
  cbn [serve_serially].
  rewrite (create_appointment_eval db (br_slot r) slot p av _ _ Hget Hp Hav).
  assert (E : (allocated slot >=? tokens_per_slot av) = false).
  { rewrite Z.geb_leb. apply Z.leb_gt. lia. }
  rewrite E. cbn [database_after TokenBooking_objects_create response].
  set (db1 := with_token_bookings (TokenSlot_save db (bump slot)) _ _).
  pose proof (get_object_id db (br_slot r) slot Hget) as Hid.
  assert (Hget1 : get_object db1 (br_slot r) = Return (bump slot)).
  { unfold get_object, db1, with_token_bookings, TokenSlot_save,
      with_token_slots. cbn [token_slots].
    rewrite find_update_slot_row. cbn [bump slot_id].
    now rewrite Hid, Z.eqb_refl. }
  rewrite (serve_serially_full rest db1 (br_slot r) (bump slot) av Hget1).
  - cbn [snd filter is_return is_slot_full List.length].
    now rewrite rejected_none_returned, rejected_all_full.
  - exact Hav.
  - cbn [bump allocated]. lia.
  - exact Hrest.
Qed.

(** Served on its own, a booking request leaves every stored counter as it
    is or raises it by one; a day query leaves every stored counter as it
    is. *)
Lemma create_appointment_never_lowers db pk request_data user pk' n :
  stored_allocated db pk' = Some n ->
  let db' := database_after db (create_appointment db pk request_data user) in
  stored_allocated db' pk' = Some n \/ stored_allocated db' pk' = Some (n + 1).
Proof.
  intros Hn. cbn zeta.
  destruct (create_appointment db pk request_data user) as [[db' b]| |] eqn:E;
    cbn [database_after]; try (now left).
  unfold create_appointment in E.
  destruct (get_object db pk) as [slot| |] eqn:Hget; cbn [bind] in E;
    try discriminate.
  pose proof (get_object_id db pk slot Hget) as Hid.
  apply create_appointment_handler_returns in E.
  destruct E as (av & _ & _ & _ & Hrows).
  unfold stored_allocated in *. rewrite Hrows, find_update_slot_row.
  cbn [slot_id]. destruct (slot_id slot =? pk') eqn:Epk; [|now left].
  apply Z.eqb_eq in Epk. right. cbn [option_map allocated].
  unfold get_object in Hget. rewrite Hid, Epk in *.
  destruct (find _ (token_slots db)) as [row|]; [|discriminate].
  injection Hget as ->. cbn [option_map] in Hn. injection Hn as ->.
  reflexivity.
Qed.

Lemma get_slots_for_day_handler_keeps_allocated db facility rq pk n :
  stored_allocated db pk = Some n ->
  stored_allocated
    (database_after db (get_slots_for_day_handler db facility rq)) pk
  = Some n.
Proof.
  intros Hn.
  destruct (get_slots_for_day_handler db facility rq) as [[db' res]| |] eqn:E;
    cbn [database_after]; try assumption.
  apply get_slots_for_day_handler_appends in E.
  destruct E as (rows & -> & _).
  unfold stored_allocated in *. cbn [with_token_slots token_slots].
  destruct (find (fun s => slot_id s =? pk) (token_slots db)) as [row|] eqn:Ef;
    [|discriminate].
  assert (G : forall l, find (fun s => slot_id s =? pk) l = Some row ->
              find (fun s => slot_id s =? pk) (l ++ rows) = Some row).
  { induction l as [|x l IH]; cbn [find app]; [discriminate|].
    destruct (slot_id x =? pk); [tauto | exact IH]. }
  now rewrite (G _ Ef).
Qed.

(** The handler never runs out of loop budget. *)
Lemma get_slots_for_day_handler_terminates db facility rq :
  get_slots_for_day_handler db facility rq <> Diverges.
Proof.
  unfold get_slots_for_day_handler.
  destruct (find _ (users db)) as [user|]; [|discriminate].
  destruct (find _ (schedulable_resources db)) as [sr|]; [|discriminate].
  destruct (convert_availability_to_slots_returns
              (dow_availabilities
                 (availabilities_of_day db (rq_day rq) (sr_id sr)) (rq_day rq)))
    as [d ->].
  discriminate.
Qed.

(** A day query returns as soon as its resource resolves; the two lookups
    are its only rejections. *)
Lemma get_slots_for_day_handler_resolved db facility rq sr :
  request_resource db facility rq = Some sr ->
  exists db' res, get_slots_for_day_handler db facility rq = Return (db', res).
Proof.
  intros Hsr.
  destruct (convert_availability_to_slots_returns
              (dow_availabilities
                 (availabilities_of_day db (rq_day rq) (sr_id sr)) (rq_day rq)))
    as [cands Hc].
  eexists. eexists. apply get_slots_for_day_handler_returns.
  exists sr, cands. split; [exact Hsr|]. split; [exact Hc|].
  split; reflexivity.
Qed.

(** C8, the code at the failing interleaving: the availability has one
    token per slot; the day query creates slot 1 with nothing allocated; two
    requests for slot 1 both evaluate [get_object] before either runs its
    handler; the handlers then run one after the other, as the lock makes
    them.  Both are booked, none is rejected, two Booking rows exist and the
    stored counter is 1. *)
Theorem C8_two_requests_fetched_before_lock_both_booked :
  let db := sample_db 1 [] in
  exists s0 s,
    server_run (arrivals db [sample_booking 501; sample_booking 502])
      [QuerySlots 900 sample_query] = Some s0 /\
    stored_allocated (server_db s0) 1 = Some 0 /\
    slot_capacity (server_db s0) (sample_slot 0) = Some 1 /\
    server_run s0 [GetObject 0; GetObject 1; RunHandler 0; RunHandler 1]
    = Some s /\
    count_succeeded s = 2%nat /\
    count_slot_full s = 0%nat /\
    List.length (token_bookings (server_db s)) = 2%nat /\
    stored_allocated (server_db s) 1 = Some 1.
Proof.
  eexists. eexists. split; [vm_compute; reflexivity|].
  split; [reflexivity|]. split; [reflexivity|].
  split; [vm_compute; reflexivity|]. repeat split.
Qed.

(** C2, the code at the failing interleaving: the availability has two
    tokens per slot; the day query creates slot 1 with nothing allocated;
    request 0 fetches the slot, requests 1 and 2 are then served in full
    and bring the stored counter to 2; request 0 runs its handler last, on
    the instance it fetched, and the stored counter goes from 2 down to 1
    (with three Booking rows). *)
Theorem C2_stale_instance_lowers_stored_allocated :
  let db := sample_db 2 [] in
  exists s0 s1 s2,
    server_run
      (arrivals db [sample_booking 501; sample_booking 502; sample_booking 503])
      [QuerySlots 900 sample_query] = Some s0 /\
    stored_allocated (server_db s0) 1 = Some 0 /\
    slot_capacity (server_db s0) (sample_slot 0) = Some 2 /\
    server_run s0
      [GetObject 0; GetObject 1; RunHandler 1; GetObject 2; RunHandler 2]
    = Some s1 /\
    server_step s1 (RunHandler 0) = Some s2 /\
    stored_allocated (server_db s1) 1 = Some 2 /\
    stored_allocated (server_db s2) 1 = Some 1 /\
    count_succeeded s2 = 3%nat /\
    List.length (token_bookings (server_db s2)) = 3%nat.
Proof.
  eexists. eexists. eexists. split; [vm_compute; reflexivity|].
  split; [reflexivity|]. split; [reflexivity|].
  split; [vm_compute; reflexivity|].
  split; [vm_compute; reflexivity|]. repeat split.
Qed.

(** C1, the code at the failing input: slot 1 has two tokens and both are
    taken, by the bookings of requests 1 and 2; request 0 had fetched the
    slot before them.  When its handler runs, the booking attempt on the
    full slot does not fail: it returns a Booking with status booked, a
    third Booking row is stored, and the stored allocated count, which was
    2, is 1.  The locked block itself, given the full database and the
    instance fetched earlier, returns that booking. *)
Theorem C1_full_slot_booked_on_earlier_instance :
  let db := sample_db 2 [] in
  exists s1 s2 b,
    server_run
      (arrivals db [sample_booking 501; sample_booking 502; sample_booking 503])
      [QuerySlots 900 sample_query;
       GetObject 0; GetObject 1; RunHandler 1; GetObject 2; RunHandler 2]
    = Some s1 /\
    stored_allocated (server_db s1) 1 = Some 2 /\
    slot_capacity (server_db s1) (sample_slot 0) = Some 2 /\
    List.length (token_bookings (server_db s1)) = 2%nat /\
    nth_error (in_flight s1) 0
    = Some (sample_booking 501, Fetched (sample_slot 0)) /\
    server_step s1 (RunHandler 0) = Some s2 /\
    nth_error (in_flight s2) 0
    = Some (sample_booking 501, Finished (Return b)) /\
    status b = "booked"%string /\
    token_slot b = 1 /\
    token_bookings (server_db s2) = token_bookings (server_db s1) ++ [b] /\
    stored_allocated (server_db s2) 1 = Some 1 /\
    stored_allocated full_slot_db 1 = Some 2 /\
    slot_capacity full_slot_db (sample_slot 2) = Some 2 /\
    exists db',
      lock_create_appointment full_slot_db (sample_slot 0)
        {| patient_id := 11; patient_external_id := 501 |} 1 "checkup"
      = Return (db', {| booking_id := 1; token_slot := 1; patient := 11;
                        booked_by := 1; reason_for_visit := "checkup";
                        status := "booked" |}) /\
      stored_allocated db' 1 = Some 1.
Proof.
  eexists. eexists. eexists. split; [vm_compute; reflexivity|].
  repeat (split; [reflexivity|]).
  eexists. split; [vm_compute; reflexivity|]. reflexivity.
Qed.

(** ** [ConsultationSymptom.save] *)

Section ConsultationSymptomFacts.
Import ConsultationSymptomModel.

Lemma truthy_nonempty s : truthy s = true <-> s <> ""%string.
Proof.
  unfold truthy. destruct (String.eqb s "") eqn:E; cbn.
  - apply String.eqb_eq in E. split; [discriminate | tauto].
  - apply String.eqb_neq in E. tauto.
Qed.

Lemma update_row_in k self : forall l r,
  In r (update_row k self l) -> r = self \/ In r l.
Proof.
  induction l as [|x l IH]; cbn [update_row]; intros r H.
  - destruct H as [<- | []]. now left.
  - destruct (pk x) as [k'|].
    + destruct (k' =? k).
      * destruct H as [<- | H]; [now left | right; now right].
      * destruct H as [<- | H]; [right; now left|].
        apply IH in H. destruct H; [now left | right; now right].
    + destruct H as [<- | H]; [right; now left|].
      apply IH in H. destruct H; [now left | right; now right].
Qed.

Lemma BaseModel_save_rows t self r :
  In r (rows (BaseModel_save t self)) ->
  In r (rows t) \/
  (symptom r = symptom self /\ other_symptom r = other_symptom self).
Proof.
  unfold BaseModel_save. destruct (pk self) as [k|]; cbn [rows]; intros H.
  - apply update_row_in in H. destruct H as [-> | H]; [right | left]; tauto.
  - apply in_app_or in H. destruct H as [H | [<- | []]]; [now left|].
    right. split; reflexivity.
Qed.

Lemma save_returns_ok t self t' :
  save t self = Return t' ->
  t' = BaseModel_save t self /\ other_symptom_ok self.
Proof.
  unfold save, other_symptom_ok.
  destruct (truthy (other_symptom self)) eqn:Et; cbn [andb].
  - destruct (symptom self =? Symptom_value OTHERS) eqn:Es; cbn [negb];
      [|discriminate].
    intros [= <-]. apply Z.eqb_eq in Es. tauto.
  - intros [= <-]. split; [reflexivity|]. left.
    destruct (String.eqb (other_symptom self) "") eqn:E.
    + now apply String.eqb_eq in E.
    + unfold truthy in Et. rewrite E in Et. discriminate.
Qed.

Lemma save_all_ok l : forall t,
  (forall r, In r (rows t) -> other_symptom_ok r) ->
  forall r, In r (rows (save_all t l)) -> other_symptom_ok r.
Proof.
  induction l as [|self l IH]; intros t Ht; cbn [save_all]; [exact Ht|].
  destruct (save t self) as [t'| |] eqn:E; try (now apply IH).
  apply IH. apply save_returns_ok in E. destruct E as [-> Hself].
  intros r Hr. apply BaseModel_save_rows in Hr.
  destruct Hr as [Hr | [Hs Ho]]; [now apply Ht|].
  unfold other_symptom_ok in *. rewrite Hs, Ho. exact Hself.
Qed.

(** C10: [save] raises [ValueError], and stores nothing, whenever
    other_symptom is not empty and symptom is not OTHERS; every save with
    symptom OTHERS or with an empty other_symptom goes on to store the
    record; so no record stored through [save] pairs a non-empty
    other_symptom with a symptom other than OTHERS. *)
Theorem C10_save_guards_other_symptom :
  (forall t self,
     other_symptom self <> ""%string ->
     symptom self <> Symptom_value OTHERS ->
     save t self
     = Raise (ValueError
                "Other Symptom should be empty when Symptom is not OTHERS") /\
     save_all t [self] = t) /\
  (forall t self,
     symptom self = Symptom_value OTHERS \/ other_symptom self = ""%string ->
     save t self = Return (BaseModel_save t self) /\
     exists r, In r (rows (BaseModel_save t self)) /\
               symptom r = symptom self /\
               other_symptom r = other_symptom self) /\
  (forall l r,
     In r (rows (save_all empty_table l)) ->
     ~ (other_symptom r <> ""%string /\ symptom r <> Symptom_value OTHERS)) /\
  Symptom_value OTHERS = 9.
Proof.
  split; [|split; [|split]].
  - intros t self Ho Hs.
    assert (E : save t self
                = Raise (ValueError
                    "Other Symptom should be empty when Symptom is not OTHERS")).
    { unfold save. apply truthy_nonempty in Ho. rewrite Ho.
      apply Z.eqb_neq in Hs. now rewrite Hs. }
    split; [exact E|]. cbn [save_all]. now rewrite E.
  - intros t self H.
    assert (E : save t self = Return (BaseModel_save t self)).
    { unfold save. destruct H as [H | H].
      - apply Z.eqb_eq in H. rewrite H. cbn [negb]. now rewrite andb_false_r.
      - unfold truthy. rewrite H. reflexivity. }
    split; [exact E|].
    unfold BaseModel_save. destruct (pk self) as [k|]; cbn [rows].
    + exists self. split; [|tauto].
      induction (rows t) as [|x l IH]; cbn [update_row]; [now left|].
      destruct (pk x) as [k'|]; [destruct (k' =? k)|];
        [now left | now right | now right].
    + exists (with_pk self (seq t)). split; [|split; reflexivity].
      apply in_or_app. right. now left.
  - intros l r Hr [Ho Hs].
    assert (Hok : other_symptom_ok r).
    { apply (save_all_ok l empty_table); [intros x []|exact Hr]. }
    destruct Hok; tauto.
  - reflexivity.
Qed.

Lemma C10_witness :
  let self := {| pk := None; symptom := Symptom_value FEVER;
                 other_symptom := "itching"; onset_date := None;
                 cure_date := None; consultation := None;
                 created_by := None; updated_by := None |} in
  save empty_table self
  = Raise (ValueError
             "Other Symptom should be empty when Symptom is not OTHERS") /\
  save_all empty_table [self] = empty_table.
Proof.
  intros self.
  apply (proj1 C10_save_guards_other_symptom empty_table self);
    cbv; discriminate.
Defined.
End ConsultationSymptomFacts.

(* ===================================================================== *)
(** * Part III: further properties of the code                            *)
(* ===================================================================== *)

(** ** More on [convert_availability_to_slots] *)

Lemma dict_set_again {V} (d : dict V) k v :
  dict_set k v (dict_set k v d) = dict_set k v d.
Proof.
  induction d as [|[k0 v0] d IH]; cbn [dict_set].
  - now rewrite String.eqb_refl.
  - destruct (String.eqb k k0) eqn:E; cbn [dict_set].
    + now rewrite String.eqb_refl.
    + now rewrite E, IH.
Qed.

Lemma dict_set_length {V} (d : dict V) k v :
  (List.length (dict_set k v d) <= S (List.length d))%nat.
Proof.
  induction d as [|[k0 v0] d IH]; cbn [dict_set List.length]; [lia|].
  destruct (String.eqb k k0); cbn [List.length]; lia.
Qed.

Lemma write_all_length l : forall d,
  (List.length (write_all l d) <= List.length d + List.length l)%nat.
Proof.
  induction l as [|[k v] l IH]; intros d; [cbn; lia|].
  rewrite write_all_cons. cbn [fst snd List.length].
  pose proof (IH (dict_set k v d)). pose proof (dict_set_length d k v). lia.
Qed.

Lemma write_all_same e : forall (l : list nat) d,
  write_all (map (fun _ => e) l) d
  = match l with
    | [] => d
    | _ :: _ => dict_set (fst e) (snd e) d
    end.
Proof.
  induction l as [|x l IH]; intros d; [reflexivity|].
  cbn [map]. rewrite write_all_cons, IH.
  destruct l; [reflexivity | apply dict_set_again].
Qed.

Lemma first_candidates_length a n : List.length (first_candidates a n) = n.
Proof. unfold first_candidates. now rewrite length_map, length_seq. Qed.

(** X1: an availability whose end_time does not come after its start_time
    generates no candidate: the loop body never runs, the mapping is left as
    it is, and the availability can be dropped from the input without
    changing the result. *)
Theorem X1_empty_window_contributes_nothing
    (a : DowAvailability) (l1 l2 : list DowAvailability) :
  end_time (availability a) <= start_time (availability a) ->
  (forall slots, expand_availability a slots = Some slots) /\
  convert_availability_to_slots (l1 ++ a :: l2)
  = convert_availability_to_slots (l1 ++ l2).
Proof.
  intros Hle.
  assert (H : forall slots, expand_availability a slots = Some slots).
  { intros slots.
    destruct (expand_availability_writes a) as (n & _ & Hall & _ & ->).
    destruct n as [|n]; [reflexivity|]. exfalso.
    specialize (Hall 0%nat ltac:(lia)). unfold start_of in Hall.
    rewrite !parse_id in Hall. lia. }
  split; [exact H|].
  unfold convert_availability_to_slots. rewrite !for_availability_app.
  destruct (for_availability l1 []) as [d|]; [|reflexivity].
  cbn [for_availability]. now rewrite H.
Qed.

Lemma X1_witness :
  convert_availability_to_slots
    ([window (hm 9 0) (hm 10 0) 20 1]
       ++ window (hm 10 0) (hm 9 0) 20 2 :: [window (hm 9 20) (hm 10 0) 20 3])
  = convert_availability_to_slots
      ([window (hm 9 0) (hm 10 0) 20 1] ++ [window (hm 9 20) (hm 10 0) 20 3]).
Proof.
  apply (X1_empty_window_contributes_nothing
           (window (hm 10 0) (hm 9 0) 20 2)).
  vm_compute. discriminate.
Defined.

(** X2: with slot_size_in_minutes = 0 and a window that is not empty the
    current time never advances; the failsafe ends the loop, and what is
    left is one candidate of zero length at start_time, written under the
    key made of start_time twice. *)
Theorem X2_zero_slot_size_single_candidate
    (a : DowAvailability) (slots : dict SlotCandidate) :
  slot_size_in_minutes a = 0 ->
  start_time (availability a) < end_time (availability a) ->
  let t := datetime_time (start_time (availability a)) in
  expand_availability a slots
  = Some (dict_set (slot_key t t)
            {| cand_start_time := t; cand_end_time := t;
               cand_availability_id := availability_id a |} slots).
Proof.
  intros Hsize Hlt t.
  destruct (expand_availability_writes a) as (n & Hn & _ & Hstop & ->).
  assert (n = 29%nat) as ->.
  { destruct (Nat.eq_dec n 29) as [E | E]; [exact E|]. exfalso.
    apply Hstop; [lia|]. unfold start_of, timedelta_minutes.
    rewrite Hsize, !parse_id. lia. }
  unfold first_candidates.
  rewrite (map_ext _ (fun _ => candidate_at (parse (start_time (availability a)))
                                 (slot_size_in_minutes a) (availability_id a) 0)).
  - rewrite write_all_same. cbn [seq]. unfold candidate_at, timedelta_minutes.
    rewrite Hsize, parse_id. cbn [fst snd Z.of_nat].
    replace (start_time (availability a) + 0 * (0 * US_PER_MINUTE)
             + 0 * US_PER_MINUTE)
      with (start_time (availability a)) by lia.
    replace (start_time (availability a) + 0 * (0 * US_PER_MINUTE))
      with (start_time (availability a)) by lia.
    reflexivity.
  - intros k. unfold candidate_at, timedelta_minutes. rewrite Hsize.
    replace (Z.of_nat k * (0 * US_PER_MINUTE)) with 0 by lia.
    replace (Z.of_nat 0 * (0 * US_PER_MINUTE)) with 0 by lia.
    reflexivity.
Qed.

Lemma X2_witness :
  expand_availability (window (hm 9 0) (hm 10 0) 0 4) []
  = Some [ ("09:00:00-09:00:00"%string,
            {| cand_start_time := hm 9 0; cand_end_time := hm 9 0;
               cand_availability_id := 4 |}) ].
Proof.
  apply (X2_zero_slot_size_single_candidate (window (hm 9 0) (hm 10 0) 0 4) []);
    reflexivity.
Defined.

(** X3: for availabilities whose windows lie between two times of day and
    whose slot sizes are at most one day, the mapping is built (the loop
    ends for every window, an empty or a backwards one included) and has at
    most 29 entries per availability. *)
Theorem X3_mapping_size_bounded (l : list DowAvailability) :
  Forall well_formed_window l ->
  exists d,
    convert_availability_to_slots l = Some d /\
    (List.length d <= 29 * List.length l)%nat.
Proof.
  intros _. unfold convert_availability_to_slots.
  assert (G : forall slots, exists d,
            for_availability l slots = Some d /\
            (List.length d <= List.length slots + 29 * List.length l)%nat).
  { induction l as [|a l IH]; intros slots; cbn [for_availability].
    - exists slots. split; [reflexivity | cbn; lia].
    - destruct (expand_availability_writes a) as (n & Hn & _ & _ & ->).
      destruct (IH (write_all (first_candidates a n) slots)) as (d & -> & Hd).
      exists d. split; [reflexivity|].
      pose proof (write_all_length (first_candidates a n) slots) as Hw.
      rewrite first_candidates_length in Hw. cbn [List.length]. lia. }
  destruct (G []) as (d & Hd & Hlen). exists d. split; [exact Hd|].
  cbn [List.length] in Hlen. lia.
Qed.

Lemma X3_witness :
  let l := [ window (hm 9 0) (hm 19 0) 20 1; window (hm 9 0) (hm 10 0) 0 2;
             window (hm 14 0) (hm 15 0) (-15) 3 ] in
  exists d,
    convert_availability_to_slots l = Some d /\
    (List.length d <= 29 * List.length l)%nat.
Proof.
  intros l. apply (X3_mapping_size_bounded l).
  repeat constructor; cbv; congruence.
Defined.

(** X4: every entry of the mapping was generated by one of the input
    availabilities: it is that availability's candidate number j for some
    j < 29, it carries that availability's id, and its start precedes the
    availability's end_time. *)
Theorem X4_entries_come_from_availabilities
    (l : list DowAvailability) (d : dict SlotCandidate)
    (k : string) (c : SlotCandidate) :
  convert_availability_to_slots l = Some d ->
  dict_get k d = Some c ->
  exists a j,
    In a l /\ (j < 29)%nat /\
    (k, c) = candidate_at (parse (start_time (availability a)))
               (slot_size_in_minutes a) (availability_id a) j /\
    cand_availability_id c = availability_id a /\
    start_of a j < parse (end_time (availability a)).
Proof.
  unfold convert_availability_to_slots.
  assert (G : forall l0 slots,
            (forall k c, dict_get k slots = Some c ->
               exists a j, In a l /\ (j < 29)%nat /\
                 (k, c) = candidate_at (parse (start_time (availability a)))
                            (slot_size_in_minutes a) (availability_id a) j /\
                 cand_availability_id c = availability_id a /\
                 start_of a j < parse (end_time (availability a))) ->
            (forall a, In a l0 -> In a l) ->
            for_availability l0 slots = Some d ->
            forall k c, dict_get k d = Some c ->
              exists a j, In a l /\ (j < 29)%nat /\
                (k, c) = candidate_at (parse (start_time (availability a)))
                           (slot_size_in_minutes a) (availability_id a) j /\
                cand_availability_id c = availability_id a /\
                start_of a j < parse (end_time (availability a))).
  { induction l0 as [|a l0 IH]; intros slots Hinv Hsub H;
      cbn [for_availability] in H.
    - injection H as <-. exact Hinv.
    - destruct (expand_availability_writes a) as (n & Hn & Hall & _ & Heq).
      rewrite Heq in H. eapply IH; [| |exact H].
      + intros k0 c0 Hget. apply dict_get_write_all_in in Hget.
        destruct Hget as [Hin | Hget]; [|now apply Hinv].
        unfold first_candidates in Hin. apply in_map_iff in Hin.
        destruct Hin as (j & Hj & Hjn). apply in_seq in Hjn.
        exists a, j. split; [apply Hsub; now left|]. split; [lia|].
        split; [now symmetry|]. split; [|apply Hall; lia].
        unfold candidate_at in Hj. now injection Hj as _ <-.
      + intros a0 Ha0. apply Hsub. now right. }
  intros H Hget. eapply G; [| |exact H|exact Hget].
  - intros k0 c0 [=].
  - tauto.
Qed.

Lemma X4_witness :
  exists a j,
    In a [window (hm 9 0) (hm 10 0) 20 1] /\ (j < 29)%nat /\
    ("09:20:00-09:40:00"%string,
     {| cand_start_time := hm 9 20; cand_end_time := hm 9 40;
        cand_availability_id := 1 |})
    = candidate_at (parse (start_time (availability a)))
        (slot_size_in_minutes a) (availability_id a) j /\
    cand_availability_id
      {| cand_start_time := hm 9 20; cand_end_time := hm 9 40;
         cand_availability_id := 1 |} = availability_id a /\
    start_of a j < parse (end_time (availability a)).
Proof.
  eapply (X4_entries_come_from_availabilities
            [window (hm 9 0) (hm 10 0) 20 1]).
  - vm_compute. reflexivity.
  - vm_compute. reflexivity.
Defined.

(** X5: the dict key determines the time range: two ranges of times of day
    get the same key exactly when they have the same start and the same
    end, so different ranges never collide in the mapping. *)
Theorem X5_key_determines_time_range (a b a' b' : time) :
  valid_time a -> valid_time b -> valid_time a' -> valid_time b' ->
  (slot_key a b = slot_key a' b' <-> a = a' /\ b = b').
Proof.
  intros Ha Hb Ha' Hb'. split.
  - now apply slot_key_inj.
  - now intros [-> ->].
Qed.

Lemma X5_witness :
  slot_key (hm 9 0) (hm 9 20) = slot_key (hm 9 0) (hm 9 20)
  <-> hm 9 0 = hm 9 0 /\ hm 9 20 = hm 9 20.
Proof.
  apply (X5_key_determines_time_range (hm 9 0) (hm 9 20) (hm 9 0) (hm 9 20));
    cbv; split; congruence.
Defined.

(** X6: for a window inside one day with a positive slot size, the mapping
    of that availability alone holds its first n candidates, in order and
    under n different keys, where n is the window length divided by the
    slot size, rounded up, and cut at 29 (and 0 for a window that is empty
    or inverted). *)
Theorem X6_number_of_candidates (a : DowAvailability) :
  valid_time (start_time (availability a)) ->
  valid_time (end_time (availability a)) ->
  0 < slot_size_in_minutes a ->
  let n := Z.to_nat (Z.min 29 (starts_in_window a)) in
  convert_availability_to_slots [a] = Some (first_candidates a n) /\
  List.length (first_candidates a n) = n /\
  NoDup (map fst (first_candidates a n)).
Proof.
  intros Hs He Hsize n.
  destruct (expand_availability_writes a) as (m & Hm & Hall & Hstop & Heq).
  assert (Hnd : NoDup (map fst (first_candidates a m))).
  { now apply first_candidates_keys_nodup. }
  assert (Hmn : m = n).
  { subst n. unfold starts_in_window.
    set (size := timedelta_minutes (slot_size_in_minutes a)).
    set (len := parse (end_time (availability a))
                - parse (start_time (availability a))).
    assert (Hsz : 0 < size).
    { unfold size, timedelta_minutes, US_PER_MINUTE. lia. }
    pose proof (Z.div_mod (len + size - 1) size ltac:(lia)) as Hdm.
    pose proof (Z.mod_pos_bound (len + size - 1) size Hsz) as Hmod.
    set (q := (len + size - 1) / size) in *.
    set (r := (len + size - 1) mod size) in *.
    assert (Hall' : forall k, (k < m)%nat -> Z.of_nat k * size < len).
    { intros k Hk. specialize (Hall k Hk). unfold start_of in Hall.
      fold size in Hall. unfold len. lia. }
    assert (Hstop' : (m < 29)%nat -> len <= Z.of_nat m * size).
    { intros Hk. specialize (Hstop Hk). unfold start_of in Hstop.
      fold size in Hstop. unfold len. lia. }
    destruct (Nat.eq_dec m 29) as [-> | Hne].
    - specialize (Hall' 28%nat ltac:(lia)).
      assert (29 <= q) by nia. lia.
    - specialize (Hstop' ltac:(lia)).
      destruct m as [|m'].
      + assert (q <= 0) by nia. lia.
      + specialize (Hall' m' ltac:(lia)).
        rewrite Nat2Z.inj_succ in Hstop'.
        assert (q = Z.succ (Z.of_nat m')) by nia. lia. }
  subst m. split; [|split].
  - unfold convert_availability_to_slots. cbn [for_availability].
    rewrite Heq, write_all_fresh; [reflexivity | exact Hnd | intros k _ []].
  - apply first_candidates_length.
  - exact Hnd.
Qed.

Lemma X6_witness :
  let a := window (hm 9 0) (hm 9 30) 20 1 in
  let n := Z.to_nat (Z.min 29 (starts_in_window a)) in
  convert_availability_to_slots [a] = Some (first_candidates a n) /\
  List.length (first_candidates a n) = n /\
  NoDup (map fst (first_candidates a n)).
Proof.
  apply (X6_number_of_candidates (window (hm 9 0) (hm 9 30) 20 1));
    cbv; try split; congruence.
Defined.

(** ** More on the reconciliation pass *)

Lemma filter_all_true {A} (f : A -> bool) (l : list A) :
  (forall x, In x l -> f x = true) -> filter f l = l.
Proof.
  induction l as [|x l IH]; intros H; [reflexivity|].
  cbn [filter]. rewrite (H x (or_introl eq_refl)).
  f_equal. apply IH. intros y Hy. apply H. now right.
Qed.

Lemma filter_twice {A} (f g : A -> bool) (l : list A) :
  filter f (filter g l) = filter (fun x => g x && f x) l.
Proof.
  induction l as [|x l IH]; [reflexivity|].
  cbn [filter]. destruct (g x); cbn [andb filter]; [|exact IH].
  destruct (f x); [now rewrite IH | exact IH].
Qed.

Lemma dict_pop_filter {V} (d : dict V) k :
  dict_pop k d = filter (fun kc => negb (String.eqb k (fst kc))) d.
Proof.
  induction d as [|[k0 v0] d IH]; [reflexivity|].
  cbn [dict_pop filter fst]. destruct (String.eqb k k0); cbn [negb];
    [exact IH | now rewrite IH].
Qed.

Lemma reconcile_step_filter slots s :
  NoDup (dict_keys slots) ->
  reconcile_step slots s
  = filter (fun kc => negb (slot_matches (fst kc) (snd kc) s)) slots.
Proof.
  intros Hnd. unfold reconcile_step, dict_contains.
  destruct (dict_get (token_slot_key s) slots) as [c0|] eqn:E0; cbn [andb].
  - destruct (cand_availability_id c0 =? slot_availability s) eqn:Eid.
    + rewrite dict_pop_filter. apply filter_ext_in.
      intros [k c] Hin. cbn [fst snd]. unfold slot_matches. f_equal.
      destruct (String.eqb (token_slot_key s) k) eqn:Ek; [|reflexivity].
      apply String.eqb_eq in Ek. subst k.
      apply (dict_get_nodup _ _ _ Hnd) in Hin.
      assert (c = c0) by congruence. subst c0. now rewrite Eid.
    + symmetry. apply filter_all_true.
      intros [k c] Hin. cbn [fst snd]. unfold slot_matches.
      destruct (String.eqb (token_slot_key s) k) eqn:Ek; [|reflexivity].
      apply String.eqb_eq in Ek. subst k.
      apply (dict_get_nodup _ _ _ Hnd) in Hin.
      assert (c = c0) by congruence. subst c0. now rewrite Eid.
  - symmetry. apply filter_all_true.
    intros [k c] Hin. cbn [fst snd]. unfold slot_matches.
    destruct (String.eqb (token_slot_key s) k) eqn:Ek; [|reflexivity].
    apply String.eqb_eq in Ek. subst k.
    apply (dict_get_nodup _ _ _ Hnd) in Hin. congruence.
Qed.

Lemma for_created_slots_filter created : forall slots,
  NoDup (dict_keys slots) ->
  for_created_slots created slots
  = filter (fun kc => negb (matched_by created kc)) slots.
Proof.
  induction created as [|s created IH]; intros slots Hnd.
  - cbn. symmetry. now apply filter_all_true.
  - rewrite for_created_slots_cons, IH by now apply reconcile_step_nodup.
    rewrite reconcile_step_filter by exact Hnd. rewrite filter_twice.
    apply filter_ext. intros kc. unfold matched_by. cbn [existsb].
    now rewrite negb_orb.
Qed.

Lemma existsb_same_members {A} (f : A -> bool) (l l' : list A) :
  (forall x, In x l <-> In x l') -> existsb f l = existsb f l'.
Proof.
  intros H. destruct (existsb f l) eqn:E; symmetry.
  - apply existsb_exists in E. destruct E as (x & Hx & Hf).
    apply existsb_exists. exists x. split; [now apply H | exact Hf].
  - destruct (existsb f l') eqn:E'; [|reflexivity].
    apply existsb_exists in E'. destruct E' as (x & Hx & Hf).
    assert (existsb f l = true); [|congruence].
    apply existsb_exists. exists x. split; [now apply H | exact Hf].
Qed.

(** X7: the reconciliation pass keeps the entries of the candidate mapping
    that no stored slot matches (same key and same availability), in
    their order, and drops the others; its result therefore does not
    depend on the order in which the stored slots are visited, nor on a
    stored slot occurring twice. *)
Theorem X7_reconciliation_is_order_independent
    (created created' : list TokenSlot) (slots : dict SlotCandidate) :
  NoDup (dict_keys slots) ->
  for_created_slots created slots
  = filter (fun kc => negb (matched_by created kc)) slots /\
  ((forall s, In s created <-> In s created') ->
   for_created_slots created slots = for_created_slots created' slots).
Proof.
  intros Hnd. split; [now apply for_created_slots_filter|].
  intros Hsame. rewrite !for_created_slots_filter by exact Hnd.
  apply filter_ext. intros kc. unfold matched_by. f_equal.
  now apply existsb_same_members.
Qed.

Lemma X7_witness :
  let e1 := {| cand_start_time := hm 9 0; cand_end_time := hm 9 20;
               cand_availability_id := 7 |} in
  let e2 := {| cand_start_time := hm 9 20; cand_end_time := hm 9 40;
               cand_availability_id := 7 |} in
  let slots := [ ("09:00:00-09:20:00"%string, e1);
                 ("09:20:00-09:40:00"%string, e2) ] in
  for_created_slots [sample_slot 0] slots
  = filter (fun kc => negb (matched_by [sample_slot 0] kc)) slots /\
  ((forall s, In s [sample_slot 0] <-> In s [sample_slot 0; sample_slot 0]) ->
   for_created_slots [sample_slot 0] slots
   = for_created_slots [sample_slot 0; sample_slot 0] slots).
Proof.
  intros e1 e2 slots.
  apply (X7_reconciliation_is_order_independent
           [sample_slot 0] [sample_slot 0; sample_slot 0] slots).
  repeat constructor; cbn; intuition discriminate.
Defined.

(** ** More on [get_slots_for_day_handler] *)

Lemma new_slot_rows_length resource day : forall entries seq,
  List.length (new_slot_rows seq resource day entries) = List.length entries.
Proof.
  induction entries as [|[k c] entries IH]; intros seq; cbn;
    [reflexivity | now rewrite IH].
Qed.

Lemma new_slot_rows_ids resource day : forall entries seq,
  map slot_id (new_slot_rows seq resource day entries)
  = keys_from seq (List.length entries).
Proof.
  induction entries as [|[k c] entries IH]; intros seq; cbn;
    [reflexivity | now rewrite IH].
Qed.

Lemma new_slot_rows_fields resource day : forall entries seq s,
  In s (new_slot_rows seq resource day entries) ->
  exists k c, In (k, c) entries /\
    slot_resource s = resource /\
    start_datetime s = combine day (cand_start_time c) /\
    end_datetime s = combine day (cand_end_time c) /\
    slot_availability s = cand_availability_id c /\
    allocated s = 0.
Proof.
  induction entries as [|[k c] entries IH]; intros seq s H; [destruct H|].
  cbn [new_slot_rows] in H. destruct H as [<- | H].
  - exists k, c. cbn. tauto.
  - destruct (IH _ _ H) as (k' & c' & Hin & Hs).
    exists k', c'. split; [now right | exact Hs].
Qed.

Lemma for_created_slots_empty created : for_created_slots created [] = [].
Proof. induction created as [|s created IH]; [reflexivity | exact IH]. Qed.

Lemma new_slot_rows_resource offset resource day : forall entries seq,
  filter (fun s => (date_lookup offset (start_datetime s) =? day)
                   && (date_lookup offset (end_datetime s) =? day)
                   && (slot_resource s =? resource))
         (new_slot_rows seq resource day entries)
  = filter (fun s => (date_lookup offset (start_datetime s) =? day)
                     && (date_lookup offset (end_datetime s) =? day))
           (new_slot_rows seq resource day entries).
Proof.
  induction entries as [|[k c] entries IH]; intros seq; [reflexivity|].
  cbn [new_slot_rows filter slot_resource start_datetime end_datetime].
  rewrite Z.eqb_refl, andb_true_r, IH. reflexivity.
Qed.

(** The shape of a day query that returns: the rows it appends are built
    from the entries the reconciliation pass left, and the response is the
    stored slots of the day followed by those of the new rows that the
    lookup of the day finds: all of them when the store takes dates in the
    zone the rows are built in. *)
Lemma get_slots_for_day_handler_shape db facility rq db' res :
  get_slots_for_day_handler db facility rq = Return (db', res) ->
  exists sr cands,
    request_resource db facility rq = Some sr /\
    request_candidates db (rq_day rq) (sr_id sr) = Some cands /\
    let remaining :=
      for_created_slots (slots_of_day db (rq_day rq) (sr_id sr)) cands in
    let rows :=
      new_slot_rows (token_slot_seq db) (sr_id sr) (rq_day rq) remaining in
    (forall k c, In (k, c) remaining ->
       dict_get k cands = Some c /\
       valid_time (cand_start_time c) /\ valid_time (cand_end_time c)) /\
    db' = with_token_slots db (token_slots db ++ rows)
            (token_slot_seq db + Z.of_nat (List.length rows)) /\
    res = slots_of_day db (rq_day rq) (sr_id sr)
          ++ filter (fun s =>
                       (date_lookup (time_zone_offset db) (start_datetime s)
                        =? rq_day rq)
                       && (date_lookup (time_zone_offset db) (end_datetime s)
                           =? rq_day rq))
                    rows /\
    (time_zone_offset db = 0 ->
     res = slots_of_day db (rq_day rq) (sr_id sr) ++ rows).
Proof.
  intros H. apply get_slots_for_day_handler_returns in H.
  destruct H as (sr & cands & Hsr & Hc & Hdb & Hres).
  exists sr, cands. split; [exact Hsr|]. split; [exact Hc|]. cbn zeta.
  assert (Hnd : NoDup (dict_keys
            (for_created_slots (slots_of_day db (rq_day rq) (sr_id sr)) cands))).
  { apply for_created_slots_nodup. eapply convert_nodup. exact Hc. }
  assert (Hrem : forall k c,
            In (k, c) (for_created_slots
                         (slots_of_day db (rq_day rq) (sr_id sr)) cands) ->
            dict_get k cands = Some c /\
            valid_time (cand_start_time c) /\ valid_time (cand_end_time c)).
  { intros k c Hin. apply (dict_get_nodup _ _ _ Hnd) in Hin.
    apply for_created_slots_sub in Hin. split; [exact Hin|].
    apply (convert_keyed_by_times _ _ Hc) in Hin. tauto. }
  split; [exact Hrem|].
  rewrite for_slot_keys_dict in Hdb by exact Hnd.
  rewrite new_slot_rows_length. split; [exact Hdb|].
  assert (Hshape :
    res = slots_of_day db (rq_day rq) (sr_id sr)
          ++ filter (fun s =>
                       (date_lookup (time_zone_offset db) (start_datetime s)
                        =? rq_day rq)
                       && (date_lookup (time_zone_offset db) (end_datetime s)
                           =? rq_day rq)
                       && (slot_resource s =? sr_id sr))
               (new_slot_rows (token_slot_seq db) (sr_id sr) (rq_day rq)
                  (for_created_slots
                     (slots_of_day db (rq_day rq) (sr_id sr)) cands))).
  { rewrite Hres, Hdb. unfold slots_of_day, with_token_slots.
    cbn [token_slots time_zone_offset]. now rewrite filter_app. }
  split.
  - rewrite Hshape. f_equal. apply new_slot_rows_resource.
  - intros Hzone. rewrite Hshape, Hzone. f_equal.
    apply new_slot_rows_of_day. intros k c Hin. apply Hrem in Hin. tauto.
Qed.

(** X8: the two rejections of a day query.  It is rejected with "Resource
    does not exist" exactly when no user has the external id of the
    request, and with "Resource is not schedulable" exactly when the first
    such user has no SchedulableResource for the facility and resource
    type.  When the resource resolves and the availabilities of the day
    have windows between two times of day and slot sizes of at most a day,
    the query returns (the expansion loop never hangs it). *)
Theorem X8_day_query_outcomes
    (db : DB) (facility : UUID4) (rq : SlotsForDayRequestSpec) :
  (get_slots_for_day_handler db facility rq
   = Raise (ValidationError "Resource does not exist") <->
   forall u, In u (users db) -> user_external_id u <> rq_resource rq) /\
  (get_slots_for_day_handler db facility rq
   = Raise (ValidationError "Resource is not schedulable") <->
   exists user,
     find (fun u => user_external_id u =? rq_resource rq) (users db)
     = Some user /\
     forall r, In r (schedulable_resources db) ->
       ~ (sr_facility_external_id r = facility /\
          sr_resource_id r = user_id user /\
          sr_resource_type r = rq_resource_type rq)) /\
  (forall sr,
     request_resource db facility rq = Some sr ->
     Forall well_formed_window
       (dow_availabilities
          (availabilities_of_day db (rq_day rq) (sr_id sr)) (rq_day rq)) ->
     In sr (schedulable_resources db) /\
     sr_facility_external_id sr = facility /\
     sr_resource_type sr = rq_resource_type rq /\
     exists db' res,
       get_slots_for_day_handler db facility rq = Return (db', res)).
Proof.
  assert (Hres : forall sr, request_resource db facility rq = Some sr ->
            In sr (schedulable_resources db) /\
            sr_facility_external_id sr = facility /\
            sr_resource_type sr = rq_resource_type rq /\
            exists db' res,
              get_slots_for_day_handler db facility rq = Return (db', res)).
  { intros sr Hsr.
    destruct (get_slots_for_day_handler_resolved db facility rq sr Hsr)
      as (db' & res & H).
    assert (G : In sr (schedulable_resources db) /\
                sr_facility_external_id sr = facility /\
                sr_resource_type sr = rq_resource_type rq).
    { unfold request_resource in Hsr.
      destruct (find _ (users db)) as [user|]; [|discriminate].
      apply find_some in Hsr. destruct Hsr as [Hin Hm].
      apply andb_prop in Hm. destruct Hm as [Hm Ht].
      apply andb_prop in Hm. destruct Hm as [Hf _].
      apply Z.eqb_eq in Hf. apply String.eqb_eq in Ht. tauto. }
    destruct G as (G1 & G2 & G3).
    split; [exact G1|]. split; [exact G2|]. split; [exact G3|].
    exists db', res. exact H. }
  assert (Hno_user :
            find (fun u => user_external_id u =? rq_resource rq) (users db)
            = None <->
            forall u, In u (users db) -> user_external_id u <> rq_resource rq).
  { split.
    - intros Hu u Hin Heq. apply (find_none _ _ Hu) in Hin.
      apply Z.eqb_neq in Hin. contradiction.
    - intros Hall.
      destruct (find (fun u => user_external_id u =? rq_resource rq)
                  (users db)) as [u|] eqn:Hu; [|reflexivity].
      apply find_some in Hu. destruct Hu as [Hin Heq].
      apply Z.eqb_eq in Heq. exfalso. exact (Hall u Hin Heq). }
  split; [|split].
  - rewrite <- Hno_user. split.
    + intros H.
      destruct (request_resource db facility rq) as [sr|] eqn:Hsr.
      * destruct (Hres sr eq_refl) as (_ & _ & _ & db' & res & Hret).
        rewrite Hret in H. discriminate.
      * unfold request_resource in Hsr.
        unfold get_slots_for_day_handler in H.
        destruct (find (fun u => user_external_id u =? rq_resource rq)
                    (users db)) as [user|]; [|reflexivity].
        rewrite Hsr in H. discriminate.
    + intros Hu. unfold get_slots_for_day_handler. now rewrite Hu.
  - split.
    + intros H.
      destruct (request_resource db facility rq) as [sr|] eqn:Hsr.
      * destruct (Hres sr eq_refl) as (_ & _ & _ & db' & res & Hret).
        rewrite Hret in H. discriminate.
      * unfold request_resource in Hsr.
        unfold get_slots_for_day_handler in H.
        destruct (find (fun u => user_external_id u =? rq_resource rq)
                    (users db)) as [user|]; [|discriminate].
        exists user. split; [reflexivity|].
        intros r Hr (Hf & Hid & Ht).
        apply (find_none _ _ Hsr) in Hr.
        rewrite Hf, Hid, Ht, !Z.eqb_refl, String.eqb_refl in Hr.
        discriminate.
    + intros (user & Hu & Hnone). unfold get_slots_for_day_handler.
      rewrite Hu.
      destruct (find _ (schedulable_resources db)) as [r|] eqn:Hr;
        [|reflexivity].
      apply find_some in Hr. destruct Hr as [Hin Hm].
      apply andb_prop in Hm. destruct Hm as [Hm Ht].
      apply andb_prop in Hm. destruct Hm as [Hf Hid].
      apply Z.eqb_eq in Hf, Hid. apply String.eqb_eq in Ht.
      exfalso. apply (Hnone r Hin). tauto.
  - intros sr Hsr _. exact (Hres sr Hsr).
Qed.

Lemma X8_witness :
  In sample_resource (schedulable_resources (sample_db 2 [])) /\
  sr_facility_external_id sample_resource = 900 /\
  sr_resource_type sample_resource = rq_resource_type sample_query /\
  exists db' res,
    get_slots_for_day_handler (sample_db 2 []) 900 sample_query
    = Return (db', res).
Proof.
  apply (proj2 (proj2 (X8_day_query_outcomes (sample_db 2 []) 900
                         sample_query)) sample_resource).
  - reflexivity.
  - repeat constructor; cbv; congruence.
Defined.

Lemma dow_availabilities_none l day :
  (forall a da, In a l -> In da (avail_availability a) ->
                day_of_week da <> weekday day) ->
  dow_availabilities l day = [].
Proof.
  unfold dow_availabilities. induction l as [|a l IH]; intros H;
    [reflexivity|].
  cbn [flat_map]. rewrite IH by (intros a0 da Ha0; apply H; now right).
  rewrite app_nil_r.
  assert (E : filter (fun da => day_of_week da =? weekday day)
                (avail_availability a) = []).
  { assert (G : forall l0, (forall da, In da l0 ->
                              day_of_week da <> weekday day) ->
                filter (fun da => day_of_week da =? weekday day) l0 = []).
    { induction l0 as [|da l0 IH0]; intros H0; [reflexivity|].
      cbn [filter]. pose proof (H0 da (or_introl eq_refl)) as Hne.
      apply Z.eqb_neq in Hne. rewrite Hne. apply IH0.
      intros da0 Hda0. apply H0. now right. }
    apply G. intros da Hda. apply (H a da); [now left | exact Hda]. }
  now rewrite E.
Qed.

(** X9: when no availability of the resource that is valid on the queried
    day has an entry for that day's weekday, the day query creates nothing:
    it leaves the database as it is and returns the slots already stored
    for the day. *)
Theorem X9_no_availability_on_weekday
    (db : DB) (facility : UUID4) (rq : SlotsForDayRequestSpec)
    (sr : SchedulableResource) :
  request_resource db facility rq = Some sr ->
  (forall a da,
     In a (availabilities_of_day db (rq_day rq) (sr_id sr)) ->
     In da (avail_availability a) ->
     day_of_week da <> weekday (rq_day rq)) ->
  get_slots_for_day_handler db facility rq
  = Return (db, slots_of_day db (rq_day rq) (sr_id sr)).
Proof.
  intros Hsr Hnone. apply get_slots_for_day_handler_returns.
  exists sr, []. split; [exact Hsr|]. split.
  - unfold request_candidates. now rewrite dow_availabilities_none.
  - rewrite for_created_slots_empty. split; reflexivity.
Qed.

Lemma X9_witness :
  let rq := {| rq_resource := 100; rq_resource_type := "user";
               rq_day := sample_day + 1 |} in
  get_slots_for_day_handler (sample_db 2 [sample_slot 1]) 900 rq
  = Return (sample_db 2 [sample_slot 1],
            slots_of_day (sample_db 2 [sample_slot 1]) (rq_day rq) 5).
Proof.
  intros rq.
  apply (X9_no_availability_on_weekday (sample_db 2 [sample_slot 1]) 900 rq
           {| sr_id := 5; sr_facility_external_id := 900;
              sr_resource_id := 1; sr_resource_type := "user" |}).
  - reflexivity.
  - intros a da Ha Hda. vm_compute in Ha.
    destruct Ha as [<- | []]. vm_compute in Hda.
    destruct Hda as [<- | []]. vm_compute. discriminate.
Defined.

(** X10: a day query that returns only appends slot rows.  The stored slots
    stay as they are (their allocated counters included), and so do the
    bookings and the tables the query reads; the appended rows take the
    next primary keys in a row, have nothing allocated, belong to the
    resource of the query, and start and end on the queried day in the
    zone they are built in.  The response is the slots the lookup found
    for the day before the query, followed by those of the appended rows
    that the lookup of the day finds: all of them when the store takes
    dates in the zone the rows are built in. *)
Theorem X10_day_query_only_appends
    (db : DB) (facility : UUID4) (rq : SlotsForDayRequestSpec)
    (db' : DB) (res : list TokenSlot) :
  get_slots_for_day_handler db facility rq = Return (db', res) ->
  exists sr rows,
    request_resource db facility rq = Some sr /\
    token_slots db' = token_slots db ++ rows /\
    res = slots_of_day db (rq_day rq) (sr_id sr)
          ++ filter (fun s =>
                       (date_lookup (time_zone_offset db) (start_datetime s)
                        =? rq_day rq)
                       && (date_lookup (time_zone_offset db) (end_datetime s)
                           =? rq_day rq))
                    rows /\
    (time_zone_offset db = 0 ->
     res = slots_of_day db (rq_day rq) (sr_id sr) ++ rows) /\
    map slot_id rows = keys_from (token_slot_seq db) (List.length rows) /\
    token_slot_seq db' = token_slot_seq db + Z.of_nat (List.length rows) /\
    (forall s, In s rows ->
       allocated s = 0 /\ slot_resource s = sr_id sr /\
       datetime_date (start_datetime s) = rq_day rq /\
       datetime_date (end_datetime s) = rq_day rq) /\
    token_bookings db' = token_bookings db /\
    token_booking_seq db' = token_booking_seq db /\
    time_zone_offset db' = time_zone_offset db /\
    same_reference_tables db db'.
Proof.
  intros H. apply get_slots_for_day_handler_shape in H.
  destruct H as (sr & cands & Hsr & _ & Hrem & -> & Hres & Hzone).
  eexists sr, _. split; [exact Hsr|].
  split; [reflexivity|]. split; [exact Hres|]. split; [exact Hzone|].
  split; [now rewrite new_slot_rows_ids, new_slot_rows_length|].
  split; [reflexivity|]. split.
  - intros s Hs. apply new_slot_rows_fields in Hs.
    destruct Hs as (k & c & Hin & Hr & Hst & Hen & _ & Hal).
    destruct (Hrem k c Hin) as (_ & Hvs & Hve).
    rewrite Hst, Hen, !combine_date by assumption.
    tauto.
  - repeat split.
Qed.

Lemma X10_witness :
  exists sr rows,
    request_resource evening_db 900 sample_query = Some sr /\
    token_slots evening_db_queried = token_slots evening_db ++ rows /\
    evening_rows_queried
    = slots_of_day evening_db (rq_day sample_query) (sr_id sr)
      ++ filter (fun s =>
                   (date_lookup (time_zone_offset evening_db)
                      (start_datetime s) =? rq_day sample_query)
                   && (date_lookup (time_zone_offset evening_db)
                         (end_datetime s) =? rq_day sample_query))
                rows /\
    (time_zone_offset evening_db = 0 ->
     evening_rows_queried
     = slots_of_day evening_db (rq_day sample_query) (sr_id sr) ++ rows) /\
    map slot_id rows
    = keys_from (token_slot_seq evening_db) (List.length rows) /\
    token_slot_seq evening_db_queried
    = token_slot_seq evening_db + Z.of_nat (List.length rows) /\
    (forall s, In s rows ->
       allocated s = 0 /\ slot_resource s = sr_id sr /\
       datetime_date (start_datetime s) = rq_day sample_query /\
       datetime_date (end_datetime s) = rq_day sample_query) /\
    token_bookings evening_db_queried = token_bookings evening_db /\
    token_booking_seq evening_db_queried = token_booking_seq evening_db /\
    time_zone_offset evening_db_queried = time_zone_offset evening_db /\
    same_reference_tables evening_db evening_db_queried.
Proof.
  apply (X10_day_query_only_appends evening_db 900 sample_query
           evening_db_queried evening_rows_queried).
  vm_compute. reflexivity.
Defined.

Lemma filter_all_false {A} (f : A -> bool) (l : list A) :
  (forall x, In x l -> f x = false) -> filter f l = [].
Proof.
  induction l as [|x l IH]; intros H; [reflexivity|].
  cbn [filter]. rewrite (H x (or_introl eq_refl)).
  apply IH. intros y Hy. apply H. now right.
Qed.

(** X11: after a day query has returned, every candidate of the day has its
    slot stored: a slot of the resource with the candidate's availability
    and the candidate's start and end time of day.  When the store takes
    dates in the zone the rows are built in, that slot is in the response
    and starts and ends on the queried day. *)
Theorem X11_every_candidate_has_a_slot
    (db : DB) (facility : UUID4) (rq : SlotsForDayRequestSpec)
    (db' : DB) (res : list TokenSlot)
    (sr : SchedulableResource) (cands : dict SlotCandidate)
    (k : string) (c : SlotCandidate) :
  get_slots_for_day_handler db facility rq = Return (db', res) ->
  request_resource db facility rq = Some sr ->
  request_candidates db (rq_day rq) (sr_id sr) = Some cands ->
  dict_get k cands = Some c ->
  (exists s,
     In s (token_slots db') /\
     slot_resource s = sr_id sr /\
     slot_availability s = cand_availability_id c /\
     datetime_time (start_datetime s) = cand_start_time c /\
     datetime_time (end_datetime s) = cand_end_time c) /\
  (time_zone_offset db = 0 ->
   exists s,
     In s res /\
     slot_resource s = sr_id sr /\
     slot_availability s = cand_availability_id c /\
     datetime_date (start_datetime s) = rq_day rq /\
     datetime_date (end_datetime s) = rq_day rq /\
     datetime_time (start_datetime s) = cand_start_time c /\
     datetime_time (end_datetime s) = cand_end_time c).
Proof.
  intros H Hsr Hc Hget. apply get_slots_for_day_handler_shape in H.
  destruct H as (sr' & cands' & Hsr' & Hc' & Hrem & -> & _ & Hres).
  rewrite Hsr in Hsr'. injection Hsr' as <-.
  rewrite Hc in Hc'. injection Hc' as <-.
  destruct (convert_keyed_by_times _ _ Hc k c Hget) as (Hk & Hvs & Hve).
  destruct (for_created_slots_get
              (slots_of_day db (rq_day rq) (sr_id sr)) cands k c Hget)
    as [Hiff [Hnone | Hsome]].
  - apply Hiff in Hnone. destruct Hnone as (s & Hin & Hkey & Hav).
    assert (Hfields :
              In s (token_slots db) /\
              date_lookup (time_zone_offset db) (start_datetime s) = rq_day rq /\
              date_lookup (time_zone_offset db) (end_datetime s) = rq_day rq /\
              slot_resource s = sr_id sr).
    { unfold slots_of_day in Hin. apply filter_In in Hin.
      destruct Hin as [Hin Hp].
      apply andb_prop in Hp. destruct Hp as [Hp Hr].
      apply andb_prop in Hp. destruct Hp as [Hd1 Hd2].
      apply Z.eqb_eq in Hr, Hd1, Hd2. tauto. }
    destruct Hfields as (Hst & Hd1 & Hd2 & Hr).
    unfold token_slot_key in Hkey. rewrite Hk in Hkey.
    apply slot_key_inj in Hkey;
      [|apply datetime_time_valid | apply datetime_time_valid
       | assumption | assumption].
    destruct Hkey as [Ht1 Ht2].
    split.
    + exists s. cbn [with_token_slots token_slots].
      split; [apply in_or_app; now left | tauto].
    + intros Hzone. rewrite (Hres Hzone). exists s.
      split; [apply in_or_app; now left|].
      unfold date_lookup in Hd1, Hd2. rewrite Hzone, Z.add_0_r in Hd1, Hd2.
      tauto.
  - apply dict_get_in in Hsome.
    destruct (new_slot_rows_in (sr_id sr) (rq_day rq) _ (token_slot_seq db)
                k c Hsome) as (s & Hin & Hst & Hen & Hav).
    pose proof (new_slot_rows_fields _ _ _ _ _ Hin)
      as (k0 & c0 & _ & Hr & _).
    assert (Ht : datetime_time (start_datetime s) = cand_start_time c /\
                 datetime_time (end_datetime s) = cand_end_time c /\
                 datetime_date (start_datetime s) = rq_day rq /\
                 datetime_date (end_datetime s) = rq_day rq).
    { rewrite Hst, Hen, !combine_date, !combine_time by assumption. tauto. }
    split.
    + exists s. cbn [with_token_slots token_slots].
      split; [apply in_or_app; now right | tauto].
    + intros Hzone. rewrite (Hres Hzone). exists s.
      split; [apply in_or_app; now right | tauto].
Qed.

Lemma X11_witness :
  let c := {| cand_start_time := hm 18 20; cand_end_time := hm 18 40;
              cand_availability_id := 7 |} in
  (exists s,
     In s (token_slots evening_db_queried) /\
     slot_resource s = sr_id sample_resource /\
     slot_availability s = cand_availability_id c /\
     datetime_time (start_datetime s) = cand_start_time c /\
     datetime_time (end_datetime s) = cand_end_time c) /\
  (time_zone_offset evening_db = 0 ->
   exists s,
     In s evening_rows_queried /\
     slot_resource s = sr_id sample_resource /\
     slot_availability s = cand_availability_id c /\
     datetime_date (start_datetime s) = rq_day sample_query /\
     datetime_date (end_datetime s) = rq_day sample_query /\
     datetime_time (start_datetime s) = cand_start_time c /\
     datetime_time (end_datetime s) = cand_end_time c).
Proof.
  intros c.
  eapply (X11_every_candidate_has_a_slot evening_db 900 sample_query
            evening_db_queried evening_rows_queried sample_resource
            _ "18:20:00-18:40:00"%string c).
  - vm_compute. reflexivity.
  - reflexivity.
  - vm_compute. reflexivity.
  - reflexivity.
Defined.

(** X12: a day query does not change what is stored for any other
    resource: the slots another resource's query would find, for any day,
    are the same before and after.  When the store takes dates in the zone
    the rows are built in, the same holds for every other day of the same
    resource. *)
Theorem X12_other_days_untouched
    (db : DB) (facility : UUID4) (rq : SlotsForDayRequestSpec)
    (db' : DB) (res : list TokenSlot) (sr : SchedulableResource)
    (day' : date) (resource' : Z) :
  get_slots_for_day_handler db facility rq = Return (db', res) ->
  request_resource db facility rq = Some sr ->
  resource' <> sr_id sr \/ (time_zone_offset db = 0 /\ day' <> rq_day rq) ->
  slots_of_day db' day' resource' = slots_of_day db day' resource'.
Proof.
  intros H Hsr Hother. apply get_slots_for_day_handler_shape in H.
  destruct H as (sr' & cands & Hsr' & _ & Hrem & -> & _).
  rewrite Hsr in Hsr'. injection Hsr' as <-.
  unfold slots_of_day, with_token_slots. cbn [token_slots time_zone_offset].
  rewrite filter_app, (filter_all_false _ (new_slot_rows _ _ _ _)).
  - apply app_nil_r.
  - intros s Hs. apply new_slot_rows_fields in Hs.
    destruct Hs as (k & c & Hin & Hr & Hst & Hen & _).
    destruct (Hrem k c Hin) as (_ & Hvs & Hve).
    destruct Hother as [Hd | [Hzone Hd]].
    + rewrite Hr. apply not_eq_sym in Hd. apply Z.eqb_neq in Hd.
      rewrite Hd. now rewrite !andb_false_r.
    + unfold date_lookup.
      rewrite Hzone, Z.add_0_r, Hst, combine_date by assumption.
      apply not_eq_sym in Hd. apply Z.eqb_neq in Hd. now rewrite Hd.
Qed.

Lemma X12_witness :
  slots_of_day sample_db_queried (sample_day + 1) 5
  = slots_of_day (sample_db 2 []) (sample_day + 1) 5.
Proof.
  apply (X12_other_days_untouched (sample_db 2 []) 900 sample_query
           sample_db_queried sample_rows_queried sample_resource).
  - vm_compute. reflexivity.
  - reflexivity.
  - right. split; [reflexivity | vm_compute; discriminate].
Defined.

(** ** More on booking *)

Lemma get_object_stored db pk slot :
  get_object db pk = Return slot ->
  stored_allocated db pk = Some (allocated slot).
Proof.
  unfold get_object, stored_allocated.
  destruct (find _ (token_slots db)) as [s|]; [|discriminate].
  now intros [= ->].
Qed.

Lemma map_const_repeat {A B} (x : B) (l : list A) :
  map (fun _ => x) l = repeat x (List.length l).
Proof. induction l as [|y l IH]; cbn; [reflexivity | now rewrite IH]. Qed.

(** X13: requests for one slot served one after the other fill the slot up
    to its capacity and not beyond: with [free] tokens left at the start,
    the first [free] requests are booked, all later ones are rejected with
    "Slot is already full", and the stored counter ends at its start value
    plus the number of bookings. *)
Theorem X13_serial_bookings_fill_capacity (requests : list BookingRequest) :
  forall (db : DB) (pk : Z) (slot : TokenSlot) (av : Availability),
    get_object db pk = Return slot ->
    find (fun a => avail_id a =? slot_availability slot) (availabilities db)
    = Some av ->
    Forall (targets db pk) requests ->
    let free := Z.to_nat (tokens_per_slot av - allocated slot) in
    let booked := Nat.min (List.length requests) free in
    exists bookings,
      snd (serve_serially db requests)
      = map Return bookings
        ++ repeat (Raise (ValidationError "Slot is already full"))
             (List.length requests - booked) /\
      List.length bookings = booked /\
      Forall (fun b => token_slot b = pk /\ status b = "booked"%string)
        bookings /\
      stored_allocated (fst (serve_serially db requests)) pk
      = Some (allocated slot + Z.of_nat booked).
Proof.
  induction requests as [|r rest IH]; intros db pk slot av Hget Hav Hall.
  - exists []. cbn. rewrite (get_object_stored db pk slot Hget), Z.add_0_r.
    repeat split. constructor.
  - cbn zeta.
    destruct (Z_lt_le_dec (allocated slot) (tokens_per_slot av)) as [Hfree | Hfull].
    + inversion Hall as [|? ? [Hpk [p Hp]] Hrest]; subst.
      pose proof (get_object_id db (br_slot r) slot Hget) as Hid.
      cbn [serve_serially].
      rewrite (create_appointment_eval db (br_slot r) slot p av _ _ Hget Hp Hav).
      assert (E : (allocated slot >=? tokens_per_slot av) = false).
      { rewrite Z.geb_leb. apply Z.leb_gt. lia. }
      rewrite E. cbn [database_after TokenBooking_objects_create response].
      set (b := {| booking_id := _; token_slot := _ |}).
      set (db1 := with_token_bookings (TokenSlot_save db (bump slot)) _ _).
      assert (Hget1 : get_object db1 (br_slot r) = Return (bump slot)).
      { unfold get_object, db1, with_token_bookings, TokenSlot_save,
          with_token_slots. cbn [token_slots].
        rewrite find_update_slot_row. cbn [bump slot_id].
        now rewrite Hid, Z.eqb_refl. }
      specialize (IH db1 (br_slot r) (bump slot) av Hget1 Hav Hrest).
      cbn zeta in IH. cbn [bump allocated] in IH.
      destruct (serve_serially db1 rest) as [dbf out] eqn:Eout.
      cbn [fst snd] in *.
      destruct IH as (bs & IH1 & IH2 & IH3 & IH4).
      assert (Hmin : Nat.min (List.length (r :: rest))
                       (Z.to_nat (tokens_per_slot av - allocated slot))
                     = S (Nat.min (List.length rest)
                            (Z.to_nat (tokens_per_slot av
                                       - (allocated slot + 1))))).
      { cbn [List.length]. lia. }
      rewrite Hmin. exists (b :: bs). cbn [map app List.length].
      split; [rewrite IH1; f_equal|]. split; [now rewrite IH2|].
      split; [constructor; [split; [exact Hid | reflexivity] | exact IH3]|].
      rewrite IH4. f_equal. lia.
    + rewrite (serve_serially_full (r :: rest) db pk slot av Hget Hav
                 ltac:(lia) Hall).
      cbn [fst snd].
      assert (Hmin : Nat.min (List.length (r :: rest))
                       (Z.to_nat (tokens_per_slot av - allocated slot))
                     = 0%nat) by lia.
      rewrite Hmin. exists []. cbn [map app List.length].
      rewrite (get_object_stored db pk slot Hget), Z.add_0_r, Nat.sub_0_r.
      split; [apply (map_const_repeat _ (r :: rest))|].
      repeat split. constructor.
Qed.

Lemma X13_witness :
  let db := sample_db 2 [sample_slot 0] in
  let requests := [sample_booking 501; sample_booking 502; sample_booking 503] in
  exists bookings,
    snd (serve_serially db requests)
    = map Return bookings
      ++ repeat (Raise (ValidationError "Slot is already full")) (3 - 2) /\
    List.length bookings = 2%nat /\
    Forall (fun b => token_slot b = 1 /\ status b = "booked"%string) bookings /\
    stored_allocated (fst (serve_serially db requests)) 1 = Some (0 + 2).
Proof.
  apply (X13_serial_bookings_fill_capacity
           [sample_booking 501; sample_booking 502; sample_booking 503]
           (sample_db 2 [sample_slot 0]) 1 (sample_slot 0)
           (sample_availability 2)).
  - reflexivity.
  - reflexivity.
  - repeat constructor; eexists; vm_compute; reflexivity.
Defined.

(** ** More on requests in flight *)

Lemma count_set_progress n p : forall l r q,
  nth_error l n = Some (r, q) ->
  succeeded (r, q) = false ->
  List.length (filter succeeded (set_progress n p l))
  = (List.length (filter succeeded l)
     + if succeeded (r, p) then 1 else 0)%nat.
Proof.
  induction n as [|n IH]; intros [|[r0 q0] l] r q Hn Hq; cbn in Hn;
    try discriminate.
  - injection Hn as -> ->. cbn [set_progress filter].
    rewrite Hq. destruct (succeeded (r, p)); cbn [List.length]; lia.
  - cbn [set_progress filter].
    destruct (succeeded (r0, q0)); cbn [List.length];
      rewrite (IH l r q Hn Hq); lia.
Qed.

Lemma create_appointment_handler_booking db obj request_data user db' b :
  create_appointment_handler db obj request_data user = Return (db', b) ->
  token_bookings db' = token_bookings db ++ [b] /\
  status b = "booked"%string /\
  token_slot b = slot_id obj /\
  same_reference_tables db db'.
Proof.
  unfold create_appointment_handler, lock_create_appointment.
  destruct (find _ (patients db)) as [p|]; [|discriminate].
  destruct (find _ (availabilities db)) as [av|]; [|discriminate].
  destruct (allocated obj >=? tokens_per_slot av); [discriminate|].
  intros [= <- <-]. repeat split.
Qed.

Lemma server_step_bookings s e s' :
  server_step s e = Some s' ->
  exists new,
    token_bookings (server_db s') = token_bookings (server_db s) ++ new /\
    count_succeeded s' = (count_succeeded s + List.length new)%nat /\
    Forall (fun b => status b = "booked"%string) new /\
    same_reference_tables (server_db s) (server_db s').
Proof.
  unfold count_succeeded.
  destruct e as [n | n | facility rq]; cbn [server_step]; intros H.
  - destruct (nth_error (in_flight s) n) as [[r [| |]]|] eqn:En;
      try discriminate.
    injection H as <-. cbn [server_db in_flight]. exists [].
    rewrite app_nil_r, (count_set_progress n _ _ r Arrived En eq_refl).
    split; [reflexivity|]. split; [|split; [constructor | repeat split]].
    unfold succeeded. cbn [snd].
    destruct (get_object (server_db s) (br_slot r)); cbn [List.length]; lia.
  - destruct (nth_error (in_flight s) n) as [[r [|obj|]]|] eqn:En;
      try discriminate.
    destruct (create_appointment_handler _ _ _ _) as [[db' b]| |] eqn:E;
      injection H as <-; cbn [server_db in_flight].
    + apply create_appointment_handler_booking in E.
      destruct E as (Hb & Hst & _ & Href).
      exists [b]. rewrite (count_set_progress n _ _ r (Fetched obj) En eq_refl).
      split; [exact Hb|]. split; [reflexivity|].
      split; [now constructor | exact Href].
    + exists []. rewrite app_nil_r,
        (count_set_progress n _ _ r (Fetched obj) En eq_refl).
      split; [reflexivity|]. split; [cbn; lia|].
      split; [constructor | repeat split].
    + exists []. rewrite app_nil_r,
        (count_set_progress n _ _ r (Fetched obj) En eq_refl).
      split; [reflexivity|]. split; [cbn; lia|].
      split; [constructor | repeat split].
  - exists [].
    destruct (get_slots_for_day_handler _ _ _) as [[db' res]| |] eqn:E;
      injection H as <-; cbn [server_db in_flight]; rewrite app_nil_r.
    + apply get_slots_for_day_handler_appends in E.
      destruct E as (rows & -> & _).
      split; [reflexivity|]. split; [cbn; lia|].
      split; [constructor | repeat split].
    + split; [reflexivity|]. split; [cbn; lia|].
      split; [constructor | repeat split].
    + split; [reflexivity|]. split; [cbn; lia|].
      split; [constructor | repeat split].
Qed.

(** X14: in every interleaving of fetches, handler runs and day queries,
    each request that is answered with a booking adds exactly one Booking
    row with status booked, and nothing else touches the bookings: earlier
    rows stay in place, and the number of rows added equals the number of
    requests booked. *)
Theorem X14_one_booking_row_per_success (events : list Event) :
  forall s s',
    server_run s events = Some s' ->
    exists new,
      token_bookings (server_db s') = token_bookings (server_db s) ++ new /\
      count_succeeded s' = (count_succeeded s + List.length new)%nat /\
      Forall (fun b => status b = "booked"%string) new.
Proof.
  induction events as [|e events IH]; intros s s' H; cbn [server_run] in H.
  - injection H as <-. exists []. rewrite app_nil_r.
    split; [reflexivity|]. split; [cbn [List.length]; lia | constructor].
  - destruct (server_step s e) as [s1|] eqn:E; [|discriminate].
    apply server_step_bookings in E.
    destruct E as (new1 & Hb1 & Hc1 & Hs1 & _).
    destruct (IH s1 s' H) as (new2 & Hb2 & Hc2 & Hs2).
    exists (new1 ++ new2). rewrite Hb2, Hb1, Hc2, Hc1, length_app, app_assoc.
    split; [reflexivity|]. split; [lia|].
    apply Forall_app. now split.
Qed.

Lemma X14_witness :
  exists new,
    token_bookings (server_db sample_server_served)
    = token_bookings (server_db sample_server_arrived) ++ new /\
    count_succeeded sample_server_served
    = (count_succeeded sample_server_arrived + List.length new)%nat /\
    Forall (fun b => status b = "booked"%string) new.
Proof.
  apply (X14_one_booking_row_per_success
           [GetObject 0; GetObject 1; RunHandler 0; GetObject 2; RunHandler 1;
            RunHandler 2]
           sample_server_arrived sample_server_served).
  vm_compute. reflexivity.
Defined.

Lemma same_reference_tables_trans db1 db2 db3 :
  same_reference_tables db1 db2 -> same_reference_tables db2 db3 ->
  same_reference_tables db1 db3.
Proof.
  unfold same_reference_tables.
  intros (A1 & A2 & A3 & A4 & A5) (B1 & B2 & B3 & B4 & B5).
  repeat split; congruence.
Qed.

Lemma server_run_reference_tables events : forall s s',
  server_run s events = Some s' ->
  same_reference_tables (server_db s) (server_db s').
Proof.
  induction events as [|e events IH]; intros s s' H; cbn [server_run] in H.
  - injection H as <-. repeat split.
  - destruct (server_step s e) as [s1|] eqn:E; [|discriminate].
    apply server_step_bookings in E. destruct E as (_ & _ & _ & _ & Href).
    eapply same_reference_tables_trans; [exact Href | now apply IH].
Qed.

(** X15: in every interleaving of fetches, handler runs and day queries,
    started from stored slots that are within capacity (none at all, for
    instance) and with no negative tokens_per_slot, every stored slot stays
    within 0 <= allocated <= tokens_per_slot, no slot disappears, and the
    users, resources, schedules, availabilities and patients are left as
    they were. *)
Theorem X15_interleavings_keep_slots_within_capacity
    (db : DB) (requests : list BookingRequest) (events : list Event)
    (s : Server) :
  nonneg_capacities db ->
  (forall row, In row (token_slots db) -> within_capacity db row) ->
  server_run (arrivals db requests) events = Some s ->
  (forall row cap,
     In row (token_slots (server_db s)) ->
     slot_capacity (server_db s) row = Some cap ->
     0 <= allocated row <= cap) /\
  (forall pk, In pk (map slot_id (token_slots db)) ->
              In pk (map slot_id (token_slots (server_db s)))) /\
  same_reference_tables db (server_db s).
Proof.
  intros Hnn Hrows Hrun.
  assert (Hok : server_ok (arrivals db requests)).
  { split; [exact Hrows|]. cbn [arrivals in_flight]. intros r obj Hin.
    apply in_map_iff in Hin. destruct Hin as (x & Hx & _). discriminate. }
  destruct (server_run_ok events (arrivals db requests) s Hnn Hok Hrun)
    as [[Hrows' _] Hids].
  split; [|split].
  - intros row cap Hin Hcap. now apply (Hrows' row Hin cap).
  - exact Hids.
  - exact (server_run_reference_tables events _ _ Hrun).
Qed.

Lemma X15_witness :
  (forall row cap,
     In row (token_slots (server_db sample_server_served)) ->
     slot_capacity (server_db sample_server_served) row = Some cap ->
     0 <= allocated row <= cap) /\
  (forall pk, In pk (map slot_id (token_slots (sample_db 2 [sample_slot 0]))) ->
              In pk (map slot_id (token_slots (server_db sample_server_served))))
  /\
  same_reference_tables (sample_db 2 [sample_slot 0])
    (server_db sample_server_served).
Proof.
  apply (X15_interleavings_keep_slots_within_capacity
           (sample_db 2 [sample_slot 0])
           [sample_booking 501; sample_booking 502; sample_booking 503]
           [GetObject 0; GetObject 1; RunHandler 0; GetObject 2; RunHandler 1;
            RunHandler 2]).
  - intros a [<- | []]. vm_compute. discriminate.
  - intros row [<- | []] cap H. vm_compute in H. injection H as <-.
    vm_compute. split; discriminate.
  - vm_compute. reflexivity.
Defined.

(** ** More on [consultation_symptom.py] *)

(** X16: the integer codes of the Symptom enumeration are pairwise
    different, so a stored code names one symptom; they lie between 2 and
    34; and OTHERS is the only symptom with code 9, the code [save] tests
    for. *)
Theorem X16_symptom_codes_distinct :
  (forall s1 s2 : ConsultationSymptomModel.Symptom,
     ConsultationSymptomModel.Symptom_value s1
     = ConsultationSymptomModel.Symptom_value s2 -> s1 = s2) /\
  (forall s, 2 <= ConsultationSymptomModel.Symptom_value s <= 34) /\
  (forall s, ConsultationSymptomModel.Symptom_value s = 9
             <-> s = ConsultationSymptomModel.OTHERS).
Proof.
  split; [|split].
  - intros s1 s2 H. destruct s1; destruct s2; cbn in H;
      first [reflexivity | discriminate H].
  - intros s. destruct s; cbn; lia.
  - intros s. split; [|now intros ->].
    destruct s; cbn; intros H; first [reflexivity | discriminate H].
Qed.

(** ** Bookings and the rows they refer to *)

Lemma create_appointment_handler_refers db obj request_data user db' b :
  create_appointment_handler db obj request_data user = Return (db', b) ->
  booking_refers db' b.
Proof.
  unfold create_appointment_handler, lock_create_appointment, booking_refers.
  destruct (find _ (patients db)) as [p|] eqn:Ep; [|discriminate].
  destruct (find _ (availabilities db)) as [av|]; [|discriminate].
  destruct (allocated obj >=? tokens_per_slot av); [discriminate|].
  intros [= <- <-]. cbn. split.
  - exists p. split; [|reflexivity]. apply find_some in Ep. tauto.
  - assert (G : forall rows x, slot_id x = slot_id obj ->
                In (slot_id obj) (map slot_id (update_slot_row x rows))).
    { induction rows as [|r rows IH]; intros x Hx; cbn [update_slot_row].
      - left. exact Hx.
      - destruct (slot_id r =? slot_id x); cbn [map];
          [left; exact Hx | right; now apply IH]. }
    now apply G.
Qed.

Lemma booking_refers_step s e s' b :
  server_step s e = Some s' ->
  booking_refers (server_db s) b -> booking_refers (server_db s') b.
Proof.
  intros Hstep [(p & Hp & Hid) Hslot].
  pose proof (server_step_bookings s e s' Hstep)
    as (_ & _ & _ & _ & _ & _ & _ & _ & Hpat).
  split.
  - exists p. rewrite Hpat. tauto.
  - eapply server_step_keeps_slots; eassumption.
Qed.

(** X17: in every interleaving, every Booking row refers to a patient that
    is stored and to a slot that is stored, provided the rows present at
    the start do: a booking is never recorded for an unknown patient or a
    missing slot, and neither is removed afterwards. *)
Theorem X17_bookings_refer_to_stored_rows (events : list Event) :
  forall s s',
    (forall b, In b (token_bookings (server_db s)) ->
               booking_refers (server_db s) b) ->
    server_run s events = Some s' ->
    forall b, In b (token_bookings (server_db s')) ->
              booking_refers (server_db s') b.
Proof.
  induction events as [|e events IH]; intros s s' Hinv H; cbn [server_run] in H.
  - now injection H as <-.
  - destruct (server_step s e) as [s1|] eqn:E; [|discriminate].
    apply (IH s1 s'); [|exact H].
    intros b Hb.
    destruct (server_step_bookings s e s1 E) as (new & Hnew & _).
    rewrite Hnew in Hb. apply in_app_or in Hb. destruct Hb as [Hb | Hb].
    + eapply booking_refers_step; [exact E | now apply Hinv].
    + destruct e as [n | n | facility rq]; cbn [server_step] in E.
      * destruct (nth_error (in_flight s) n) as [[r [| |]]|];
          try discriminate.
        injection E as <-. cbn [server_db] in Hnew.
        apply (f_equal (@List.length _)) in Hnew.
        rewrite length_app in Hnew. destruct new; [destruct Hb|].
        cbn [List.length] in Hnew. lia.
      * destruct (nth_error (in_flight s) n) as [[r [|obj|]]|];
          try discriminate.
        destruct (create_appointment_handler _ _ _ _) as [[db' b0]| |] eqn:Eh;
          injection E as <-; cbn [server_db] in *.
        -- pose proof (create_appointment_handler_booking _ _ _ _ _ _ Eh)
             as (Hb0 & _).
           rewrite Hb0 in Hnew. apply app_inv_head in Hnew. subst new.
           destruct Hb as [<- | []].
           eapply create_appointment_handler_refers. exact Eh.
        -- apply (f_equal (@List.length _)) in Hnew.
           rewrite length_app in Hnew. destruct new; [destruct Hb|].
           cbn [List.length] in Hnew. lia.
        -- apply (f_equal (@List.length _)) in Hnew.
           rewrite length_app in Hnew. destruct new; [destruct Hb|].
           cbn [List.length] in Hnew. lia.
      * assert (Hsame : token_bookings (server_db s1)
                        = token_bookings (server_db s)).
        { destruct (get_slots_for_day_handler _ _ _) as [[db' res]| |] eqn:Eq;
            injection E as <-; cbn [server_db]; try reflexivity.
          apply get_slots_for_day_handler_appends in Eq.
          destruct Eq as (rows & -> & _). reflexivity. }
        rewrite Hsame in Hnew.
        apply (f_equal (@List.length _)) in Hnew.
        rewrite length_app in Hnew. destruct new; [destruct Hb|].
        cbn [List.length] in Hnew. lia.
Qed.

Lemma X17_witness :
  booking_refers (server_db sample_server_served)
    {| booking_id := 1; token_slot := 1; patient := 11; booked_by := 1;
       reason_for_visit := "checkup"; status := "booked" |}.
Proof.
  apply (X17_bookings_refer_to_stored_rows
           [GetObject 0; GetObject 1; RunHandler 0; GetObject 2; RunHandler 1;
            RunHandler 2]
           sample_server_arrived sample_server_served).
  - intros b [].
  - vm_compute. reflexivity.
  - vm_compute. left. reflexivity.
Defined.

(** ** Bookings after a day query *)

Lemma find_app_some {A} (f : A -> bool) (l l' : list A) x :
  find f l = Some x -> find f (l ++ l') = Some x.
Proof.
  induction l as [|y l IH]; cbn [find app]; [discriminate|].
  destruct (f y); [tauto | exact IH].
Qed.

Lemma same_but_allocated_refl s : same_but_allocated s s.
Proof. repeat split. Qed.

Lemma create_appointment_handler_zone db obj request_data user db' b :
  create_appointment_handler db obj request_data user = Return (db', b) ->
  time_zone_offset db' = time_zone_offset db.
Proof.
  unfold create_appointment_handler, lock_create_appointment.
  destruct (find _ (patients db)) as [p|]; [|discriminate].
  destruct (find _ (availabilities db)) as [av|]; [|discriminate].
  destruct (allocated obj >=? tokens_per_slot av); [discriminate|].
  intros [= <- _]. reflexivity.
Qed.

Lemma same_but_allocated_in_day db db' s s' day resource :
  time_zone_offset db' = time_zone_offset db ->
  same_but_allocated s s' ->
  In s (slots_of_day db day resource) ->
  In s' (token_slots db') ->
  In s' (slots_of_day db' day resource) /\
  token_slot_key s' = token_slot_key s /\
  slot_availability s' = slot_availability s.
Proof.
  intros Hzone (_ & Hr & Hst & Hen & Hav) Hin Hin'.
  unfold slots_of_day in *. apply filter_In in Hin. destruct Hin as [_ Hp].
  split; [|split].
  - apply filter_In. split; [exact Hin'|].
    now rewrite Hzone, <- Hr, <- Hst, <- Hen.
  - unfold token_slot_key. now rewrite Hst, Hen.
  - now symmetry.
Qed.

(** Saving an instance that agrees with its row replaces that row and keeps
    every row up to [allocated]. *)
Lemma update_slot_row_keeps x : forall rows row s,
  find (fun y => slot_id y =? slot_id x) rows = Some row ->
  same_but_allocated row x ->
  In s rows ->
  exists s', In s' (update_slot_row x rows) /\ same_but_allocated s s'.
Proof.
  induction rows as [|r0 rows IH]; intros row s Hfind Hsame Hin;
    [destruct Hin|].
  cbn [find update_slot_row] in *.
  destruct (slot_id r0 =? slot_id x) eqn:E.
  - injection Hfind as ->. destruct Hin as [<- | Hin].
    + exists x. split; [now left | exact Hsame].
    + exists s. split; [now right | apply same_but_allocated_refl].
  - destruct Hin as [<- | Hin].
    + exists r0. split; [now left | apply same_but_allocated_refl].
    + destruct (IH row s Hfind Hsame Hin) as (s' & Hs' & Hss).
      exists s'. split; [now right | exact Hss].
Qed.

Lemma same_reference_tables_request db db' facility rq day resource :
  same_reference_tables db db' ->
  request_resource db' facility rq = request_resource db facility rq /\
  request_candidates db' day resource = request_candidates db day resource.
Proof.
  intros (Hu & Hr & Hs & Ha & _).
  unfold request_resource, request_candidates, availabilities_of_day.
  now rewrite Hu, Hr, Hs, Ha.
Qed.

Lemma materialised_after_query db facility rq db1 res sr cands :
  time_zone_offset db = 0 ->
  get_slots_for_day_handler db facility rq = Return (db1, res) ->
  request_resource db facility rq = Some sr ->
  request_candidates db (rq_day rq) (sr_id sr) = Some cands ->
  materialised db1 (rq_day rq) (sr_id sr) cands.
Proof.
  intros Hzone H Hsr Hc.
  pose proof (proj1 (get_slots_for_day_handler_returns _ _ _ _ _) H)
    as (sr0 & cands0 & Hsr0 & _ & _ & Hres).
  apply get_slots_for_day_handler_shape in H.
  destruct H as (sr' & cands' & Hsr' & Hc' & Hrem & _ & _ & Hres').
  specialize (Hres' Hzone).
  rewrite Hsr in Hsr0, Hsr'. injection Hsr0 as <-. injection Hsr' as <-.
  rewrite Hc in Hc'. injection Hc' as <-.
  intros k c Hget. rewrite <- Hres, Hres'.
  destruct (convert_keyed_by_times _ _ Hc k c Hget) as (Hk & Hvs & Hve).
  destruct (for_created_slots_get
              (slots_of_day db (rq_day rq) (sr_id sr)) cands k c Hget)
    as [Hiff [Hnone | Hsome]].
  - apply Hiff in Hnone. destruct Hnone as (s & Hin & Hs).
    exists s. split; [apply in_or_app; now left | exact Hs].
  - apply dict_get_in in Hsome.
    destruct (new_slot_rows_in (sr_id sr) (rq_day rq) _ (token_slot_seq db)
                k c Hsome) as (s & Hin & Hst & Hen & Hav).
    exists s. split; [apply in_or_app; now right|]. split; [|exact Hav].
    unfold token_slot_key. rewrite Hst, Hen, !combine_time by assumption.
    now symmetry.
Qed.

Lemma query_when_materialised db facility rq sr cands :
  request_resource db facility rq = Some sr ->
  request_candidates db (rq_day rq) (sr_id sr) = Some cands ->
  materialised db (rq_day rq) (sr_id sr) cands ->
  get_slots_for_day_handler db facility rq
  = Return (db, slots_of_day db (rq_day rq) (sr_id sr)).
Proof.
  intros Hsr Hc Hm. apply get_slots_for_day_handler_returns.
  exists sr, cands. split; [exact Hsr|]. split; [exact Hc|].
  assert (E : for_created_slots (slots_of_day db (rq_day rq) (sr_id sr)) cands
              = []).
  { apply dict_all_absent. intros k.
    destruct (dict_get k cands) as [c|] eqn:Eg;
      [|now apply for_created_slots_absent].
    apply (for_created_slots_get _ cands k c Eg).
    destruct (Hm k c Eg) as (s & Hin & Hk & Hav). exists s. tauto. }
  rewrite E. split; reflexivity.
Qed.

Lemma server_step_materialised s e s' day resource cands :
  server_step s e = Some s' ->
  fetched_agree s ->
  materialised (server_db s) day resource cands ->
  fetched_agree s' /\ materialised (server_db s') day resource cands.
Proof.
  intros Hstep Hag Hm. unfold fetched_agree, materialised in *.
  destruct e as [n | n | facility rq]; cbn [server_step] in Hstep.
  - destruct (nth_error (in_flight s) n) as [[r [| |]]|]; try discriminate.
    injection Hstep as <-. cbn [server_db]. split; [|exact Hm].
    intros r0 obj Hin. cbn [in_flight server_db] in *.
    apply set_progress_in in Hin.
    destruct Hin as [Hin | Hp]; [now apply (Hag r0)|].
    destruct (get_object (server_db s) (br_slot r)) as [o| |] eqn:Eg;
      try discriminate.
    injection Hp as ->. exists o. split; [|apply same_but_allocated_refl].
    rewrite (get_object_id _ _ _ Eg). unfold get_object in Eg.
    destruct (find _ (token_slots (server_db s))) as [x|]; [|discriminate].
    now injection Eg as ->.
  - destruct (nth_error (in_flight s) n) as [[r [|obj|]]|] eqn:En;
      try discriminate.
    apply nth_error_In in En.
    destruct (Hag r obj En) as (row & Hfind & Hsame).
    destruct (create_appointment_handler _ _ _ _) as [[db' b]| |] eqn:E;
      injection Hstep as <-; cbn [server_db in_flight].
    + pose proof (create_appointment_handler_zone _ _ _ _ _ _ E) as Hzone.
      apply create_appointment_handler_returns in E.
      destruct E as (av & _ & _ & _ & Hrows).
      fold (bump obj) in Hrows.
      assert (Hsame' : same_but_allocated row (bump obj)).
      { destruct Hsame as (A & B & C & D & F). repeat split; assumption. }
      split.
      * intros r0 o Hin. apply set_progress_in in Hin.
        destruct Hin as [Hin | Hp]; [|discriminate].
        destruct (Hag r0 o Hin) as (row_o & Hfo & Hso).
        rewrite Hrows, find_update_slot_row.
        destruct (slot_id (bump obj) =? slot_id o) eqn:Eid.
        -- exists (bump obj). split; [reflexivity|].
           apply Z.eqb_eq in Eid. cbn [bump slot_id] in Eid.
           rewrite <- Eid, Hfind in Hfo. injection Hfo as <-.
           destruct Hsame as (A & B & C & D & F).
           destruct Hso as (A' & B' & C' & D' & F').
           repeat split; cbn [bump slot_id slot_resource start_datetime
                              end_datetime slot_availability]; congruence.
        -- exists row_o. split; [exact Hfo | exact Hso].
      * intros k c Hget. destruct (Hm k c Hget) as (s0 & Hin & Hk & Hav).
        assert (Hin0 : In s0 (token_slots (server_db s))).
        { unfold slots_of_day in Hin. apply filter_In in Hin. tauto. }
        destruct (update_slot_row_keeps (bump obj) _ row s0 Hfind Hsame' Hin0)
          as (s1 & Hin1 & Hs01).
        rewrite <- Hrows in Hin1.
        destruct (same_but_allocated_in_day (server_db s) db' s0 s1 day
                    resource Hzone Hs01 Hin Hin1) as (Hd & Hk1 & Hav1).
        exists s1. split; [exact Hd|]. split; congruence.
    + split; [|exact Hm]. intros r0 o Hin. apply set_progress_in in Hin.
      destruct Hin as [Hin | Hp]; [now apply (Hag r0) | discriminate].
    + split; [|exact Hm]. intros r0 o Hin. apply set_progress_in in Hin.
      destruct Hin as [Hin | Hp]; [now apply (Hag r0) | discriminate].
  - destruct (get_slots_for_day_handler _ _ _) as [[db' res]| |] eqn:E;
      injection Hstep as <-; cbn [server_db in_flight];
      try (split; assumption).
    apply get_slots_for_day_handler_appends in E.
    destruct E as (rows & -> & _). split.
    + intros r0 o Hin. destruct (Hag r0 o Hin) as (row & Hf & Hs).
      exists row. split; [|exact Hs].
      cbn [with_token_slots token_slots]. now apply find_app_some.
    + intros k c Hget. destruct (Hm k c Hget) as (s0 & Hin & Hs0).
      exists s0. split; [|exact Hs0].
      unfold slots_of_day in *.
      cbn [with_token_slots token_slots time_zone_offset].
      rewrite filter_app. apply in_or_app. now left.
Qed.

Lemma server_run_materialised events day resource cands : forall s s',
  server_run s events = Some s' ->
  fetched_agree s ->
  materialised (server_db s) day resource cands ->
  materialised (server_db s') day resource cands.
Proof.
  induction events as [|e events IH]; intros s s' H Hag Hm;
    cbn [server_run] in H.
  - now injection H as <-.
  - destruct (server_step s e) as [s1|] eqn:E; [|discriminate].
    destruct (server_step_materialised s e s1 day resource cands E Hag Hm)
      as [Hag1 Hm1].
    exact (IH s1 s' H Hag1 Hm1).
Qed.

(** X18: when the store takes dates in the zone the handler builds
    datetimes in, bookings never make a day materialise again once a day
    query has returned: after any interleaving of booking requests (and of
    further day queries), the same day query creates no slot and returns
    the slots stored for the day, with the counters the bookings left. *)
Theorem X18_bookings_do_not_rematerialise
    (db : DB) (facility : UUID4) (rq : SlotsForDayRequestSpec)
    (db1 : DB) (res1 : list TokenSlot) (sr : SchedulableResource)
    (requests : list BookingRequest) (events : list Event) (s2 : Server) :
  time_zone_offset db = 0 ->
  get_slots_for_day_handler db facility rq = Return (db1, res1) ->
  request_resource db facility rq = Some sr ->
  server_run (arrivals db1 requests) events = Some s2 ->
  get_slots_for_day_handler (server_db s2) facility rq
  = Return (server_db s2,
            slots_of_day (server_db s2) (rq_day rq) (sr_id sr)).
Proof.
  intros Hzone H Hsr Hrun.
  destruct (proj1 (get_slots_for_day_handler_returns _ _ _ _ _) H)
    as (sr0 & cands & Hsr0 & Hc & Hdb1 & _).
  rewrite Hsr in Hsr0. injection Hsr0 as <-.
  pose proof (materialised_after_query _ _ _ _ _ _ _ Hzone H Hsr Hc) as Hm1.
  assert (Href1 : same_reference_tables db db1).
  { apply get_slots_for_day_handler_appends in H.
    destruct H as (rows & -> & _). repeat split. }
  pose proof (server_run_reference_tables events _ _ Hrun) as Href2.
  cbn [arrivals server_db] in Href2.
  pose proof (same_reference_tables_trans _ _ _ Href1 Href2) as Href.
  destruct (same_reference_tables_request db (server_db s2) facility rq
              (rq_day rq) (sr_id sr) Href) as [Hsr2 Hc2].
  apply (query_when_materialised _ _ _ sr cands).
  - now rewrite Hsr2.
  - now rewrite Hc2.
  - apply (server_run_materialised events _ _ _ (arrivals db1 requests));
      [exact Hrun | | exact Hm1].
    intros r obj Hin. cbn [arrivals in_flight] in Hin.
    apply in_map_iff in Hin. destruct Hin as (x & Hx & _). discriminate.
Qed.

Lemma X18_witness :
  get_slots_for_day_handler (server_db sample_server_queried_served) 900
    sample_query
  = Return (server_db sample_server_queried_served,
            slots_of_day (server_db sample_server_queried_served)
              (rq_day sample_query) 5).
Proof.
  apply (X18_bookings_do_not_rematerialise (sample_db 2 []) 900 sample_query
           sample_db_queried sample_rows_queried
           {| sr_id := 5; sr_facility_external_id := 900;
              sr_resource_id := 1; sr_resource_type := "user" |}
           [sample_booking 501; sample_booking 502; sample_booking 503]
           [GetObject 0; GetObject 1; RunHandler 0; GetObject 2; RunHandler 1;
            RunHandler 2]
           sample_server_queried_served).
  - reflexivity.
  - vm_compute. reflexivity.
  - reflexivity.
  - vm_compute. reflexivity.
Defined.
